(** * Multi-fidelity Bayesian optimisation: posterior state and searcher

    A shallow embedding of

    - [IndependentGPPerResourcePosteriorState]
      (searchers/bayesopt/gpautograd/independent/posterior_state.py), and
    - [GPMultiFidelitySearcher] (searchers/gp_multifidelity_searcher.py),

    followed by the properties of these two classes.  Python exceptions are
    values of an error monad, numpy arrays are lists (a matrix is the list of
    its rows, kept with its number of columns where the code reads it),
    Python dicts are association lists in insertion order. *)

From Stdlib Require Import String Bool Arith ZArith Lia List Permutation.
Import ListNotations.

Set Implicit Arguments.

(* ================================================================== *)
(** * Exceptions and the error monad *)

(** The exceptions the modelled code can raise.  [AssertionError] carries the
    fixed part of the assertion's message (the formatted values are left
    out). *)
Inductive exn : Type :=
| KeyError (key : Z)
| IndexError
| ValueError
| RangeError
| AttributeError
| AssertionError (msg : string).

Inductive result (A : Type) : Type :=
| Ok (a : A)
| Raise (e : exn).

Arguments Ok {A} a.
Arguments Raise {A} e.

Definition bind {A B : Type} (c : result A) (k : A -> result B) : result B :=
  match c with
  | Ok a => k a
  | Raise e => Raise e
  end.

Declare Scope py_scope.
Delimit Scope py_scope with py.
Notation "x <- c ;; k" := (bind c (fun x => k))
  (at level 61, c at next level, right associativity) : py_scope.
Notation "' p <- c ;; k" := (bind c (fun x => match x with p => k end))
  (at level 61, p pattern, c at next level, right associativity) : py_scope.
Open Scope py_scope.

(** [assert cond, msg] *)
Definition py_assert (cond : bool) (msg : string) : result unit :=
  if cond then Ok tt else Raise (AssertionError msg).

(** A list comprehension whose body may raise: the first exception wins. *)
Fixpoint mapM {A B : Type} (f : A -> result B) (l : list A) : result (list B) :=
  match l with
  | [] => Ok []
  | a :: l' => b <- f a ;; bs <- mapM f l' ;; Ok (b :: bs)
  end.

(* ================================================================== *)
(** * numpy on lists *)

(** [a[i]] *)
Definition getitem {A : Type} (a : list A) (i : nat) : result A :=
  match nth_error a i with
  | Some x => Ok x
  | None => Raise IndexError
  end.

(** [a[ind]] for an index array [ind] *)
Definition take {A : Type} (a : list A) (ind : list nat) : result (list A) :=
  mapM (getitem a) ind.

(** [a[start:end]] *)
Definition slice {A : Type} (a : list A) (start end_ : nat) : list A :=
  firstn (end_ - start) (skipn start a).

(** [np.flatnonzero(b)]: the positions of the true entries, increasing *)
Definition flatnonzero (b : list bool) : list nat :=
  filter (fun i => nth i b false) (seq 0 (length b)).

(** [a != b], element by element *)
Definition neq_arr (a b : list Z) : list bool :=
  map (fun xy => negb (fst xy =? snd xy)%Z) (combine a b).

(** [a == r] for a scalar [r] *)
Definition eq_scalar (a : list Z) (r : Z) : list bool :=
  map (fun x => (x =? r)%Z) a.

(** [a[i] = v] *)
Fixpoint setitem {A : Type} (a : list A) (i : nat) (v : A) : result (list A) :=
  match a, i with
  | [], _ => Raise IndexError
  | _ :: a', O => Ok (v :: a')
  | x :: a', S i' => a'' <- setitem a' i' v ;; Ok (x :: a'')
  end.

(** [a[ind] = vals]: one assignment per index, in order; the two must have
    the same number of rows. *)
Fixpoint put {A : Type} (a : list A) (ind : list nat) (vals : list A)
  : result (list A) :=
  match ind, vals with
  | [], [] => Ok a
  | i :: ind', v :: vals' => a' <- setitem a i v ;; put a' ind' vals'
  | _, _ => Raise ValueError
  end.

(** [np.empty_like(ind)]: an array of the length of [ind]; its contents are
    unspecified (here 0) and are overwritten before they are read. *)
Definition empty_like (ind : list nat) : list nat := map (fun _ => O) ind.

(** The break positions of a resource array: [j] is one when the resource
    changes between rows [j - 1] and [j]. *)
Definition break_at (rs : list Z) (j : nat) : bool :=
  nth (pred j) (neq_arr (removelast rs) (tl rs)) false.

(** [Runs brk s n l]: [l] cuts the rows [s .. n-1] into consecutive,
    non-empty runs, none of which has a break position inside. *)
Inductive Runs (brk : nat -> bool) : nat -> nat -> list (nat * nat) -> Prop :=
| Runs_last : forall s n,
    s < n -> (forall j, s < j < n -> brk j = false) ->
    Runs brk s n [(s, n)]
| Runs_cons : forall s c n l,
    s < c -> (forall j, s < j < c -> brk j = false) ->
    Runs brk c n l ->
    Runs brk s n ((s, c) :: l).

(* ================================================================== *)
(** * dicts *)

Section Dict.
Variable V : Type.

Definition dict : Type := list (Z * V).

(** [d[k]] *)
Fixpoint dict_get (d : dict) (k : Z) : result V :=
  match d with
  | [] => Raise (KeyError k)
  | (k', v) :: d' => if (k' =? k)%Z then Ok v else dict_get d' k
  end.

(** [k in d] *)
Definition dict_mem (d : dict) (k : Z) : bool :=
  existsb (fun kv => (fst kv =? k)%Z) d.

(** [d[k] = v]: replaces the value of a present key in place, appends a
    new key. *)
Fixpoint dict_set (d : dict) (k : Z) (v : V) : dict :=
  match d with
  | [] => [(k, v)]
  | (k', v') :: d' =>
      if (k' =? k)%Z then (k', v) :: d' else (k', v') :: dict_set d' k v
  end.

Definition dict_keys (d : dict) : list Z := map fst d.
Definition dict_values (d : dict) : list V := map snd d.
End Dict.

(* ================================================================== *)
(** * The independent-GP-per-resource posterior state *)

Section PosteriorState.

(** Array entries ([float64]), with the zero of [np.zeros] and the addition
    behind [anp.sum]. *)
Variable scalar : Type.
Variable zero : scalar.
Variable add : scalar -> scalar -> scalar.

(** The integer a coordinate stands for, if it is one. *)
Variable as_integer : scalar -> option Z.

(** [numpy.random.RandomState] (the generator's internal state), and the
    types of the collaborators the posterior state only passes on. *)
Variable RandomState : Type.
Variable KernelFunction : Type.
Variable HeadGradients : Type.

(** Iteration order of [set(resources)]: unspecified in Python, so any
    enumeration without repeats. *)
Variable py_set : list Z -> list Z.

(** [np.argsort]: the index permutation that sorts its argument. *)
Variable argsort : list Z -> list nat.

(** Modelled from the spec: [decode_extended_features] of
    [datatypes/hp_ranges_impl.py], which is not among the sources.
    Decoding is a pure split of an extended row into the configuration
    features and the resource, the last coordinate; the resource must be an
    integer within the declared range, otherwise [RangeError]. *)
Definition decode_row (resource_attr_range : Z * Z) (row : list scalar)
  : result (list scalar * Z) :=
  match row with
  | [] => Raise IndexError
  | c :: row' =>
      match as_integer (last row' c) with
      | Some r =>
          if ((fst resource_attr_range <=? r)%Z
              && (r <=? snd resource_attr_range)%Z)%bool
          then Ok (removelast row, r)
          else Raise RangeError
      | None => Raise RangeError
      end
  end.

Definition decode_extended_features (features_ext : list (list scalar))
    (resource_attr_range : Z * Z)
  : result (list (list scalar) * list Z) :=
  rows <- mapM (decode_row resource_attr_range) features_ext ;;
  Ok (split rows).

(** Modelled from the spec: [MeanFunction] of [gpautograd/mean.py], which is
    not among the sources: the prior mean [mu_r], a function of one
    configuration row.  Called on [k] rows it gives the column of their
    means, an array of shape [(k, 1)]. *)
Definition MeanFunction : Type := list scalar -> scalar.

(** Modelled from the spec: [GaussProcPosteriorState] of
    [gpautograd/posterior_state.py], which is not among the sources, as the
    interface the per-resource class calls.  The marginal posterior mean
    (one entry per fantasy) and variance at a test row depend on that row
    only.  Sampling consumes randomness and returns one row of samples per
    test row; the gradient with respect to an input has the input's size. *)
Record GaussProcPosteriorState : Type := {
  gp_mean_at : list scalar -> list scalar;
  gp_variance_at : list scalar -> scalar;
  gp_neg_log_likelihood : scalar;
  gp_sample_marginals :
    list (list scalar) -> nat -> RandomState ->
    list (list scalar) * RandomState;
  gp_sample_joint :
    list (list scalar) -> nat -> RandomState ->
    list (list scalar) * RandomState;
  gp_backward_gradient :
    list scalar -> HeadGradients -> scalar -> scalar -> list scalar;
  gp_sample_marginals_rows : forall xs n rs,
    length (fst (gp_sample_marginals xs n rs)) = length xs;
  gp_sample_joint_rows : forall xs n rs,
    length (fst (gp_sample_joint xs n rs)) = length xs;
  gp_backward_gradient_size : forall x hg m s,
    length (gp_backward_gradient x hg m s) = length x
}.

(** [state.predict(test_features)] of a single GP *)
Definition gp_predict (gp : GaussProcPosteriorState)
    (test_features : list (list scalar))
  : list (list scalar) * list scalar :=
  (map (gp_mean_at gp) test_features, map (gp_variance_at gp) test_features).

(** The constructor of [GaussProcPosteriorState] (features, targets, mean,
    (kernel, covariance scale), noise variance); fitting may fail. *)
Variable GaussProcPosteriorState_init :
  list (list scalar) -> list (list scalar) -> MeanFunction ->
  KernelFunction * scalar -> scalar -> result GaussProcPosteriorState.

Record IndependentGPPerResourcePosteriorState : Type := {
  _states : dict GaussProcPosteriorState;
  _mean : dict MeanFunction;
  _num_data : nat;
  _num_features : nat;
  _num_fantasies : nat;
  _resource_attr_range : Z * Z
}.

(** One iteration of the loop of [_compute_states]. *)
Definition compute_state_step
    (features targets : list (list scalar)) (resources : list Z)
    (kernel : KernelFunction) (covariance_scale : dict scalar)
    (noise_variance : scalar)
    (states : dict GaussProcPosteriorState) (item : Z * MeanFunction)
  : result (dict GaussProcPosteriorState) :=
  let '(resource, mean_function) := item in
  cov_scale <- dict_get covariance_scale resource ;;
  let rows := flatnonzero (eq_scalar resources resource) in
  if 0 <? length rows then
    r_features <- take features rows ;;
    r_targets <- take targets rows ;;
    gp <- GaussProcPosteriorState_init r_features r_targets mean_function
            (kernel, cov_scale) noise_variance ;;
    Ok (dict_set states resource gp)
  else Ok states.

Fixpoint compute_states_loop
    (features targets : list (list scalar)) (resources : list Z)
    (kernel : KernelFunction) (covariance_scale : dict scalar)
    (noise_variance : scalar)
    (items : list (Z * MeanFunction))
    (states : dict GaussProcPosteriorState)
  : result (dict GaussProcPosteriorState) :=
  match items with
  | [] => Ok states
  | item :: items' =>
      states' <- compute_state_step features targets resources kernel
                   covariance_scale noise_variance states item ;;
      compute_states_loop features targets resources kernel
        covariance_scale noise_variance items' states'
  end.

Definition _compute_states
    (features targets : list (list scalar)) (kernel : KernelFunction)
    (mean : dict MeanFunction) (covariance_scale : dict scalar)
    (noise_variance : scalar) (resource_attr_range : Z * Z)
  : result (dict GaussProcPosteriorState) :=
  ' (features, resources) <-
      decode_extended_features features resource_attr_range ;;
  compute_states_loop features targets resources kernel covariance_scale
    noise_variance mean [].

(** [set(a.keys()) == set(b.keys())] *)
Definition same_keys {A B : Type} (a : dict A) (b : dict B) : bool :=
  forallb (fun k => dict_mem b k) (dict_keys a)
  && forallb (fun k => dict_mem a k) (dict_keys b).

(** A two-dimensional array: its rows, all of the same length, and that
    length, [a.shape[1]], which the rows do not determine when there are
    none.  Where only the rows matter the array stands for the list of its
    rows. *)
Record matrix : Type := {
  matrix_rows :> list (list scalar);
  shape1 : nat;
  matrix_shape : Forall (fun row => length row = shape1) matrix_rows
}.

(** The constructor.  The [isinstance] assertion on [kernel] is a matter of
    types here, and [debug_log] is left out. *)
Definition __init__
    (features targets : matrix) (kernel : KernelFunction)
    (mean : dict MeanFunction) (covariance_scale : dict scalar)
    (noise_variance : scalar) (resource_attr_range : Z * Z)
  : result IndependentGPPerResourcePosteriorState :=
  _ <- py_assert (same_keys mean covariance_scale)
         "mean, covariance_scale must have the same keys" ;;
  states <- _compute_states features targets kernel mean covariance_scale
              noise_variance resource_attr_range ;;
  Ok {| _states := states;
        _mean := mean;
        _num_data := length features;
        _num_features := shape1 features;
        _num_fantasies := shape1 targets;
        _resource_attr_range := resource_attr_range |}.

(** The GP stored for an item of [mean]: it was fitted on the training rows
    of the item's resource level, with the item's mean function and the
    level's covariance scale. *)
Definition fitted_on (xs targets : list (list scalar)) (rs : list Z)
    (kernel : KernelFunction) (covariance_scale : dict scalar)
    (noise_variance : scalar)
    (item : Z * MeanFunction) (kv : Z * GaussProcPosteriorState) : Prop :=
  fst kv = fst item /\
  exists cov_scale r_features r_targets,
    dict_get covariance_scale (fst item) = Ok cov_scale /\
    take xs (flatnonzero (eq_scalar rs (fst item))) = Ok r_features /\
    take targets (flatnonzero (eq_scalar rs (fst item))) = Ok r_targets /\
    GaussProcPosteriorState_init r_features r_targets (snd item)
      (kernel, cov_scale) noise_variance = Ok (snd kv).

(** The properties [num_data], [num_features] and [num_fantasies]. *)
Definition num_data (self : IndependentGPPerResourcePosteriorState) : nat :=
  _num_data self.

Definition num_features (self : IndependentGPPerResourcePosteriorState)
  : nat :=
  _num_features self.

Definition num_fantasies (self : IndependentGPPerResourcePosteriorState)
  : nat :=
  _num_fantasies self.

(** [anp.sum] of a list of scalars *)
Definition np_sum (l : list scalar) : scalar := fold_left add l zero.

Definition neg_log_likelihood (self : IndependentGPPerResourcePosteriorState)
  : scalar :=
  np_sum (map gp_neg_log_likelihood (dict_values (_states self))).

(** The positions where the resource changes, with both ends. *)
Definition change_positions (resources : list Z) : list nat :=
  [0]
  ++ map S (flatnonzero (neq_arr (removelast resources) (tl resources)))
  ++ [length resources].

Definition predict (self : IndependentGPPerResourcePosteriorState)
    (test_features : list (list scalar))
  : result (list (list scalar) * list scalar) :=
  ' (test_features, resources) <-
      decode_extended_features test_features (_resource_attr_range self) ;;
  if length (py_set resources) =? 1 then
    r0 <- getitem resources 0 ;;
    gp <- dict_get (_states self) r0 ;;
    Ok (gp_predict gp test_features)
  else
    let num_rows := length resources in
    let ind := argsort resources in
    test_features <- take test_features ind ;;
    resources <- take resources ind ;;
    let change_pos := change_positions resources in
    preds <- mapM (fun se : nat * nat =>
                     r <- getitem resources (fst se) ;;
                     gp <- dict_get (_states self) r ;;
                     Ok (gp_predict gp
                           (slice test_features (fst se) (snd se))))
               (combine (removelast change_pos) (tl change_pos)) ;;
    let '(p_means, p_vars) := split preds in
    reverse_ind <- put (empty_like ind) ind (seq 0 num_rows) ;;
    posterior_means <- take (concat p_means) reverse_ind ;;
    posterior_variances <- take (concat p_vars) reverse_ind ;;
    Ok (posterior_means, posterior_variances).

(** The message of the assertion of [_split_features], without the
    formatted values. *)
Definition not_covered_msg : string :=
  "Resource is not covered by data in posterior state".

(** [_split_features]: the loop over [set(resources)], filling [res]
    (the source's [result]). *)
Fixpoint split_features_loop (self : IndependentGPPerResourcePosteriorState)
    (features : list (list scalar)) (resources : list Z)
    (check_for_state : bool) (todo : list Z)
    (res : dict (list (list scalar) * list nat))
  : result (dict (list (list scalar) * list nat)) :=
  match todo with
  | [] => Ok res
  | resource :: todo' =>
      _ <- (if check_for_state
            then py_assert (dict_mem (_states self) resource)
                   not_covered_msg
            else Ok tt) ;;
      let rows := flatnonzero (eq_scalar resources resource) in
      r_features <- take features rows ;;
      split_features_loop self features resources check_for_state todo'
        (dict_set res resource (r_features, rows))
  end.

Definition _split_features (self : IndependentGPPerResourcePosteriorState)
    (features : list (list scalar)) (check_for_state : bool)
  : result (dict (list (list scalar) * list nat)) :=
  ' (features, resources) <-
      decode_extended_features features (_resource_attr_range self) ;;
  split_features_loop self features resources check_for_state
    (py_set resources) [].

(** Modelled from the spec: [UnsupportedResourceError], the spec's name
    for the failure at a resource level without a trained posterior.  The
    code raises it as the [KeyError] of the lookup of that level in
    [_states], or as the failed assertion of [_split_features]. *)
Definition UnsupportedResourceError
    (self : IndependentGPPerResourcePosteriorState) (e : exn) : Prop :=
  (exists r, e = KeyError r /\ dict_mem (_states self) r = false)
  \/ e = AssertionError not_covered_msg.

(** The shape of one row of samples: [(num_samples,)] for a single fantasy,
    [(nf, num_samples)] otherwise; a row is kept flattened. *)
Definition cell_shape (nf num_samples : nat) : list nat :=
  if nf =? 1 then [num_samples] else [nf; num_samples].

Definition size_of (shape : list nat) : nat := fold_right Nat.mul 1 shape.

(** [np.zeros((num_test,) + cell)] *)
Definition np_zeros (num_test : nat) (cell : list nat)
  : list (list scalar) :=
  repeat (repeat zero (size_of cell)) num_test.

Fixpoint sample_marginals_loop
    (self : IndependentGPPerResourcePosteriorState) (num_samples : nat)
    (items : dict (list (list scalar) * list nat))
    (samples : list (list scalar)) (random_state : RandomState)
  : result (list (list scalar) * RandomState) :=
  match items with
  | [] => Ok (samples, random_state)
  | (resource, (features, rows)) :: items' =>
      gp <- dict_get (_states self) resource ;;
      let '(s_margs, random_state') :=
        gp_sample_marginals gp features num_samples random_state in
      samples' <- put samples rows s_margs ;;
      sample_marginals_loop self num_samples items' samples' random_state'
  end.

(** The samples, and the generator state after the draws. *)
Definition sample_marginals (self : IndependentGPPerResourcePosteriorState)
    (test_features : list (list scalar)) (num_samples : nat)
    (random_state : RandomState)
  : result (list (list scalar) * RandomState) :=
  features_per_resource <- _split_features self test_features true ;;
  let num_test := length test_features in
  let nf := num_fantasies self in
  let samples := np_zeros num_test (cell_shape nf num_samples) in
  sample_marginals_loop self num_samples features_per_resource samples
    random_state.

(** An array with its shape; [data] holds the entries in row-major order. *)
Record ndarray : Type := {
  shape : list nat;
  data : list scalar
}.

(** [np.reshape(v, shape)] of a flat array *)
Definition np_reshape (v : list scalar) (shp : list nat) : result ndarray :=
  if length v =? size_of shp
  then Ok {| shape := shp; data := v |}
  else Raise ValueError.

Definition backward_gradient (self : IndependentGPPerResourcePosteriorState)
    (input : ndarray) (head_gradients : HeadGradients)
    (mean_data std_data : scalar)
  : result ndarray :=
  ' (inner_input, resource) <-
      decode_extended_features [data input] (_resource_attr_range self) ;;
  _ <- py_assert (length resource =? 1) EmptyString ;;
  resource <- getitem resource 0 ;;
  gp <- dict_get (_states self) resource ;;
  let inner_grad :=
    gp_backward_gradient gp (concat inner_input) head_gradients
      mean_data std_data in
  np_reshape (inner_grad ++ [zero]) (shape input).

(** What [sample_joint] assigns to [samples[rows]]: the block a GP drew, of
    the shape of [samples[rows]] (one flattened row per index), or the
    column of prior means, of shape [(k, 1)]. *)
Inductive rows_value : Type :=
  | Block (b : list (list scalar))
  | Column (c : list scalar).

(** A column of shape [(len(col), 1)] broadcast to the shape [(k,) + cell],
    by the rule of NumPy: the shapes are aligned at their last axes, and an
    axis of the column must have the length of the target's axis or
    length 1.  Against [(k, num_samples)] the column lies along the rows.
    Against [(k, nf, num_samples)] it is aligned as [(1, len(col), 1)]: it
    lies along the fantasy axis, so every row receives the whole column,
    and it does not fit unless [len(col)] is [nf] or 1. *)
Definition broadcast_column (col : list scalar) (k : nat) (cell : list nat)
  : result (list (list scalar)) :=
  match cell with
  | [num_samples] =>
      if length col =? k then Ok (map (fun m => repeat m num_samples) col)
      else
        match col with
        | [m] => Ok (repeat (repeat m num_samples) k)
        | _ => Raise ValueError
        end
  | [nf; num_samples] =>
      if length col =? nf
      then Ok (repeat (flat_map (fun m => repeat m num_samples) col) k)
      else
        match col with
        | [m] => Ok (repeat (repeat m (nf * num_samples)) k)
        | _ => Raise ValueError
        end
  | _ => Raise ValueError
  end.

(** [samples[rows] = value], where [samples] has rows of shape [cell] *)
Definition setitem_rows (samples : list (list scalar)) (rows : list nat)
    (cell : list nat) (value : rows_value)
  : result (list (list scalar)) :=
  match value with
  | Block b => put samples rows b
  | Column c =>
      b <- broadcast_column c (length rows) cell ;;
      put samples rows b
  end.

Fixpoint sample_joint_loop
    (self : IndependentGPPerResourcePosteriorState) (num_samples : nat)
    (shp : list nat)
    (items : dict (list (list scalar) * list nat))
    (samples : list (list scalar)) (random_state : RandomState)
  : result (list (list scalar) * RandomState) :=
  match items with
  | [] => Ok (samples, random_state)
  | (resource, (features, rows)) :: items' =>
      ' (s_joint, random_state') <-
          (if dict_mem (_states self) resource then
             gp <- dict_get (_states self) resource ;;
             let '(s, random_state') :=
               gp_sample_joint gp features num_samples random_state in
             Ok (Block s, random_state')
           else
             mu <- dict_get (_mean self) resource ;;
             Ok (Column (map mu features), random_state)) ;;
      samples' <- setitem_rows samples rows shp s_joint ;;
      sample_joint_loop self num_samples shp items' samples'
        random_state'
  end.

Definition sample_joint (self : IndependentGPPerResourcePosteriorState)
    (test_features : list (list scalar)) (num_samples : nat)
    (random_state : RandomState)
  : result (list (list scalar) * RandomState) :=
  features_per_resource <- _split_features self test_features false ;;
  let num_test := length test_features in
  let nf := num_fantasies self in
  let shp := cell_shape nf num_samples in
  let samples := np_zeros num_test shp in
  sample_joint_loop self num_samples shp features_per_resource samples
    random_state.

End PosteriorState.

(* ================================================================== *)
(** * The multi-fidelity searcher *)

Section Searcher.

(** Types of the collaborators the searcher only stores or passes on. *)
Variable Configuration : Type.
Variable Metric : Type.
Variable ModelFactory : Type.
Variable ModelParams : Type.
Variable HyperparameterRanges : Type.
Variable ExtendedConfiguration : Type.
Variable ResourceForAcquisitionMap : Type.
Variable EncodedState : Type.
Variable SkipOptimization : Type.

(** [config_space_ext.hp_ranges_ext] *)
Variable hp_ranges_ext : ExtendedConfiguration -> HyperparameterRanges.

(** [PendingEvaluation] of [datatypes/common.py]: a trial and the resource
    level at which its result is awaited. *)
Record PendingEvaluation : Type := {
  trial_id : string;
  resource : Z
}.

(** Modelled from the spec: the Observation of the data model, a metric
    value recorded for a trial at a resource level. *)
Record Observation : Type := {
  obs_trial_id : string;
  obs_resource : Z;
  obs_metric : Metric
}.

(** Modelled from the spec: the trial ledger ([TuningJobState], which is
    not among the sources): the configuration of every trial, the
    observations, the failed trials and the pending evaluations. *)
Record TuningJobState : Type := {
  config_for_trial : list (string * Configuration);
  trials_evaluations : list Observation;
  failed_trials : list string;
  pending_evaluations : list PendingEvaluation
}.

(** Modelled from the spec: [state.is_pending(trial_id, resource)] *)
Definition is_pending (s : TuningJobState) (t : string) (r : Z) : bool :=
  existsb (fun x => String.eqb (trial_id x) t && (resource x =? r)%Z)
    (pending_evaluations s).

(** Modelled from the spec: [state.is_labeled(trial_id, resource)], whether
    an Observation exists for the pair. *)
Definition is_labeled (s : TuningJobState) (t : string) (r : Z) : bool :=
  existsb (fun o => String.eqb (obs_trial_id o) t && (obs_resource o =? r)%Z)
    (trials_evaluations s).

(** Modelled from the spec: the invariant of the data model, a pair of
    trial and resource level is never both pending and observed. *)
Definition pending_not_observed (s : TuningJobState) : Prop :=
  forall t r, is_pending s t r = true -> is_labeled s t r = false.

(** Modelled from the spec: [ModelStateTransformer], which is not among the
    sources: the handle on the ledger, with the model factory, the
    skip-optimization predicate and the cached hyperparameters. *)
Record ModelStateTransformer : Type := {
  state : TuningJobState;
  model_factory : ModelFactory;
  skip_optimization : SkipOptimization;
  model_params : option ModelParams
}.

Definition with_state (st : ModelStateTransformer) (s : TuningJobState)
  : ModelStateTransformer :=
  {| state := s;
     model_factory := model_factory st;
     skip_optimization := skip_optimization st;
     model_params := model_params st |}.

(** [config_for_trial[trial_id] = config] *)
Fixpoint set_config (d : list (string * Configuration)) (t : string)
    (c : Configuration) : list (string * Configuration) :=
  match d with
  | [] => [(t, c)]
  | (t', c') :: d' =>
      if String.eqb t' t then (t', c) :: d' else (t', c') :: set_config d' t c
  end.

(** Modelled from the spec: [state_transformer.append_trial(trial_id,
    config, resource)]: records the configuration when one is given and
    adds the pending evaluation to the ledger. *)
Definition append_trial (st : ModelStateTransformer) (t : string)
    (config : option Configuration) (r : Z) : ModelStateTransformer :=
  let s := state st in
  with_state st
    {| config_for_trial :=
         match config with
         | Some c => set_config (config_for_trial s) t c
         | None => config_for_trial s
         end;
       trials_evaluations := trials_evaluations s;
       failed_trials := failed_trials s;
       pending_evaluations :=
         pending_evaluations s ++ [{| trial_id := t; resource := r |}] |}.

(** Modelled from the spec: [state_transformer.filter_pending_evaluations
    (filter_pred)], which is not among the sources, and of which the spec
    says no more than the name: it filters the pending evaluations of the
    ledger with the predicate, as Python's [filter] does: the entries the
    predicate accepts stay. *)
Definition filter_pending_evaluations (st : ModelStateTransformer)
    (filter_pred : PendingEvaluation -> bool) : ModelStateTransformer :=
  let s := state st in
  with_state st
    {| config_for_trial := config_for_trial s;
       trials_evaluations := trials_evaluations s;
       failed_trials := failed_trials s;
       pending_evaluations := filter filter_pred (pending_evaluations s) |}.

(** Modelled from the spec: [state_transformer.mark_trial_failed(trial_id)]:
    the trial joins the failed trials of the ledger (once). *)
Definition mark_trial_failed (st : ModelStateTransformer) (t : string)
  : ModelStateTransformer :=
  let s := state st in
  with_state st
    {| config_for_trial := config_for_trial s;
       trials_evaluations := trials_evaluations s;
       failed_trials :=
         if existsb (String.eqb t) (failed_trials s)
         then failed_trials s
         else failed_trials s ++ [t];
       pending_evaluations := pending_evaluations s |}.

(** Modelled from the spec: [state_transformer.remove_observed_case
    (trial_id, key)]: deletes the Observation recorded for the trial at
    the resource level. *)
Definition remove_observed_case (st : ModelStateTransformer) (t : string)
    (r : Z) : ModelStateTransformer :=
  let s := state st in
  with_state st
    {| config_for_trial := config_for_trial s;
       trials_evaluations :=
         filter (fun o => negb (String.eqb (obs_trial_id o) t
                                && (obs_resource o =? r)%Z))
           (trials_evaluations s);
       failed_trials := failed_trials s;
       pending_evaluations := pending_evaluations s |}.

(** The attributes of a searcher object.  [state_transformer] is [None]
    once the searcher has been invalidated; [_resource_attr] is set by
    [configure_scheduler] only. *)
Record GPMultiFidelitySearcher : Type := {
  state_transformer : option ModelStateTransformer;
  config_space_ext : ExtendedConfiguration;
  resource_for_acquisition : option ResourceForAcquisitionMap;
  _resource_attr : option string
}.

(** [self.state_transformer = v] *)
Definition set_state_transformer (self : GPMultiFidelitySearcher)
    (v : option ModelStateTransformer) : GPMultiFidelitySearcher :=
  {| state_transformer := v;
     config_space_ext := config_space_ext self;
     resource_for_acquisition := resource_for_acquisition self;
     _resource_attr := _resource_attr self |}.

(** A method call returns normally or raises, and leaves the object in
    some state either way. *)
Definition outcome (A : Type) : Type := (result A * GPMultiFidelitySearcher)%type.

(** The messages of the two assertions of [register_pending] (the second
    without the formatted values). *)
Definition multi_fidelity_only_msg : string :=
  "This searcher works with a multi-fidelity scheduler only".

Definition already_observed_msg : string :=
  "Trial already has observation at resource, so cannot be pending there".

(** Modelled from the spec: [StateConflictError], the spec's name for the
    failure of a pending registration at a pair that already has an
    Observation.  The code raises it as the failed assertion on
    [is_labeled]. *)
Definition StateConflictError (e : exn) : Prop :=
  e = AssertionError already_observed_msg.

Definition register_pending (self : GPMultiFidelitySearcher)
    (t : string) (config : option Configuration) (milestone : option Z)
  : outcome unit :=
  match milestone with
  | None => (Raise (AssertionError multi_fidelity_only_msg), self)
  | Some milestone =>
      match state_transformer self with
      | None => (Raise AttributeError, self)
      | Some st =>
          if negb (is_pending (state st) t milestone) then
            if negb (is_labeled (state st) t milestone) then
              (Ok tt,
               set_state_transformer self
                 (Some (append_trial st t config milestone)))
            else
              (Raise (AssertionError already_observed_msg), self)
          else (Ok tt, self)
      end
  end.

Definition cleanup_pending (self : GPMultiFidelitySearcher) (t : string)
  : outcome unit :=
  let filter_pred := fun x : PendingEvaluation => String.eqb (trial_id x) t in
  match state_transformer self with
  | None => (Raise AttributeError, self)
  | Some st =>
      (Ok tt,
       set_state_transformer self
         (Some (filter_pending_evaluations st filter_pred)))
  end.

Definition evaluation_failed (self : GPMultiFidelitySearcher) (t : string)
  : outcome unit :=
  match cleanup_pending self t with
  | (Raise e, self') => (Raise e, self')
  | (Ok _, self') =>
      match state_transformer self' with
      | None => (Raise AttributeError, self')
      | Some st =>
          (Ok tt,
           set_state_transformer self' (Some (mark_trial_failed st t)))
      end
  end.

(** [kwargs[key]] for keyword arguments holding resource levels *)
Fixpoint kwargs_get (kwargs : list (string * Z)) (key : string)
  : result Z :=
  match kwargs with
  | [] => Raise (KeyError 0)
  | (k, v) :: kwargs' =>
      if String.eqb k key then Ok v else kwargs_get kwargs' key
  end.

Definition remove_case (self : GPMultiFidelitySearcher) (t : string)
    (kwargs : list (string * Z))
  : outcome unit :=
  match _resource_attr self with
  | None => (Raise AttributeError, self)
  | Some attr =>
      match kwargs_get kwargs attr with
      | Raise e => (Raise e, self)
      | Ok r =>
          match state_transformer self with
          | None => (Raise AttributeError, self)
          | Some st =>
              (Ok tt,
               set_state_transformer self
                 (Some (remove_observed_case st t r)))
          end
      end
  end.

(** The serialized searcher state handed to [clone_from_state]. *)
Record SearcherSnapshot : Type := {
  snapshot_state : EncodedState;
  snapshot_skip_optimization : SkipOptimization;
  snapshot_model_params : ModelParams
}.

(** [decode_state] of [gp_fifo_searcher.py], which is not among the
    sources. *)
Variable decode_state : EncodedState -> HyperparameterRanges -> TuningJobState.

Definition _hp_ranges_in_state (self : GPMultiFidelitySearcher)
  : HyperparameterRanges :=
  hp_ranges_ext (config_space_ext self).

(** Modelled from the spec: the internal constructor, which ends in
    [_create_internal] of [GPFIFOSearcher] (not among the sources): the new
    searcher owns a fresh state transformer over [init_state]. *)
Definition new_searcher_for_clone (model_factory : ModelFactory)
    (init_state : TuningJobState) (skip_optimization : SkipOptimization)
    (config_space_ext : ExtendedConfiguration)
    (resource_for_acquisition : option ResourceForAcquisitionMap)
  : GPMultiFidelitySearcher :=
  {| state_transformer :=
       Some {| state := init_state;
               model_factory := model_factory;
               skip_optimization := skip_optimization;
               model_params := None |};
     config_space_ext := config_space_ext;
     resource_for_acquisition := resource_for_acquisition;
     _resource_attr := None |}.

(** Modelled from the spec: [_restore_from_state] of [GPFIFOSearcher] (not
    among the sources): the cached hyperparameters are restored from the
    snapshot. *)
Definition _restore_from_state (self : GPMultiFidelitySearcher)
    (snapshot : SearcherSnapshot) : outcome unit :=
  match state_transformer self with
  | None => (Raise AttributeError, self)
  | Some st =>
      (Ok tt,
       set_state_transformer self
         (Some {| state := state st;
                  model_factory := model_factory st;
                  skip_optimization := skip_optimization st;
                  model_params := Some (snapshot_model_params snapshot) |}))
  end.

(** Returns the new searcher (or raises), together with [self] as the call
    leaves it. *)
Definition clone_from_state (self : GPMultiFidelitySearcher)
    (snapshot : SearcherSnapshot)
  : outcome GPMultiFidelitySearcher :=
  let init_state :=
    decode_state (snapshot_state snapshot) (_hp_ranges_in_state self) in
  let skip_optimization := snapshot_skip_optimization snapshot in
  match state_transformer self with
  | None => (Raise AttributeError, self)
  | Some st =>
      let model_factory := model_factory st in
      let new_searcher :=
        new_searcher_for_clone model_factory init_state skip_optimization
          (config_space_ext self) (resource_for_acquisition self) in
      match _restore_from_state new_searcher snapshot with
      | (Raise e, _) => (Raise e, self)
      | (Ok _, new_searcher) =>
          (Ok new_searcher, set_state_transformer self None)
      end
  end.

End Searcher.

(* ================================================================== *)
(** * A small concrete model

    Integer array entries, a counter as generator state, the set of a list
    enumerated in order of first occurrence, a stable argsort, and GPs that
    are determined by one number.  The properties below are exercised on
    it. *)

Module Example.

Definition as_integer (c : Z) : option Z := Some c.

Definition py_set (l : list Z) : list Z := nodup Z.eq_dec l.

(** Inserts row [i] before the first row whose resource is not smaller. *)
Fixpoint insert_index (rs : list Z) (i : nat) (sorted : list nat)
  : list nat :=
  match sorted with
  | [] => [i]
  | j :: sorted' =>
      if (nth i rs 0 <=? nth j rs 0)%Z then i :: sorted
      else j :: insert_index rs i sorted'
  end.

Definition argsort (rs : list Z) : list nat :=
  fold_right (insert_index rs) [] (seq 0 (length rs)).

Definition sum_Z (x : list Z) : Z := fold_right Z.add 0%Z x.

Lemma sample_rows (c : Z) (xs : list (list Z)) (n g : nat) :
  length (fst (map (fun x => repeat (c + sum_Z x + Z.of_nat g)%Z n) xs,
               S g)) = length xs.
Proof. apply length_map. Qed.

Lemma gradient_size (c : Z) (x : list Z) (hg : unit) (m s : Z) :
  length (map (fun _ : Z => c) x) = length x.
Proof. apply length_map. Qed.

(** The GP determined by [c]. *)
Definition gp (c : Z) : GaussProcPosteriorState Z nat unit :=
  {| gp_mean_at := fun x => [(c + sum_Z x)%Z];
     gp_variance_at := fun x => (c * c)%Z;
     gp_neg_log_likelihood := c;
     gp_sample_marginals := fun xs n g =>
       (map (fun x => repeat (c + sum_Z x + Z.of_nat g)%Z n) xs, S g);
     gp_sample_joint := fun xs n g =>
       (map (fun x => repeat (c + sum_Z x + Z.of_nat g)%Z n) xs, S g);
     gp_backward_gradient := fun x hg m s => map (fun _ => c) x;
     gp_sample_marginals_rows := sample_rows c;
     gp_sample_joint_rows := sample_rows c;
     gp_backward_gradient_size := gradient_size c |}.

(** Fitting on training rows: the GP of the sum of the targets. *)
Definition gp_init (features targets : list (list Z))
    (mean : MeanFunction Z) (kernel : unit * Z) (noise_variance : Z)
  : result (GaussProcPosteriorState Z nat unit) :=
  Ok (gp (sum_Z (map sum_Z targets))).

Definition mean : dict (MeanFunction Z) :=
  [(1%Z, fun _ => 100%Z); (3%Z, fun _ => 300%Z);
   (9%Z, fun x => (900 + sum_Z x)%Z)].

Definition covariance_scale : dict Z := [(1%Z, 1%Z); (3%Z, 1%Z); (9%Z, 1%Z)].

(** Three training rows, two at resource 1 and one at resource 3. *)
Definition features : matrix Z :=
  {| matrix_rows := [[4; 1]; [2; 3]; [8; 1]]%Z;
     shape1 := 2;
     matrix_shape := ltac:(repeat constructor) |}.
Definition targets : matrix Z :=
  {| matrix_rows := [[10]; [30]; [11]]%Z;
     shape1 := 1;
     matrix_shape := ltac:(repeat constructor) |}.

(** The posterior state [__init__] builds from them. *)
Definition posterior : IndependentGPPerResourcePosteriorState Z nat unit :=
  {| _states := [(1%Z, gp 21); (3%Z, gp 30)];
     _mean := mean;
     _num_data := 3;
     _num_features := 2;
     _num_fantasies := 1;
     _resource_attr_range := (1, 9)%Z |}.

(** No training rows yet: arrays of the shapes (0, 2) and (0, 1). *)
Definition no_features : matrix Z :=
  {| matrix_rows := []; shape1 := 2; matrix_shape := Forall_nil _ |}.
Definition no_targets : matrix Z :=
  {| matrix_rows := []; shape1 := 1; matrix_shape := Forall_nil _ |}.

(** The same with two fantasies: targets of two columns, GPs whose rows of
    samples have the shape (2, num_samples), flattened. *)
Lemma sample_rows2 (c : Z) (xs : list (list Z)) (n g : nat) :
  length (fst (map (fun x => repeat (c + sum_Z x + Z.of_nat g)%Z (2 * n)) xs,
               S g)) = length xs.
Proof. apply length_map. Qed.

Definition gp2 (c : Z) : GaussProcPosteriorState Z nat unit :=
  {| gp_mean_at := fun x => [(c + sum_Z x)%Z; (c + sum_Z x)%Z];
     gp_variance_at := fun x => (c * c)%Z;
     gp_neg_log_likelihood := c;
     gp_sample_marginals := fun xs n g =>
       (map (fun x => repeat (c + sum_Z x + Z.of_nat g)%Z (2 * n)) xs, S g);
     gp_sample_joint := fun xs n g =>
       (map (fun x => repeat (c + sum_Z x + Z.of_nat g)%Z (2 * n)) xs, S g);
     gp_backward_gradient := fun x hg m s => map (fun _ => c) x;
     gp_sample_marginals_rows := sample_rows2 c;
     gp_sample_joint_rows := sample_rows2 c;
     gp_backward_gradient_size := gradient_size c |}.

Definition gp_init2 (features targets : list (list Z))
    (mean : MeanFunction Z) (kernel : unit * Z) (noise_variance : Z)
  : result (GaussProcPosteriorState Z nat unit) :=
  Ok (gp2 (sum_Z (map sum_Z targets))).

Definition targets2 : matrix Z :=
  {| matrix_rows := [[10; 12]; [30; 31]; [11; 13]]%Z;
     shape1 := 2;
     matrix_shape := ltac:(repeat constructor) |}.

Definition posterior2 : IndependentGPPerResourcePosteriorState Z nat unit :=
  {| _states := [(1%Z, gp2 46); (3%Z, gp2 61)];
     _mean := mean;
     _num_data := 3;
     _num_features := 2;
     _num_fantasies := 2;
     _resource_attr_range := (1, 9)%Z |}.

(** Test batches: at the resources 3, 1, 3, and at the resources 9, 1. *)
Definition batch : list (list Z) := [[5; 3]; [7; 1]; [6; 3]]%Z.
Definition batch_unseen : list (list Z) := [[5; 9]; [7; 1]]%Z.

(** A ledger with two pending evaluations and one observation, and a
    searcher that owns it. *)
Definition ledger : TuningJobState nat Z :=
  {| config_for_trial := [("t1", 11); ("t2", 22)]%string;
     trials_evaluations :=
       [{| obs_trial_id := "t1"; obs_resource := 1; obs_metric := 80 |}]%Z;
     failed_trials := [];
     pending_evaluations :=
       [{| trial_id := "t1"; resource := 3 |};
        {| trial_id := "t2"; resource := 1 |}]%Z |}.

Definition searcher
  : GPMultiFidelitySearcher nat Z unit nat unit unit bool :=
  {| state_transformer :=
       Some {| state := ledger;
               model_factory := tt;
               skip_optimization := false;
               model_params := None |};
     config_space_ext := tt;
     resource_for_acquisition := None;
     _resource_attr := Some "epoch"%string |}.

Definition snapshot : SearcherSnapshot nat (TuningJobState nat Z) bool :=
  {| snapshot_state := ledger;
     snapshot_skip_optimization := true;
     snapshot_model_params := 7 |}.

Definition hp_ranges_ext (c : unit) : unit := c.

Definition decode_state (s : TuningJobState nat Z) (hp : unit)
  : TuningJobState nat Z := s.

End Example.

(* ================================================================== *)
(** * Properties of the error monad and of the numpy operations *)

Lemma bind_Ok_inv {A B : Type} (c : result A) (k : A -> result B) (b : B) :
  bind c k = Ok b -> exists a, c = Ok a /\ k a = Ok b.
Proof.
  destruct c as [a | e]; simpl; intros H; [ eauto | discriminate ].
Qed.

Lemma bind_Raise_inv {A B : Type} (c : result A) (k : A -> result B) (e : exn) :
  bind c k = Raise e -> c = Raise e \/ exists a, c = Ok a /\ k a = Raise e.
Proof.
  destruct c as [a | e']; simpl; intros H; [ right; eauto | left; congruence ].
Qed.

(** Inverts every successful [bind] among the hypotheses. *)
Ltac inv_ok :=
  repeat match goal with
    | H : bind _ _ = Ok _ |- _ =>
        let a := fresh "a" in
        let Ha := fresh "Ha" in
        apply bind_Ok_inv in H; destruct H as [a [Ha H]]
    | H : Ok _ = Ok _ |- _ => injection H as H
    | H : Raise _ = Ok _ |- _ => discriminate H
    | H : Ok _ = Raise _ |- _ => discriminate H
    end.

Section MapM.
Variables A B : Type.
Variable f : A -> result B.

Lemma mapM_length : forall l bs, mapM f l = Ok bs -> length bs = length l.
Proof.
  induction l as [| a l IH]; simpl; intros bs H.
  - inv_ok. subst bs. reflexivity.
  - inv_ok. subst bs. simpl. f_equal. eauto.
Qed.

Lemma mapM_nth_error : forall l bs k,
  mapM f l = Ok bs ->
  match nth_error l k with
  | Some a => exists b, f a = Ok b /\ nth_error bs k = Some b
  | None => nth_error bs k = None
  end.
Proof.
  induction l as [| a l IH]; simpl; intros bs k H.
  - inv_ok. subst bs. destruct k; reflexivity.
  - inv_ok. subst bs. destruct k as [| k]; simpl.
    + eauto.
    + apply IH. assumption.
Qed.

Lemma mapM_Ok_map (g : A -> B) : forall l,
  (forall a, In a l -> f a = Ok (g a)) -> mapM f l = Ok (map g l).
Proof.
  induction l as [| a l IH]; simpl; intros H; [ reflexivity | ].
  rewrite (H a (or_introl eq_refl)). simpl.
  rewrite IH by auto. reflexivity.
Qed.

Lemma mapM_Ok_exists : forall l,
  (forall a, In a l -> exists b, f a = Ok b) -> exists bs, mapM f l = Ok bs.
Proof.
  induction l as [| a l IH]; simpl; intros H; [ eauto | ].
  destruct (H a (or_introl eq_refl)) as [b Hb].
  destruct IH as [bs Hbs]; [ auto | ].
  exists (b :: bs). rewrite Hb. simpl. rewrite Hbs. reflexivity.
Qed.

Lemma mapM_Ok_all : forall l bs a,
  mapM f l = Ok bs -> In a l -> exists b, f a = Ok b.
Proof.
  induction l as [| a' l IH]; simpl; intros bs a H Hin; [ contradiction | ].
  inv_ok. destruct Hin as [-> | Hin]; eauto.
Qed.

(** When some element raises, the comprehension raises what one of its
    elements raises. *)
Lemma mapM_Raise : forall l a e,
  In a l -> f a = Raise e ->
  exists a' e', In a' l /\ f a' = Raise e' /\ mapM f l = Raise e'.
Proof.
  induction l as [| a0 l IH]; simpl; intros a e Hin Hf; [ contradiction | ].
  destruct (f a0) as [b0 | e0] eqn:E0.
  - destruct Hin as [-> | Hin]; [ congruence | ].
    destruct (IH a e Hin Hf) as (a' & e' & Hin' & Hf' & Hm).
    exists a', e'. simpl. rewrite Hm. auto.
  - exists a0, e0. simpl. auto.
Qed.
End MapM.

Section Indexing.
Variable A : Type.

Lemma getitem_Ok (a : list A) (i : nat) (x : A) :
  getitem a i = Ok x <-> nth_error a i = Some x.
Proof.
  unfold getitem. destruct (nth_error a i); split; intros H;
    try discriminate; congruence.
Qed.

Lemma getitem_lt (a : list A) (i : nat) :
  i < length a -> exists x, getitem a i = Ok x.
Proof.
  intros H. unfold getitem.
  destruct (nth_error a i) eqn:E; [ eauto | ].
  apply nth_error_None in E. lia.
Qed.

Lemma take_length (a : list A) ind l :
  take a ind = Ok l -> length l = length ind.
Proof. apply mapM_length. Qed.

Lemma take_nth_error (a : list A) ind l k :
  take a ind = Ok l ->
  nth_error l k =
    match nth_error ind k with
    | Some i => nth_error a i
    | None => None
    end.
Proof.
  intros H. pose proof (mapM_nth_error _ _ k H) as Hk.
  destruct (nth_error ind k) as [i |]; [ | exact Hk ].
  destruct Hk as (b & Hb & ->). symmetry. apply getitem_Ok. exact Hb.
Qed.

Lemma take_exists (a : list A) ind :
  (forall i, In i ind -> i < length a) -> exists l, take a ind = Ok l.
Proof.
  intros H. apply mapM_Ok_exists. intros i Hi. apply getitem_lt. auto.
Qed.

Lemma setitem_spec : forall (a : list A) i v,
  i < length a ->
  exists a', setitem a i v = Ok a' /\ length a' = length a /\
    nth_error a' i = Some v /\
    forall j, j <> i -> nth_error a' j = nth_error a j.
Proof.
  induction a as [| x a IH]; simpl; intros i v Hi; [ lia | ].
  destruct i as [| i].
  - exists (v :: a). repeat split. intros [| j] Hj; [ lia | reflexivity ].
  - destruct (IH i v ltac:(lia)) as (a' & E & Hl & Hn & Ho).
    exists (x :: a'). rewrite E. simpl. repeat split; auto.
    intros [| j] Hj; [ reflexivity | ]. simpl. apply Ho. lia.
Qed.

(** [a[ind] = vals] with distinct, valid indices: row [ind[k]] receives
    [vals[k]], every other row keeps its value. *)
Lemma put_spec : forall ind (a vals : list A),
  NoDup ind -> (forall i, In i ind -> i < length a) ->
  length vals = length ind ->
  exists a', put a ind vals = Ok a' /\ length a' = length a /\
    (forall k i, nth_error ind k = Some i ->
                 nth_error a' i = nth_error vals k) /\
    (forall i, ~ In i ind -> nth_error a' i = nth_error a i).
Proof.
  induction ind as [| i0 ind IH]; intros a vals Hnd Hlt Hlen.
  - destruct vals; [ | discriminate ]. exists a. simpl.
    repeat split; auto. intros [| k] i; discriminate.
  - destruct vals as [| v vals]; [ discriminate | ].
    inversion Hnd as [| ? ? Hni Hnd']; subst.
    destruct (setitem_spec a v (Hlt i0 (or_introl eq_refl)))
      as (a1 & E1 & Hl1 & Hn1 & Ho1).
    destruct (IH a1 vals Hnd') as (a' & E' & Hl' & Hk' & Ho').
    { intros i Hi. rewrite Hl1. apply Hlt. right. exact Hi. }
    { simpl in Hlen. lia. }
    exists a'. simpl. rewrite E1. simpl. rewrite E'.
    split; [ reflexivity | ]. split; [ congruence | ]. split.
    + intros [| k] i Hk; simpl in Hk.
      * injection Hk as <-. rewrite (Ho' i0 Hni). exact Hn1.
      * simpl. apply Hk'. exact Hk.
    + intros i Hi. rewrite Ho'.
      * apply Ho1. intros ->. apply Hi. left. reflexivity.
      * intros Hin. apply Hi. right. exact Hin.
Qed.
End Indexing.

Section Slices.
Variable A : Type.

Lemma take_map (B : Type) (f : A -> B) (a : list A) ind l :
  take a ind = Ok l -> take (map f a) ind = Ok (map f l).
Proof.
  unfold take. revert l.
  induction ind as [| i ind IH]; simpl; intros l H.
  - inv_ok. subst l. reflexivity.
  - inv_ok. subst l. apply getitem_Ok in Ha.
    unfold getitem at 1. rewrite nth_error_map, Ha. simpl.
    rewrite (IH _ Ha0). reflexivity.
Qed.

Lemma take_In (a : list A) ind l x :
  take a ind = Ok l -> In x l -> In x a.
Proof.
  intros H Hin. apply In_nth_error in Hin. destruct Hin as [k Hk].
  rewrite (take_nth_error _ _ k H) in Hk.
  destruct (nth_error ind k); [ | discriminate ].
  eapply nth_error_In. exact Hk.
Qed.

Lemma firstn_skipn_add : forall p q (l : list A),
  firstn p l ++ firstn q (skipn p l) = firstn (p + q) l.
Proof.
  induction p as [| p IH]; intros q l; [ reflexivity | ].
  destruct l as [| x l]; simpl.
  - rewrite firstn_nil. reflexivity.
  - f_equal. apply IH.
Qed.

Lemma slice_app (l : list A) s c n :
  s <= c -> c <= n -> slice l s c ++ slice l c n = slice l s n.
Proof.
  intros Hsc Hcn. unfold slice.
  replace (skipn c l) with (skipn (c - s) (skipn s l))
    by (rewrite skipn_skipn; f_equal; lia).
  rewrite firstn_skipn_add. f_equal. lia.
Qed.

Lemma slice_all (l : list A) : slice l 0 (length l) = l.
Proof. unfold slice. simpl. rewrite Nat.sub_0_r. apply firstn_all. Qed.

Lemma nth_error_slice (l : list A) s e i :
  nth_error (slice l s e) i =
    if i <? e - s then nth_error l (s + i) else None.
Proof. unfold slice. rewrite nth_error_firstn, nth_error_skipn. reflexivity. Qed.

Lemma In_slice (l : list A) s e x :
  In x (slice l s e) -> exists i, s <= i < e /\ nth_error l i = Some x.
Proof.
  intros H. apply In_nth_error in H. destruct H as [k Hk].
  rewrite nth_error_slice in Hk.
  destruct (k <? e - s) eqn:E; [ | discriminate ].
  apply Nat.ltb_lt in E. exists (s + k). split; [ lia | exact Hk ].
Qed.

Lemma slice_map (B : Type) (f : A -> B) (l : list A) s e :
  slice (map f l) s e = map f (slice l s e).
Proof. unfold slice. rewrite skipn_map, firstn_map. reflexivity. Qed.

Lemma split_fst_snd (B : Type) : forall l : list (A * B),
  split l = (map fst l, map snd l).
Proof.
  induction l as [| [a b] l IH]; simpl; [ reflexivity | ].
  rewrite IH. reflexivity.
Qed.
End Slices.

Section DictFacts.
Variable V : Type.

Lemma dict_get_Raise (d : dict V) k e :
  dict_get d k = Raise e -> e = KeyError k /\ dict_mem d k = false.
Proof.
  induction d as [| [k' v] d IH]; simpl; intros H.
  - split; congruence.
  - destruct (k' =? k)%Z; [ discriminate | ]. simpl. auto.
Qed.

Lemma dict_mem_false (d : dict V) k :
  dict_mem d k = false -> dict_get d k = Raise (KeyError k).
Proof.
  induction d as [| [k' v] d IH]; simpl; intros H; [ reflexivity | ].
  destruct (k' =? k)%Z; [ discriminate | ]. auto.
Qed.

Lemma dict_mem_true (d : dict V) k :
  dict_mem d k = true -> exists v, dict_get d k = Ok v.
Proof.
  intros H. destruct (dict_get d k) as [v | e] eqn:E; [ eauto | ].
  apply dict_get_Raise in E. destruct E as [_ E]. congruence.
Qed.

Lemma dict_get_Ok_mem (d : dict V) k v :
  dict_get d k = Ok v -> dict_mem d k = true.
Proof.
  intros H. destruct (dict_mem d k) eqn:E; [ reflexivity | ].
  apply dict_mem_false in E. congruence.
Qed.

Lemma dict_mem_keys (d : dict V) k :
  dict_mem d k = true <-> In k (dict_keys d).
Proof.
  unfold dict_mem, dict_keys. rewrite existsb_exists, in_map_iff.
  split.
  - intros (kv & Hin & E). apply Z.eqb_eq in E. eauto.
  - intros (kv & E & Hin). exists kv. split; [ exact Hin | ].
    apply Z.eqb_eq. exact E.
Qed.

(** Assigning to an absent key appends the item. *)
Lemma dict_set_fresh (d : dict V) k v :
  dict_mem d k = false -> dict_set d k v = d ++ [(k, v)].
Proof.
  induction d as [| [k' v'] d IH]; simpl; intros H; [ reflexivity | ].
  destruct (k' =? k)%Z; [ discriminate | ]. simpl in H.
  rewrite IH by exact H. reflexivity.
Qed.
End DictFacts.

(** ** Undoing the sort: [reverse_ind] *)

Section ReverseIndex.
Variable A : Type.

Lemma Permutation_seq_facts ind n :
  Permutation ind (seq 0 n) ->
  NoDup ind /\ length ind = n /\ (forall i, In i ind <-> i < n).
Proof.
  intros H. split; [ | split ].
  - apply Permutation_sym in H.
    eapply Permutation_NoDup; [ exact H | apply seq_NoDup ].
  - rewrite (Permutation_length H). apply length_seq.
  - intros i. split; intros Hi.
    + apply (Permutation_in _ H) in Hi. apply in_seq in Hi. lia.
    + apply Permutation_sym in H. apply (Permutation_in _ H).
      apply in_seq. lia.
Qed.

(** [reverse_ind[ind] = np.arange(num_rows)] builds the inverse of the
    permutation [ind]. *)
Lemma reverse_ind_spec ind n :
  Permutation ind (seq 0 n) ->
  exists rev, put (empty_like ind) ind (seq 0 n) = Ok rev /\
    length rev = n /\
    forall k i, nth_error ind k = Some i -> nth_error rev i = Some k.
Proof.
  intros H. destruct (@Permutation_seq_facts ind n H) as (Hnd & Hlen & Hin).
  destruct (@put_spec nat ind (empty_like ind) (seq 0 n)) as
    (rev & E & Hl & Hk & _).
  - exact Hnd.
  - intros i Hi. unfold empty_like. rewrite length_map, Hlen.
    apply Hin. exact Hi.
  - rewrite length_seq. congruence.
  - exists rev. split; [ exact E | ]. split.
    + rewrite Hl. unfold empty_like. rewrite length_map. exact Hlen.
    + intros k i Hki. rewrite (Hk k i Hki), nth_error_seq.
      assert (k < n) as Hkn.
      { rewrite <- Hlen. apply nth_error_Some. congruence. }
      apply Nat.ltb_lt in Hkn. rewrite Hkn. reflexivity.
Qed.

(** Indexing the sorted rows by the inverse permutation gives back the
    rows in their original order. *)
Lemma take_reverse (W W' : list A) ind rev :
  Permutation ind (seq 0 (length W)) ->
  take W ind = Ok W' ->
  length rev = length W ->
  (forall k i, nth_error ind k = Some i -> nth_error rev i = Some k) ->
  take W' rev = Ok W.
Proof.
  intros H HW' Hlen Hrev.
  destruct (@Permutation_seq_facts ind _ H) as (Hnd & Hlind & Hin).
  assert (forall i, i < length W -> exists k, nth_error ind k = Some i)
    as Hsurj.
  { intros i Hi. apply In_nth_error. apply Hin. exact Hi. }
  destruct (@take_exists A W' rev) as [l Hl].
  - intros k Hk. apply In_nth_error in Hk. destruct Hk as [i Hi].
    assert (i < length W) as HiW.
    { rewrite <- Hlen. apply nth_error_Some. congruence. }
    destruct (Hsurj i HiW) as [k' Hk'].
    rewrite (Hrev k' i Hk') in Hi. injection Hi as <-.
    rewrite (take_length _ _ HW'). apply nth_error_Some. congruence.
  - rewrite Hl. f_equal. apply nth_error_ext. intros i.
    rewrite (take_nth_error _ _ i Hl).
    destruct (Nat.lt_ge_cases i (length W)) as [Hi | Hi].
    + destruct (Hsurj i Hi) as [k Hk]. rewrite (Hrev k i Hk).
      rewrite (take_nth_error _ _ k HW'), Hk. reflexivity.
    + assert (nth_error rev i = None) as ->
        by (apply nth_error_None; lia).
      symmetry. apply nth_error_None. exact Hi.
Qed.
End ReverseIndex.

(** ** Runs of equal resources *)

Section RunsFacts.
Variable brk : nat -> bool.

Lemma Runs_lt s n l : Runs brk s n l -> s < n.
Proof. induction 1; lia. Qed.

Lemma Runs_In s n l :
  Runs brk s n l ->
  forall s' e', In (s', e') l ->
    s <= s' /\ s' < e' /\ e' <= n /\
    (forall j, s' < j < e' -> brk j = false).
Proof.
  induction 1 as [s n Hlt Hnb | s c n l Hlt Hnb HR IH];
    intros s' e' Hin.
  - destruct Hin as [E | []]. injection E as <- <-. repeat split; auto.
  - destruct Hin as [E | Hin].
    + injection E as <- <-. apply Runs_lt in HR.
      repeat split; auto; lia.
    + destruct (IH s' e' Hin) as (H1 & H2 & H3 & H4).
      repeat split; auto; lia.
Qed.

Lemma Runs_cover s n l :
  Runs brk s n l ->
  forall k, s <= k < n -> exists s' e', In (s', e') l /\ s' <= k < e'.
Proof.
  induction 1 as [s n Hlt Hnb | s c n l Hlt Hnb HR IH]; intros k Hk.
  - exists s, n. split; [ left; reflexivity | lia ].
  - destruct (Nat.lt_ge_cases k c) as [Hkc | Hkc].
    + exists s, c. split; [ left; reflexivity | lia ].
    + destruct (IH k ltac:(lia)) as (s' & e' & Hin & Hse).
      exists s', e'. split; [ right; exact Hin | exact Hse ].
Qed.

(** The consecutive pairs of [s], the break positions from [a] on, and the
    end. *)
Lemma pairs_Runs : forall len s a,
  s < a -> (forall j, s < j < a -> brk j = false) ->
  let cp := s :: filter brk (seq a len) ++ [a + len] in
  Runs brk s (a + len) (combine (removelast cp) (tl cp)).
Proof.
  induction len as [| len IH]; intros s a Hsa Hinv cp; subst cp.
  - simpl. rewrite Nat.add_0_r. apply Runs_last; assumption.
  - simpl seq. simpl filter. destruct (brk a) eqn:Ea.
    + change (combine
                (removelast
                   (s :: (a :: filter brk (seq (S a) len)) ++ [a + S len]))
                (tl (s :: (a :: filter brk (seq (S a) len))
                          ++ [a + S len])))
        with ((s, a) ::
              combine
                (removelast
                   (a :: filter brk (seq (S a) len) ++ [a + S len]))
                (tl (a :: filter brk (seq (S a) len) ++ [a + S len]))).
      apply Runs_cons; [ assumption | assumption | ].
      replace (a + S len) with (S a + len) by lia.
      apply IH; [ lia | intros j Hj; lia ].
    + replace (a + S len) with (S a + len) by lia.
      apply IH; [ lia | ].
      intros j Hj. destruct (Nat.eq_dec j a) as [-> | Hne];
        [ exact Ea | apply Hinv; lia ].
Qed.
End RunsFacts.

(** The entries of [resources[:-1] != resources[1:]]. *)
Lemma neq_arr_nth : forall (rs : list Z) k,
  S k < length rs ->
  nth k (neq_arr (removelast rs) (tl rs)) false =
    negb (nth k rs 0%Z =? nth (S k) rs 0%Z)%Z.
Proof.
  unfold neq_arr.
  induction rs as [| x rs IH]; intros k Hk; [ simpl in Hk; lia | ].
  destruct rs as [| y rs]; [ simpl in Hk; lia | ].
  destruct k as [| k].
  - reflexivity.
  - change (nth (S k)
              (map (fun xy : Z * Z => negb (fst xy =? snd xy)%Z)
                 (combine (removelast (x :: y :: rs)) (tl (x :: y :: rs))))
              false)
      with (nth k
              (map (fun xy : Z * Z => negb (fst xy =? snd xy)%Z)
                 (combine (removelast (y :: rs)) (tl (y :: rs))))
              false).
    rewrite IH by (simpl in Hk |- *; lia). reflexivity.
Qed.

Lemma neq_arr_length (rs : list Z) :
  length (neq_arr (removelast rs) (tl rs)) = length rs - 1.
Proof.
  unfold neq_arr. rewrite length_map, length_combine.
  rewrite removelast_firstn_len, length_firstn.
  destruct rs as [| x rs]; simpl; lia.
Qed.

Lemma change_positions_Runs (rs : list Z) :
  rs <> [] ->
  let cp := change_positions rs in
  Runs (break_at rs) 0 (length rs) (combine (removelast cp) (tl cp)).
Proof.
  intros Hne cp. subst cp. unfold change_positions, flatnonzero.
  rewrite neq_arr_length.
  rewrite <- (filter_map_swap (break_at rs) S), seq_shift.
  assert (exists m, length rs = S m) as [m Hm]
    by (destruct rs; [ congruence | simpl; eauto ]).
  rewrite Hm. replace (S m - 1) with m by lia.
  apply (pairs_Runs (break_at rs) m (s := 0) (a := 1)).
  - lia.
  - intros j Hj. lia.
Qed.

(** Within a run, every row has the resource of the run's first row. *)
Lemma run_constant (rs : list Z) s e :
  e <= length rs ->
  (forall j, s < j < e -> break_at rs j = false) ->
  forall i, s <= i < e -> nth i rs 0%Z = nth s rs 0%Z.
Proof.
  intros He Hnb i [Hsi Hie].
  induction i as [| i IH]; [ replace s with 0 by lia; reflexivity | ].
  destruct (Nat.eq_dec s (S i)) as [-> | Hne]; [ reflexivity | ].
  rewrite <- IH by lia.
  specialize (Hnb (S i) ltac:(lia)). unfold break_at in Hnb. simpl in Hnb.
  rewrite neq_arr_nth in Hnb by lia.
  apply negb_false_iff, Z.eqb_eq in Hnb. congruence.
Qed.

(* ================================================================== *)
(** * Properties of the posterior state *)

Section PosteriorStateProperties.

Variable scalar : Type.
Variable zero : scalar.
Variable add : scalar -> scalar -> scalar.
Variable as_integer : scalar -> option Z.
Variable RandomState : Type.
Variable KernelFunction : Type.
Variable HeadGradients : Type.
Variable py_set : list Z -> list Z.
Variable argsort : list Z -> list nat.
Variable GaussProcPosteriorState_init :
  list (list scalar) -> list (list scalar) -> MeanFunction scalar ->
  KernelFunction * scalar -> scalar ->
  result (GaussProcPosteriorState scalar RandomState HeadGradients).

(** What is known of [set(...)] and [np.argsort]: a set enumerates the
    distinct elements, each once, in some order; [argsort] returns a
    permutation of the row indices. *)
Hypothesis py_set_NoDup : forall l, NoDup (py_set l).
Hypothesis py_set_In : forall l x, In x (py_set l) <-> In x l.
Hypothesis argsort_perm :
  forall l, Permutation (argsort l) (seq 0 (length l)).

Let GP : Type := GaussProcPosteriorState scalar RandomState HeadGradients.
Let PState : Type :=
  IndependentGPPerResourcePosteriorState scalar RandomState HeadGradients.

(** A decoded test row together with the GP of its resource level. *)
Let row : Type := (Z * GP * list scalar)%type.
Let r_of (z : row) : Z := fst (fst z).
Let gp_of (z : row) : GP := snd (fst z).
Let x_of (z : row) : list scalar := snd z.
Let mean_of (z : row) : list scalar := gp_mean_at (gp_of z) (x_of z).
Let variance_of (z : row) : scalar := gp_variance_at (gp_of z) (x_of z).
Let covered (st : PState) (z : row) : Prop :=
  dict_get (_states st) (r_of z) = Ok (gp_of z).

Lemma mapM_take (A B : Type) (f : A -> result B) l bs ind l' :
  mapM f l = Ok bs -> take l ind = Ok l' ->
  exists bs', take bs ind = Ok bs' /\ mapM f l' = Ok bs'.
Proof.
  intros Hm. unfold take. revert l'.
  induction ind as [| i ind IH]; simpl; intros l' H.
  - inv_ok. subst l'. exists []. auto.
  - inv_ok. subst l'. destruct (IH _ Ha0) as (bs' & E1 & E2).
    apply getitem_Ok in Ha.
    pose proof (mapM_nth_error f l i Hm) as Hi. rewrite Ha in Hi.
    destruct Hi as (b & Hb & Hnb).
    exists (b :: bs'). unfold getitem at 1. rewrite Hnb. simpl.
    rewrite E1, Hb. simpl. rewrite E2. auto.
Qed.

Lemma decode_lengths X rng xs rs :
  decode_extended_features as_integer X rng = Ok (xs, rs) ->
  length xs = length X /\ length rs = length X.
Proof.
  unfold decode_extended_features. intros H. inv_ok.
  rewrite split_fst_snd in H. injection H as <- <-.
  rewrite !length_map. apply mapM_length in Ha. auto.
Qed.

(** Decoding is row by row: it commutes with any selection of rows. *)
Lemma decode_take X rng xs rs ind X' :
  decode_extended_features as_integer X rng = Ok (xs, rs) ->
  take X ind = Ok X' ->
  exists xs' rs',
    decode_extended_features as_integer X' rng = Ok (xs', rs') /\
    take xs ind = Ok xs' /\ take rs ind = Ok rs'.
Proof.
  unfold decode_extended_features. intros H HX'. inv_ok.
  rewrite split_fst_snd in H. injection H as <- <-.
  edestruct mapM_take as (bs' & E1 & E2); [ exact Ha | exact HX' | ].
  exists (map fst bs'), (map snd bs'). rewrite E2. simpl.
  rewrite split_fst_snd. repeat split; apply take_map; exact E1.
Qed.

Lemma rows_exist (st : PState) : forall xs rs,
  length xs = length rs ->
  Forall (fun r => dict_mem (_states st) r = true) rs ->
  exists Zs : list row,
    map r_of Zs = rs /\ map x_of Zs = xs /\ Forall (covered st) Zs.
Proof.
  induction xs as [| x xs IH]; intros [| r rs] Hlen Hall;
    try discriminate.
  - exists []. auto.
  - inversion Hall as [| ? ? Hr Hrs]; subst.
    destruct (IH rs) as (Zs & E1 & E2 & Hc);
      [ simpl in Hlen; lia | exact Hrs | ].
    destruct (dict_mem_true _ _ Hr) as [gp Hgp].
    exists ((r, gp, x) :: Zs). simpl. subst.
    repeat split. constructor; [ exact Hgp | exact Hc ].
Qed.

(** One run of rows of equal resource is predicted by the GP of the run's
    first row, which is the GP of each of its rows. *)
Lemma group_predict (st : PState) (Zs : list row) s e :
  Forall (covered st) Zs ->
  s < e -> e <= length Zs ->
  (forall j, s < j < e -> break_at (map r_of Zs) j = false) ->
  (r <- getitem (map r_of Zs) s ;;
   gp <- dict_get (_states st) r ;;
   Ok (gp_predict gp (slice (map x_of Zs) s e)))
  = Ok (slice (map mean_of Zs) s e, slice (map variance_of Zs) s e).
Proof.
  intros Hc Hse He Hnb. rewrite Forall_forall in Hc.
  destruct (nth_error Zs s) as [zs |] eqn:Ezs;
    [ | apply nth_error_None in Ezs; lia ].
  unfold getitem. rewrite nth_error_map, Ezs. simpl.
  pose proof (Hc zs (nth_error_In _ _ Ezs)) as Hzs.
  unfold covered in Hzs. rewrite Hzs. simpl.
  unfold gp_predict. rewrite !slice_map, !map_map.
  assert (forall z, In z (slice Zs s e) -> gp_of z = gp_of zs) as Hsame.
  { intros z Hz. apply In_slice in Hz. destruct Hz as (i & Hi & Ei).
    pose proof (@run_constant (map r_of Zs) s e
                  ltac:(rewrite length_map; exact He) Hnb i Hi) as Hr.
    rewrite (nth_error_nth (map r_of Zs) i 0%Z (x := r_of z)) in Hr
      by (rewrite nth_error_map, Ei; reflexivity).
    rewrite (nth_error_nth (map r_of Zs) s 0%Z (x := r_of zs)) in Hr
      by (rewrite nth_error_map, Ezs; reflexivity).
    pose proof (Hc z (nth_error_In _ _ Ei)) as Hz. unfold covered in Hz.
    rewrite Hr in Hz. congruence. }
  f_equal. f_equal; apply map_ext_in; intros z Hz;
    unfold mean_of, variance_of; rewrite (Hsame z Hz); reflexivity.
Qed.

Lemma runs_predict (st : PState) (Zs : list row) s n l :
  Forall (covered st) Zs ->
  Runs (break_at (map r_of Zs)) s n l -> n <= length Zs ->
  exists L,
    mapM (fun se : nat * nat =>
            r <- getitem (map r_of Zs) (fst se) ;;
            gp <- dict_get (_states st) r ;;
            Ok (gp_predict gp (slice (map x_of Zs) (fst se) (snd se)))) l
    = Ok L /\
    concat (map fst L) = slice (map mean_of Zs) s n /\
    concat (map snd L) = slice (map variance_of Zs) s n.
Proof.
  intros Hc HR. induction HR as [s n Hlt Hnb | s c n l Hlt Hnb HR IH];
    intros Hn.
  - eexists. simpl. rewrite group_predict by auto. simpl.
    split; [ reflexivity | ]. simpl. rewrite !app_nil_r. auto.
  - pose proof (Runs_lt HR) as Hcn.
    destruct (IH Hn) as (L & E & Em & Ev).
    eexists. simpl. rewrite group_predict by (auto; lia). simpl.
    rewrite E. simpl. split; [ reflexivity | ]. simpl.
    rewrite Em, Ev, !slice_app by lia. auto.
Qed.

(** When its only element is [a], a set has no other source value. *)
Lemma py_set_single (rs : list Z) :
  length (py_set rs) = 1 -> forall r r', In r rs -> In r' rs -> r = r'.
Proof.
  intros Hlen r r' Hr Hr'. apply py_set_In in Hr, Hr'.
  destruct (py_set rs) as [| a [| b l]]; try discriminate.
  destruct Hr as [<- | []]. destruct Hr' as [<- | []]. reflexivity.
Qed.

(** [predict] returns, row by row and in the order of the input, what the
    GP of the row's resource level predicts at the row. *)
Lemma predict_rows (st : PState) X xs rs (Zs : list row) :
  decode_extended_features as_integer X (_resource_attr_range st)
    = Ok (xs, rs) ->
  map r_of Zs = rs -> map x_of Zs = xs ->
  Forall (covered st) Zs -> Zs <> [] ->
  predict as_integer py_set argsort st X
    = Ok (map mean_of Zs, map variance_of Zs).
Proof.
  intros Hdec Hrs Hxs Hc Hne. unfold predict. rewrite Hdec. cbn [bind].
  destruct (length (py_set rs) =? 1) eqn:E1.
  - apply Nat.eqb_eq in E1.
    destruct Zs as [| z0 Zs0] eqn:EZ; [ congruence | ].
    rewrite <- EZ in *. subst rs xs.
    assert (nth_error Zs 0 = Some z0) as E0 by (rewrite EZ; reflexivity).
    unfold getitem. rewrite nth_error_map, E0. simpl.
    rewrite Forall_forall in Hc.
    pose proof (Hc z0 (nth_error_In _ _ E0)) as Hz0. unfold covered in Hz0.
    rewrite Hz0. simpl. unfold gp_predict. rewrite !map_map.
    assert (forall z, In z Zs -> gp_of z = gp_of z0) as Hsame.
    { intros z Hz. pose proof (Hc z Hz) as Hcz. unfold covered in Hcz.
      assert (r_of z = r_of z0) as Er.
      { eapply py_set_single;
          [ exact E1 | apply in_map; exact Hz
          | apply in_map; eapply nth_error_In; exact E0 ]. }
      congruence. }
    f_equal. f_equal; apply map_ext_in; intros z Hz;
      unfold mean_of, variance_of; rewrite (Hsame z Hz); reflexivity.
  - pose proof (argsort_perm rs) as Hperm.
    assert (length rs = length Zs) as Hlen by (subst rs; apply length_map).
    destruct (@Permutation_seq_facts _ _ Hperm) as (Hnd & Hlind & Hin).
    destruct (@take_exists row Zs (argsort rs)) as [Zs' HZs'];
      [ intros i Hi; rewrite <- Hlen; apply Hin; exact Hi | ].
    pose proof (take_map x_of _ _ HZs') as Exs. rewrite Hxs in Exs.
    pose proof (take_map r_of _ _ HZs') as Ers. rewrite Hrs in Ers.
    rewrite Exs. cbn [bind]. rewrite Ers. cbn [bind].
    assert (Forall (covered st) Zs') as Hc'.
    { rewrite Forall_forall in *. intros z Hz. apply Hc.
      eapply take_In; eassumption. }
    assert (length Zs' = length Zs) as Hlen'
      by (rewrite (take_length _ _ HZs'); congruence).
    assert (map r_of Zs' <> []) as Hne'.
    { intros Hnil. apply (f_equal (@length Z)) in Hnil.
      rewrite length_map, Hlen' in Hnil. destruct Zs; [ congruence | ].
      discriminate. }
    pose proof (change_positions_Runs Hne') as HR. cbv zeta in HR.
    rewrite length_map in HR.
    edestruct runs_predict as (L & EL & Em & Ev);
      [ exact Hc' | exact HR | apply Nat.le_refl | ].
    rewrite EL. cbn [bind]. rewrite split_fst_snd.
    destruct (@reverse_ind_spec _ _ Hperm) as (rev & Erev & Hlrev & Hrev).
    rewrite Erev. cbn [bind]. rewrite Em, Ev.
    rewrite <- (length_map mean_of) at 1. rewrite slice_all.
    rewrite <- (length_map variance_of). rewrite slice_all.
    rewrite Hlen in Hperm, Hlrev.
    rewrite (@take_reverse _ (map mean_of Zs) (map mean_of Zs')
               (argsort rs) rev);
      [ | rewrite length_map; exact Hperm | apply take_map; exact HZs'
        | rewrite length_map; exact Hlrev | exact Hrev ].
    cbn [bind].
    rewrite (@take_reverse _ (map variance_of Zs) (map variance_of Zs')
               (argsort rs) rev);
      [ | rewrite length_map; exact Hperm | apply take_map; exact HZs'
        | rewrite length_map; exact Hlrev | exact Hrev ].
    reflexivity.
Qed.

Lemma take_perm_In (A : Type) (a l : list A) ind x :
  Permutation ind (seq 0 (length a)) ->
  take a ind = Ok l -> In x a -> In x l.
Proof.
  intros Hperm Hl Hx.
  destruct (@Permutation_seq_facts _ _ Hperm) as (_ & _ & Hin).
  apply In_nth_error in Hx. destruct Hx as [i Hi].
  assert (In i ind) as Hiind
    by (apply Hin, nth_error_Some; congruence).
  apply In_nth_error in Hiind. destruct Hiind as [k Hk].
  apply nth_error_In with (n := k).
  rewrite (take_nth_error _ _ k Hl), Hk. exact Hi.
Qed.

(** A batch with a row at a resource level without a trained posterior:
    [predict] raises the [KeyError] of such a level. *)
Lemma predict_unsupported (st : PState) X xs rs :
  decode_extended_features as_integer X (_resource_attr_range st)
    = Ok (xs, rs) ->
  (exists r, In r rs /\ dict_mem (_states st) r = false) ->
  exists r', In r' rs /\ dict_mem (_states st) r' = false /\
    predict as_integer py_set argsort st X = Raise (KeyError r').
Proof.
  intros Hdec (r & Hr & Hmiss). unfold predict. rewrite Hdec. cbn [bind].
  edestruct decode_lengths as [Hlx Hlr]; [ exact Hdec | ].
  destruct (length (py_set rs) =? 1) eqn:E1.
  - apply Nat.eqb_eq in E1.
    destruct rs as [| r0 rs0] eqn:Ers; [ contradiction | ].
    rewrite <- Ers in *.
    assert (In r0 rs) as Hr0 by (rewrite Ers; left; reflexivity).
    assert (r = r0) as -> by (eapply py_set_single; eassumption).
    exists r0. split; [ exact Hr0 | ]. split; [ exact Hmiss | ].
    unfold getitem. rewrite Ers. simpl.
    rewrite (dict_mem_false _ _ Hmiss). reflexivity.
  - pose proof (argsort_perm rs) as Hperm.
    destruct (@Permutation_seq_facts _ _ Hperm) as (Hnd & Hlind & Hin).
    destruct (@take_exists _ xs (argsort rs)) as [xs' Hxs'];
      [ intros i Hi; rewrite Hlx, <- Hlr; apply Hin; exact Hi | ].
    destruct (@take_exists _ rs (argsort rs)) as [rs' Hrs'];
      [ intros i Hi; apply Hin; exact Hi | ].
    rewrite Hxs'. cbn [bind]. rewrite Hrs'. cbn [bind].
    assert (In r rs') as Hr' by (eapply take_perm_In; eassumption).
    assert (rs' <> []) as Hne' by (intros ->; contradiction).
    pose proof (change_positions_Runs Hne') as HR. cbv zeta in HR.
    apply In_nth_error in Hr'. destruct Hr' as [k Hk].
    assert (k < length rs') as Hklt by (apply nth_error_Some; congruence).
    edestruct Runs_cover as (s' & e' & Hinp & Hse);
      [ exact HR | split; [ apply Nat.le_0_l | exact Hklt ] | ].
    edestruct Runs_In as (_ & Hlt & Hle & Hnb); [ exact HR | exact Hinp | ].
    pose proof (@run_constant rs' s' e' Hle Hnb k Hse) as Hconst.
    rewrite (nth_error_nth rs' k 0%Z Hk) in Hconst.
    set (G := fun se : nat * nat =>
                r1 <- getitem rs' (fst se) ;;
                gp <- dict_get (_states st) r1 ;;
                Ok (gp_predict gp (slice xs' (fst se) (snd se)))).
    assert (G (s', e') = Raise (KeyError r)) as HG.
    { unfold G, getitem. simpl fst.
      rewrite (nth_error_nth' rs' 0%Z (n := s')) by lia.
      rewrite <- Hconst. cbn [bind].
      rewrite (dict_mem_false _ _ Hmiss). reflexivity. }
    edestruct mapM_Raise as (a' & e1 & Hina & HGa & Hm);
      [ exact Hinp | exact HG | ].
    rewrite Hm. cbn [bind].
    destruct a' as [s2 e2].
    edestruct Runs_In as (_ & Hlt2 & Hle2 & _); [ exact HR | exact Hina | ].
    unfold G, getitem in HGa. simpl fst in HGa.
    destruct (nth_error rs' s2) as [r2 |] eqn:Er2;
      [ | apply nth_error_None in Er2; lia ].
    cbn [bind] in HGa.
    destruct (dict_get (_states st) r2) as [gp2 | e2'] eqn:Eg;
      [ discriminate | ].
    cbn [bind] in HGa. injection HGa as <-.
    apply dict_get_Raise in Eg. destruct Eg as [-> Hmiss2].
    exists r2. split; [ | split; [ exact Hmiss2 | reflexivity ] ].
    eapply take_In; [ exact Hrs' | eapply nth_error_In; exact Er2 ].
Qed.


(** ** The rows of one resource level *)

Lemma flatnonzero_In (b : list bool) i :
  In i (flatnonzero b) <-> nth_error b i = Some true.
Proof.
  unfold flatnonzero. rewrite filter_In, in_seq. split.
  - intros [Hi Hb]. rewrite (nth_error_nth' b false) by lia.
    rewrite Hb. reflexivity.
  - intros H. assert (i < length b) by (apply nth_error_Some; congruence).
    split; [ lia | ]. apply nth_error_nth. exact H.
Qed.

Lemma flatnonzero_NoDup (b : list bool) : NoDup (flatnonzero b).
Proof. unfold flatnonzero. apply NoDup_filter, seq_NoDup. Qed.

(** [np.flatnonzero(resources == r)] holds the rows at level [r]. *)
Lemma rows_In (rs : list Z) r i :
  In i (flatnonzero (eq_scalar rs r)) <-> nth_error rs i = Some r.
Proof.
  rewrite flatnonzero_In. unfold eq_scalar. rewrite nth_error_map.
  destruct (nth_error rs i) as [r' |]; simpl; split; intros H;
    try discriminate.
  - injection H as H. apply Z.eqb_eq in H. congruence.
  - injection H as ->. rewrite Z.eqb_refl. reflexivity.
Qed.

Lemma rows_lt (rs : list Z) r i :
  In i (flatnonzero (eq_scalar rs r)) -> i < length rs.
Proof. rewrite rows_In. intros H. apply nth_error_Some. congruence. Qed.

Lemma rows_concat_NoDup (rs : list Z) : forall keys,
  NoDup keys ->
  NoDup (concat (map (fun r => flatnonzero (eq_scalar rs r)) keys)).
Proof.
  induction keys as [| r keys IH]; intros Hnd; [ constructor | ].
  inversion Hnd as [| ? ? Hni Hnd']; subst. simpl.
  apply NoDup_app; [ apply flatnonzero_NoDup | apply IH; exact Hnd' | ].
  intros i Hi Hc. apply in_concat in Hc. destruct Hc as (l & Hl & Hil).
  apply in_map_iff in Hl. destruct Hl as (r' & <- & Hr').
  apply rows_In in Hi, Hil. assert (r = r') by congruence.
  subst r'. contradiction.
Qed.

Lemma take_nth (A : Type) (d : A) (a : list A) ind :
  (forall i, In i ind -> i < length a) ->
  take a ind = Ok (map (fun i => nth i a d) ind).
Proof.
  intros H. apply mapM_Ok_map. intros i Hi. unfold getitem.
  rewrite (nth_error_nth' a d (H i Hi)). reflexivity.
Qed.

Lemma dict_mem_app (V : Type) (d d' : dict V) k :
  dict_mem (d ++ d') k = (dict_mem d k || dict_mem d' k)%bool.
Proof. unfold dict_mem. apply existsb_app. Qed.

(** The features and the rows of resource level [r] in a decoded batch. *)
Let item_of (xs : list (list scalar)) (rs : list Z) (r : Z)
  : Z * (list (list scalar) * list nat) :=
  (r, (map (fun i => nth i xs []) (flatnonzero (eq_scalar rs r)),
       flatnonzero (eq_scalar rs r))).

Lemma split_features_loop_Ok (st : PState) xs rs check :
  length xs = length rs ->
  forall todo res,
    NoDup todo ->
    (forall r, In r todo -> dict_mem res r = false) ->
    (check = true ->
     forall r, In r todo -> dict_mem (_states st) r = true) ->
    split_features_loop st xs rs check todo res
      = Ok (res ++ map (item_of xs rs) todo).
Proof.
  intros Hlen. induction todo as [| r todo IH]; intros res Hnd Hfresh Hcov.
  - simpl. rewrite app_nil_r. reflexivity.
  - inversion Hnd as [| ? ? Hni Hnd']; subst.
    cbn [split_features_loop].
    assert ((if check
             then py_assert (dict_mem (_states st) r) not_covered_msg
             else Ok tt) = Ok tt) as ->.
    { destruct check; [ | reflexivity ].
      rewrite (Hcov eq_refl r (or_introl eq_refl)). reflexivity. }
    cbn [bind].
    rewrite (@take_nth _ [] xs (flatnonzero (eq_scalar rs r)))
      by (intros i Hi; rewrite Hlen; eapply rows_lt; exact Hi).
    cbn [bind].
    rewrite dict_set_fresh by (apply Hfresh; left; reflexivity).
    rewrite IH.
    + rewrite <- app_assoc. reflexivity.
    + exact Hnd'.
    + intros r' Hr'. rewrite dict_mem_app.
      rewrite (Hfresh r' (or_intror Hr')). simpl.
      destruct (r =? r')%Z eqn:E; [ | reflexivity ].
      apply Z.eqb_eq in E. subst r'. contradiction.
    + intros Hc r' Hr'. apply (Hcov Hc). right. exact Hr'.
Qed.

Lemma split_features_Ok (st : PState) X xs rs check :
  decode_extended_features as_integer X (_resource_attr_range st)
    = Ok (xs, rs) ->
  (check = true ->
   forall r, In r rs -> dict_mem (_states st) r = true) ->
  _split_features as_integer py_set st X check
    = Ok (map (item_of xs rs) (py_set rs)).
Proof.
  intros Hdec Hcov. unfold _split_features. rewrite Hdec. cbn [bind].
  edestruct decode_lengths as [Hlx Hlr]; [ exact Hdec | ].
  rewrite split_features_loop_Ok; auto.
  - congruence.
  - intros Hc r Hr. apply (Hcov Hc). apply py_set_In. exact Hr.
Qed.

(** The assertion of [_split_features] fails when a row's resource level
    has no trained posterior. *)
Lemma split_features_loop_Raise (st : PState) xs rs :
  length xs = length rs ->
  forall todo res,
    (exists r, In r todo /\ dict_mem (_states st) r = false) ->
    split_features_loop st xs rs true todo res
      = Raise (AssertionError not_covered_msg).
Proof.
  intros Hlen. induction todo as [| r todo IH]; intros res (r' & Hr' & Hm).
  - contradiction.
  - cbn [split_features_loop].
    destruct (dict_mem (_states st) r) eqn:E.
    + cbn [py_assert bind].
      rewrite (@take_nth _ [] xs (flatnonzero (eq_scalar rs r)))
        by (intros i Hi; rewrite Hlen; eapply rows_lt; exact Hi).
      cbn [bind]. apply IH. exists r'. split; [ | exact Hm ].
      destruct Hr' as [-> | Hr']; [ congruence | exact Hr' ].
    + reflexivity.
Qed.

Lemma sample_marginals_unsupported (st : PState) X xs rs ns g :
  decode_extended_features as_integer X (_resource_attr_range st)
    = Ok (xs, rs) ->
  (exists r, In r rs /\ dict_mem (_states st) r = false) ->
  sample_marginals zero as_integer py_set st X ns g
    = Raise (AssertionError not_covered_msg).
Proof.
  intros Hdec (r & Hr & Hm).
  unfold sample_marginals, num_fantasies, _split_features.
  rewrite Hdec. cbn [bind].
  edestruct decode_lengths as [Hlx Hlr]; [ exact Hdec | ].
  rewrite split_features_loop_Raise; [ reflexivity | congruence | ].
  exists r. split; [ apply py_set_In; exact Hr | exact Hm ].
Qed.


Lemma NoDup_app_In (A : Type) (x : A) : forall l1 l2,
  NoDup (l1 ++ l2) -> In x l1 -> In x l2 -> False.
Proof.
  induction l1 as [| a l1 IH]; simpl; intros l2 Hnd H1 H2; [ exact H1 | ].
  inversion Hnd as [| ? ? Hni Hnd']; subst.
  destruct H1 as [-> | H1].
  - apply Hni. apply in_or_app. right. exact H2.
  - eapply IH; eassumption.
Qed.

(** ** The assignment loops of [sample_marginals] and [sample_joint]

    Both loops draw a block of sample rows per resource level and assign it
    to that level's rows; they differ in how the block is produced. *)

Section AssignLoop.
Let items_t : Type := dict (list (list scalar) * list nat).
Let outcome_t : Type := result (list (list scalar) * RandomState).

Variable produce :
  Z -> list (list scalar) -> list nat -> RandomState -> outcome_t.
Variable loop : items_t -> list (list scalar) -> RandomState -> outcome_t.

Hypothesis loop_nil : forall samples g, loop [] samples g = Ok (samples, g).
Hypothesis loop_cons : forall r fs rows items samples g,
  loop ((r, (fs, rows)) :: items) samples g =
    (vg <- produce r fs rows g ;;
     samples' <- put samples rows (fst vg) ;;
     loop items samples' (snd vg)).

Lemma assign_loop_spec : forall (items : items_t) samples g,
  NoDup (concat (map (fun it => snd (snd it)) items)) ->
  (forall r fs rows, In (r, (fs, rows)) items ->
     (forall i, In i rows -> i < length samples) /\
     forall g0, exists v g1,
       produce r fs rows g0 = Ok (v, g1) /\ length v = length rows) ->
  exists samples' g',
    loop items samples g = Ok (samples', g') /\
    length samples' = length samples /\
    (forall i, ~ In i (concat (map (fun it => snd (snd it)) items)) ->
       nth_error samples' i = nth_error samples i) /\
    (forall r fs rows, In (r, (fs, rows)) items ->
       exists g0 v g1, produce r fs rows g0 = Ok (v, g1) /\
         forall j i, nth_error rows j = Some i ->
           nth_error samples' i = nth_error v j).
Proof.
  induction items as [| [r [fs rows]] items IH]; intros samples g Hnd Hok.
  - exists samples, g. rewrite loop_nil. repeat split; auto.
    intros ? ? ? [].
  - simpl in Hnd. apply NoDup_app_remove_l in Hnd as Hnd'.
    destruct (Hok r fs rows (or_introl eq_refl)) as [Hlt Hprod].
    destruct (Hprod g) as (v & g1 & Ev & Hlv).
    destruct (@put_spec _ rows samples v) as (s1 & Eput & Hl1 & Hk1 & Ho1);
      [ eapply NoDup_app_remove_r; exact Hnd | exact Hlt | exact Hlv | ].
    destruct (IH s1 g1 Hnd') as (s2 & g2 & Eloop & Hl2 & Hframe & Hitems).
    { intros r' fs' rows' Hin.
      destruct (Hok r' fs' rows' (or_intror Hin)) as [Hlt' Hprod'].
      split; [ | exact Hprod' ]. intros i Hi. rewrite Hl1. auto. }
    exists s2, g2. rewrite loop_cons, Ev. cbn [bind fst snd].
    rewrite Eput. cbn [bind]. split; [ exact Eloop | ].
    split; [ congruence | ]. split.
    + intros i Hi. simpl in Hi. rewrite Hframe, Ho1; auto;
        intros Hc; apply Hi; apply in_or_app; auto.
    + intros r' fs' rows' [E | Hin].
      * injection E as <- <- <-. exists g, v, g1.
        split; [ exact Ev | ]. intros j i Hji.
        rewrite Hframe; [ apply Hk1; exact Hji | ].
        intros Hc. apply nth_error_In in Hji.
        eapply NoDup_app_In; eassumption.
      * apply Hitems. exact Hin.
Qed.
End AssignLoop.


(** How each of the two loops produces the block of one resource level. *)
Let produce_marginals (st : PState) (ns : nat) (r : Z)
    (fs : list (list scalar)) (rows : list nat) (g : RandomState)
  : result (list (list scalar) * RandomState) :=
  gp <- dict_get (_states st) r ;;
  Ok (gp_sample_marginals gp fs ns g).

Let produce_joint (st : PState) (ns : nat) (shp : list nat) (r : Z)
    (fs : list (list scalar)) (rows : list nat) (g : RandomState)
  : result (list (list scalar) * RandomState) :=
  if dict_mem (_states st) r then
    gp <- dict_get (_states st) r ;;
    Ok (gp_sample_joint gp fs ns g)
  else
    mu <- dict_get (_mean st) r ;;
    b <- broadcast_column (map mu fs) (length rows) shp ;;
    Ok (b, g).

Lemma sample_marginals_loop_cons (st : PState) ns r fs rows items samples g :
  sample_marginals_loop st ns ((r, (fs, rows)) :: items) samples g =
    (vg <- produce_marginals st ns r fs rows g ;;
     samples' <- put samples rows (fst vg) ;;
     sample_marginals_loop st ns items samples' (snd vg)).
Proof.
  unfold produce_marginals. cbn [sample_marginals_loop].
  destruct (dict_get (_states st) r) as [gp | e]; [ | reflexivity ].
  cbn [bind]. destruct (gp_sample_marginals gp fs ns g). reflexivity.
Qed.

Lemma sample_joint_loop_cons (st : PState) ns shp r fs rows items
    samples g :
  sample_joint_loop st ns shp ((r, (fs, rows)) :: items) samples g =
    (vg <- produce_joint st ns shp r fs rows g ;;
     samples' <- put samples rows (fst vg) ;;
     sample_joint_loop st ns shp items samples' (snd vg)).
Proof.
  cbn [sample_joint_loop]. unfold produce_joint.
  destruct (dict_mem (_states st) r).
  - destruct (dict_get (_states st) r) as [gp | e]; [ | reflexivity ].
    cbn [bind]. destruct (gp_sample_joint gp fs ns g). reflexivity.
  - destruct (dict_get (_mean st) r) as [mu | e]; [ | reflexivity ].
    cbn [bind setitem_rows].
    destruct (broadcast_column (map mu fs) (length rows) shp);
      reflexivity.
Qed.

(** Where the column of prior means is assigned along the rows: a single
    fantasy, so that [samples[rows]] has the shape [(k, num_samples)]. *)
Lemma broadcast_column_single_fantasy (col : list scalar) ns :
  broadcast_column col (length col) (cell_shape 1 ns)
  = Ok (map (fun m => repeat m ns) col).
Proof.
  unfold cell_shape. cbn [Nat.eqb broadcast_column].
  rewrite Nat.eqb_refl. reflexivity.
Qed.

Lemma np_zeros_length n cell : length (np_zeros zero n cell) = n.
Proof. unfold np_zeros. apply repeat_length. Qed.

Lemma items_rows_NoDup xs rs :
  NoDup (concat (map (fun it : Z * (list (list scalar) * list nat) =>
                        snd (snd it))
                   (map (item_of xs rs) (py_set rs)))).
Proof.
  rewrite map_map. simpl. apply rows_concat_NoDup, py_set_NoDup.
Qed.

(** [sample_marginals] on a batch all of whose resource levels have a
    trained posterior: it returns, and the rows of level [r] hold, in
    their order, the rows of the block that the GP of [r] drew for them. *)
Lemma sample_marginals_rows (st : PState) X xs rs ns g :
  decode_extended_features as_integer X (_resource_attr_range st)
    = Ok (xs, rs) ->
  (forall r, In r rs -> dict_mem (_states st) r = true) ->
  exists samples g',
    sample_marginals zero as_integer py_set st X ns g = Ok (samples, g') /\
    length samples = length X /\
    forall r, In r rs ->
      exists gp g0, dict_get (_states st) r = Ok gp /\
        forall j i,
          nth_error (flatnonzero (eq_scalar rs r)) j = Some i ->
          nth_error samples i =
            nth_error
              (fst (gp_sample_marginals gp (fst (snd (item_of xs rs r)))
                      ns g0)) j.
Proof.
  intros Hdec Hcov. unfold sample_marginals, num_fantasies.
  erewrite split_features_Ok; [ | exact Hdec | intros _; exact Hcov ].
  cbn [bind].
  edestruct decode_lengths as [Hlx Hlr]; [ exact Hdec | ].
  destruct (@assign_loop_spec (produce_marginals st ns)
              (sample_marginals_loop st ns)
              (fun _ _ => eq_refl) (@sample_marginals_loop_cons st ns)
              (map (item_of xs rs) (py_set rs))
              (np_zeros zero (length X)
                 (cell_shape (_num_fantasies st) ns)) g)
    as (samples & g' & E & Hl & _ & Hitems).
  - apply items_rows_NoDup.
  - intros r fs rows Hin. apply in_map_iff in Hin.
    destruct Hin as (r' & E & Hr'). injection E as -> <- <-.
    apply (proj1 (py_set_In _ _)) in Hr'. split.
    + intros i Hi. rewrite np_zeros_length, <- Hlr. eapply rows_lt.
      exact Hi.
    + intros g0. unfold produce_marginals.
      destruct (dict_mem_true _ _ (Hcov r Hr')) as [gp Hgp].
      rewrite Hgp. cbn [bind].
      destruct (gp_sample_marginals gp
                  (map (fun i => nth i xs []) (flatnonzero (eq_scalar rs r)))
                  ns g0) as [v g1] eqn:Ev.
      exists v, g1. split; [ reflexivity | ].
      pose proof (gp_sample_marginals_rows gp
                    (map (fun i => nth i xs [])
                       (flatnonzero (eq_scalar rs r))) ns g0) as Hrows.
      rewrite Ev, length_map in Hrows. exact Hrows.
  - exists samples, g'. split; [ exact E | ].
    split; [ rewrite Hl; apply np_zeros_length | ].
    intros r Hr.
    destruct (Hitems r (fst (snd (item_of xs rs r)))
                (flatnonzero (eq_scalar rs r)))
      as (g0 & v & g1 & Ev & Hv).
    { apply in_map_iff. exists r. split; [ reflexivity | ].
      apply py_set_In. exact Hr. }
    unfold produce_marginals in Ev.
    destruct (dict_get (_states st) r) as [gp | e]; [ | discriminate ].
    cbn [bind] in Ev. injection Ev as Ev.
    exists gp, g0. split; [ reflexivity | ].
    intros j i Hji. rewrite (Hv j i Hji).
    unfold item_of in *. cbn [fst snd] in *. rewrite Ev. reflexivity.
Qed.

(** [sample_joint] of a state with a single fantasy, on a batch all of
    whose resource levels have a trained posterior or a prior mean: it
    returns; the rows of a level without training data hold the prior mean
    of that level at the row, the rows of a level with training data hold
    the rows of the block that the GP of the level drew for them. *)
Lemma sample_joint_rows (st : PState) X xs rs ns g :
  decode_extended_features as_integer X (_resource_attr_range st)
    = Ok (xs, rs) ->
  _num_fantasies st = 1 ->
  (forall r, In r rs ->
     dict_mem (_states st) r = true \/ dict_mem (_mean st) r = true) ->
  exists samples g',
    sample_joint zero as_integer py_set st X ns g = Ok (samples, g') /\
    length samples = length X /\
    forall r, In r rs ->
      exists g0 v g1,
        (if dict_mem (_states st) r then
           gp <- dict_get (_states st) r ;;
           Ok (gp_sample_joint gp (fst (snd (item_of xs rs r))) ns g0)
         else
           mu <- dict_get (_mean st) r ;;
           Ok (map (fun x => repeat (mu x) ns)
                 (fst (snd (item_of xs rs r))), g0)) = Ok (v, g1) /\
        forall j i,
          nth_error (flatnonzero (eq_scalar rs r)) j = Some i ->
          nth_error samples i = nth_error v j.
Proof.
  intros Hdec Hnf Hcov. unfold sample_joint, num_fantasies.
  erewrite split_features_Ok; [ | exact Hdec | discriminate ].
  cbn [bind]. rewrite Hnf.
  edestruct decode_lengths as [Hlx Hlr]; [ exact Hdec | ].
  assert (forall r g0,
            produce_joint st ns (cell_shape 1 ns) r
              (fst (snd (item_of xs rs r))) (flatnonzero (eq_scalar rs r))
              g0
            = (if dict_mem (_states st) r then
                 gp <- dict_get (_states st) r ;;
                 Ok (gp_sample_joint gp (fst (snd (item_of xs rs r))) ns g0)
               else
                 mu <- dict_get (_mean st) r ;;
                 Ok (map (fun x => repeat (mu x) ns)
                       (fst (snd (item_of xs rs r))), g0))) as Hprod.
  { intros r g0. unfold produce_joint.
    destruct (dict_mem (_states st) r); [ reflexivity | ].
    destruct (dict_get (_mean st) r) as [mu | e]; [ | reflexivity ].
    cbn [bind]. unfold item_of. cbn [fst snd].
    replace (length (flatnonzero (eq_scalar rs r)))
      with (length (map mu (map (fun i => nth i xs [])
                              (flatnonzero (eq_scalar rs r)))))
      by (rewrite !length_map; reflexivity).
    rewrite broadcast_column_single_fantasy. cbn [bind].
    rewrite map_map. reflexivity. }
  destruct (@assign_loop_spec (produce_joint st ns (cell_shape 1 ns))
              (sample_joint_loop st ns (cell_shape 1 ns))
              (fun _ _ => eq_refl)
              (@sample_joint_loop_cons st ns (cell_shape 1 ns))
              (map (item_of xs rs) (py_set rs))
              (np_zeros zero (length X) (cell_shape 1 ns)) g)
    as (samples & g' & E & Hl & _ & Hitems).
  - apply items_rows_NoDup.
  - intros r fs rows Hin. apply in_map_iff in Hin.
    destruct Hin as (r' & E & Hr'). injection E as -> <- <-.
    apply (proj1 (py_set_In _ _)) in Hr'. split.
    + intros i Hi. rewrite np_zeros_length, <- Hlr. eapply rows_lt.
      exact Hi.
    + intros g0.
      change (map (fun i => nth i xs []) (flatnonzero (eq_scalar rs r)))
        with (fst (snd (item_of xs rs r))).
      rewrite Hprod. unfold item_of. cbn [fst snd].
      destruct (dict_mem (_states st) r) eqn:Est.
      * destruct (dict_mem_true _ _ Est) as [gp Hgp].
        rewrite Hgp. cbn [bind].
        destruct (gp_sample_joint gp
                    (map (fun i => nth i xs [])
                       (flatnonzero (eq_scalar rs r)))
                    ns g0) as [v g1] eqn:Ev.
        exists v, g1. split; [ reflexivity | ].
        pose proof (gp_sample_joint_rows gp
                      (map (fun i => nth i xs [])
                         (flatnonzero (eq_scalar rs r))) ns g0) as Hrows.
        rewrite Ev, length_map in Hrows. exact Hrows.
      * destruct (Hcov r Hr') as [Hc | Hc]; [ congruence | ].
        destruct (dict_mem_true _ _ Hc) as [mu Hmu].
        rewrite Hmu. cbn [bind]. eexists _, _. split; [ reflexivity | ].
        rewrite !length_map. reflexivity.
  - exists samples, g'. split; [ exact E | ].
    split; [ rewrite Hl; apply np_zeros_length | ].
    intros r Hr.
    destruct (Hitems r (fst (snd (item_of xs rs r)))
                (flatnonzero (eq_scalar rs r)))
      as (g0 & v & g1 & Ev & Hv).
    { apply in_map_iff. exists r. split; [ reflexivity | ].
      apply py_set_In. exact Hr. }
    rewrite Hprod in Ev. exists g0, v, g1. split; [ exact Ev | exact Hv ].
Qed.


(** ** The claims on [predict], [sample_marginals] and [sample_joint] *)

(** C1.  A batch over two or more resource levels, each with a trained
    posterior: [predict] returns the posterior mean and variance of every
    row at the position of that row in the input (row [i] of the output is
    what the GP of row [i]'s level predicts at row [i]'s configuration),
    and on the rows permuted it returns the same results permuted the same
    way.  The order in which [argsort] groups the rows does not show. *)
Theorem predict_preserves_row_order (st : PState) X xs rs :
  decode_extended_features as_integer X (_resource_attr_range st)
    = Ok (xs, rs) ->
  (exists r r', In r rs /\ In r' rs /\ r <> r') ->
  (forall r, In r rs -> dict_mem (_states st) r = true) ->
  exists means vars,
    predict as_integer py_set argsort st X = Ok (means, vars) /\
    length means = length X /\ length vars = length X /\
    (forall i x r gp,
       nth_error xs i = Some x -> nth_error rs i = Some r ->
       dict_get (_states st) r = Ok gp ->
       nth_error means i = Some (gp_mean_at gp x) /\
       nth_error vars i = Some (gp_variance_at gp x)) /\
    (forall p X',
       Permutation p (seq 0 (length X)) -> take X p = Ok X' ->
       exists means' vars',
         predict as_integer py_set argsort st X' = Ok (means', vars') /\
         take means p = Ok means' /\ take vars p = Ok vars').
Proof.
  intros Hdec (r1 & _ & Hr1 & _ & _) Hcov.
  edestruct decode_lengths as [Hlx Hlr]; [ exact Hdec | ].
  destruct (@rows_exist st xs rs) as (Zs & Ers & Exs & Hc);
    [ congruence | apply Forall_forall; exact Hcov | ].
  assert (length Zs = length X) as HlZ
    by (rewrite <- Hlr, <- Ers; symmetry; apply length_map).
  assert (Zs <> []) as Hne.
  { intros ->. simpl in Ers. subst rs. contradiction. }
  exists (map mean_of Zs), (map variance_of Zs).
  split; [ eapply predict_rows; eassumption | ].
  split; [ rewrite length_map; exact HlZ | ].
  split; [ rewrite length_map; exact HlZ | ].
  split.
  - intros i x r gp Hx Hr Hgp. subst xs rs.
    rewrite nth_error_map in Hx, Hr.
    destruct (nth_error Zs i) as [z |] eqn:Ez; [ | discriminate ].
    simpl in Hx, Hr. injection Hx as <-. injection Hr as <-.
    rewrite Forall_forall in Hc.
    pose proof (Hc z (nth_error_In _ _ Ez)) as Hz. unfold covered in Hz.
    assert (gp = gp_of z) as -> by congruence.
    rewrite !nth_error_map, Ez. auto.
  - intros p X' Hperm HX'.
    edestruct decode_take as (xs' & rs' & Hdec' & Hxs' & Hrs');
      [ exact Hdec | exact HX' | ].
    destruct (@Permutation_seq_facts _ _ Hperm) as (_ & Hlp & Hin).
    destruct (@take_exists row Zs p) as [Zs' HZs'];
      [ intros i Hi; rewrite HlZ; apply Hin; exact Hi | ].
    pose proof (take_map r_of _ _ HZs') as Er'. rewrite Ers, Hrs' in Er'.
    pose proof (take_map x_of _ _ HZs') as Ex'. rewrite Exs, Hxs' in Ex'.
    injection Er' as Er'. injection Ex' as Ex'.
    exists (map mean_of Zs'), (map variance_of Zs').
    split; [ | split; apply take_map; exact HZs' ].
    eapply predict_rows; [ exact Hdec' | congruence | congruence | | ].
    + rewrite Forall_forall in *. intros z Hz. apply Hc.
      eapply take_In; eassumption.
    + intros ->. apply take_length in HZs'. simpl in HZs'.
      destruct Zs; [ congruence | ]. simpl in HlZ. lia.
Qed.

(** C4.  A batch with a row whose resource level has no trained posterior:
    [predict] and [sample_marginals] both raise, and what they raise is the
    failure for an unsupported resource level (the [KeyError] of such a
    level, the failed assertion of [_split_features]); neither returns a
    value. *)
Theorem unsupported_resource_fails (st : PState) X xs rs :
  decode_extended_features as_integer X (_resource_attr_range st)
    = Ok (xs, rs) ->
  (exists r, In r rs /\ dict_mem (_states st) r = false) ->
  (exists e, predict as_integer py_set argsort st X = Raise e /\
             UnsupportedResourceError st e) /\
  (forall num_samples random_state,
     exists e,
       sample_marginals zero as_integer py_set st X num_samples random_state
         = Raise e /\
       UnsupportedResourceError st e).
Proof.
  intros Hdec Hmiss. split.
  - edestruct predict_unsupported as (r' & _ & Hm & E);
      [ exact Hdec | exact Hmiss | ].
    exists (KeyError r'). split; [ exact E | ]. left. eauto.
  - intros ns g. exists (AssertionError not_covered_msg).
    split; [ | right; reflexivity ].
    eapply sample_marginals_unsupported; eassumption.
Qed.

Lemma row_position (xs : list (list scalar)) rs i x (r : Z) :
  length xs = length rs ->
  nth_error xs i = Some x -> nth_error rs i = Some r ->
  exists j,
    nth_error (flatnonzero (eq_scalar rs r)) j = Some i /\
    nth_error (map (fun k => nth k xs []) (flatnonzero (eq_scalar rs r))) j
      = Some x.
Proof.
  intros Hlen Hx Hr.
  destruct (In_nth_error _ _ (proj2 (rows_In rs r i) Hr)) as [j Hj].
  exists j. split; [ exact Hj | ].
  rewrite nth_error_map, Hj. simpl. f_equal.
  apply nth_error_nth. exact Hx.
Qed.

(** C9.  A batch all of whose resource levels have a trained posterior:
    [sample_marginals] returns one row of samples per input row, and row
    [i] of the output is the row that the GP of row [i]'s level drew for
    row [i]: the GP of level [r] is given the rows of level [r] in their
    input order ([feats]), row [i] is the [j]-th of them, and output row
    [i] is the [j]-th row of that GP's samples.  This holds however the
    levels are interleaved in the batch. *)
Theorem sample_marginals_row_positions (st : PState) X xs rs
    num_samples random_state :
  decode_extended_features as_integer X (_resource_attr_range st)
    = Ok (xs, rs) ->
  (forall r, In r rs -> dict_mem (_states st) r = true) ->
  exists samples random_state',
    sample_marginals zero as_integer py_set st X num_samples random_state
      = Ok (samples, random_state') /\
    length samples = length X /\
    forall i x r,
      nth_error xs i = Some x -> nth_error rs i = Some r ->
      exists gp feats j g0,
        dict_get (_states st) r = Ok gp /\
        take xs (flatnonzero (eq_scalar rs r)) = Ok feats /\
        nth_error (flatnonzero (eq_scalar rs r)) j = Some i /\
        nth_error feats j = Some x /\
        length (fst (gp_sample_marginals gp feats num_samples g0))
          = length feats /\
        nth_error samples i =
          nth_error (fst (gp_sample_marginals gp feats num_samples g0)) j.
Proof.
  intros Hdec Hcov.
  edestruct decode_lengths as [Hlx Hlr]; [ exact Hdec | ].
  destruct (@sample_marginals_rows st X xs rs num_samples random_state
              Hdec Hcov)
    as (samples & g' & E & Hl & Hrows).
  exists samples, g'. split; [ exact E | ]. split; [ exact Hl | ].
  intros i x r Hx Hr.
  destruct (Hrows r (nth_error_In _ _ Hr)) as (gp & g0 & Hgp & Hs).
  destruct (@row_position xs rs i x r ltac:(congruence) Hx Hr)
    as (j & Hj & Hfj).
  exists gp, (map (fun k => nth k xs []) (flatnonzero (eq_scalar rs r))),
    j, g0.
  split; [ exact Hgp | ].
  split; [ apply take_nth; intros k Hk; rewrite Hlx, <- Hlr;
           eapply rows_lt; exact Hk | ].
  split; [ exact Hj | ]. split; [ exact Hfj | ].
  split; [ apply gp_sample_marginals_rows | ].
  apply Hs. exact Hj.
Qed.




(** ** [backward_gradient] *)

Lemma decode_row_Ok rng (v x : list scalar) r :
  decode_row as_integer rng v = Ok (x, r) ->
  x = removelast v /\ length v = S (length x).
Proof.
  intros H.
  assert (v <> []) as Hne by (intros ->; discriminate H).
  assert (x = removelast v) as ->.
  { unfold decode_row in H. destruct v as [| c v']; [ discriminate | ].
    destruct (as_integer (last v' c)); [ | discriminate ].
    destruct (_ && _)%bool; [ | discriminate ].
    injection H as <- _. reflexivity. }
  split; [ reflexivity | ].
  rewrite removelast_firstn_len, length_firstn.
  destruct v; [ congruence | simpl; lia ].
Qed.

(** C8.  One extended input whose resource level [r] has a trained
    posterior [gp]: [backward_gradient] returns an array of the shape of
    the input, holding the gradient of [gp] at the configuration
    coordinates [x] (the input without its last coordinate) followed by a
    zero at the resource coordinate. *)
Theorem backward_gradient_zero_pads_resource (st : PState)
    (input : ndarray scalar) head_gradients mean_data std_data x r gp :
  length (data input) = size_of (shape input) ->
  decode_row as_integer (_resource_attr_range st) (data input)
    = Ok (x, r) ->
  dict_get (_states st) r = Ok gp ->
  backward_gradient zero as_integer st input head_gradients mean_data
    std_data
    = Ok {| shape := shape input;
            data := gp_backward_gradient gp x head_gradients mean_data
                      std_data ++ [zero] |}
  /\ x = removelast (data input)
  /\ length (gp_backward_gradient gp x head_gradients mean_data std_data
             ++ [zero]) = length (data input).
Proof.
  intros Hwf Hdec Hgp.
  destruct (decode_row_Ok _ _ Hdec) as [Hx Hlen].
  assert (length (gp_backward_gradient gp x head_gradients mean_data
                    std_data ++ [zero]) = length (data input)) as Hl.
  { rewrite length_app, gp_backward_gradient_size. simpl. lia. }
  split; [ | split; [ exact Hx | exact Hl ] ].
  unfold backward_gradient, decode_extended_features.
  cbn [mapM]. rewrite Hdec. cbn [bind split length Nat.eqb py_assert].
  unfold getitem. cbn [nth_error bind]. rewrite Hgp. cbn [bind concat].
  rewrite app_nil_r. unfold np_reshape.
  rewrite Hl, Hwf, Nat.eqb_refl. reflexivity.
Qed.

(** ** Construction and [neg_log_likelihood] *)

Lemma compute_states_loop_spec xs targets rs kernel cov noise :
  forall items states states',
    NoDup (map fst items) ->
    (forall r, In r (map fst items) -> dict_mem states r = false) ->
    compute_states_loop GaussProcPosteriorState_init xs targets rs kernel
      cov noise items states = Ok states' ->
    exists new,
      states' = states ++ new /\
      Forall2 (fitted_on GaussProcPosteriorState_init xs targets rs kernel
                 cov noise)
        (filter (fun item =>
                   0 <? length (flatnonzero (eq_scalar rs (fst item))))
           items)
        new.
Proof.
  induction items as [| [r mu] items IH]; intros states states' Hnd Hfresh H.
  - simpl in H. injection H as <-. exists []. rewrite app_nil_r.
    split; [ reflexivity | constructor ].
  - inversion Hnd as [| ? ? Hni Hnd']; subst.
    cbn [compute_states_loop] in H. apply bind_Ok_inv in H.
    destruct H as (states1 & Hstep & Hrest).
    unfold compute_state_step in Hstep. apply bind_Ok_inv in Hstep.
    destruct Hstep as (c & Hc & Hstep).
    cbn [filter fst].
    destruct (0 <? length (flatnonzero (eq_scalar rs r))) eqn:Erows.
    + inv_ok. subst states1.
      rewrite dict_set_fresh in Hrest
        by (apply Hfresh; left; reflexivity).
      edestruct IH as (new & -> & HF); [ exact Hnd' | | exact Hrest | ].
      { intros r' Hr'. rewrite dict_mem_app.
        rewrite (Hfresh r' (or_intror Hr')). simpl.
        destruct (r =? r')%Z eqn:E; [ | reflexivity ].
        apply Z.eqb_eq in E. subst r'. contradiction. }
      exists ((r, a1) :: new). rewrite <- app_assoc.
      split; [ reflexivity | ].
      constructor; [ | exact HF ].
      split; [ reflexivity | ]. exists c, a, a0. auto.
    + injection Hstep as <-.
      edestruct IH as (new & -> & HF); [ exact Hnd' | | exact Hrest | ].
      { intros r' Hr'. apply Hfresh. right. exact Hr'. }
      exists new. auto.
Qed.


(** C3.  A posterior state built from training data: it holds one GP per
    resource level of [mean] with at least one training row, in the order
    of [mean], each fitted on the rows of its level, and its
    [neg_log_likelihood] is the sum of the negative log-likelihoods of
    these GPs.  (The keys of the dict [mean] are distinct.) *)
Theorem neg_log_likelihood_is_sum features targets kernel
    (mean : dict (MeanFunction scalar)) covariance_scale noise_variance
    resource_attr_range (st : PState) :
  NoDup (dict_keys mean) ->
  __init__ as_integer GaussProcPosteriorState_init features targets kernel
    mean covariance_scale noise_variance resource_attr_range = Ok st ->
  exists xs rs,
    decode_extended_features as_integer features resource_attr_range
      = Ok (xs, rs) /\
    Forall2
      (fitted_on GaussProcPosteriorState_init xs targets rs kernel
         covariance_scale noise_variance)
      (filter (fun item =>
                 0 <? length (flatnonzero (eq_scalar rs (fst item))))
         mean)
      (_states st) /\
    neg_log_likelihood zero add st =
      np_sum zero add
        (map (fun kv => gp_neg_log_likelihood (snd kv)) (_states st)).
Proof.
  intros Hnd H. unfold __init__ in H. apply bind_Ok_inv in H.
  destruct H as (_ & _ & H). apply bind_Ok_inv in H.
  destruct H as (states & Hstates & H). injection H as <-.
  unfold _compute_states in Hstates. apply bind_Ok_inv in Hstates.
  destruct Hstates as ([xs rs] & Hdec & Hloop).
  exists xs, rs. split; [ exact Hdec | ].
  edestruct compute_states_loop_spec as (new & E & HF);
    [ exact Hnd | | exact Hloop | ].
  { intros r _. reflexivity. }
  simpl in E. subst states. split; [ exact HF | ].
  unfold neg_log_likelihood, dict_values. cbn [_states].
  rewrite map_map. reflexivity.
Qed.


(** ** Further properties of the posterior state *)

Lemma py_set_nil : py_set [] = [].
Proof.
  destruct (py_set []) as [| a l] eqn:E; [ reflexivity | ].
  assert (In a []) as []. apply (proj1 (py_set_In [] a)).
  rewrite E. left. reflexivity.
Qed.

Lemma py_set_constant rs r :
  rs <> [] -> (forall r', In r' rs -> r' = r) -> py_set rs = [r].
Proof.
  intros Hne Hall.
  assert (In r (py_set rs)) as Hr.
  { destruct rs as [| r0 rs0]; [ congruence | ].
    apply (proj2 (py_set_In _ _)).
    rewrite <- (Hall r0 (or_introl eq_refl)). left. reflexivity. }
  assert (forall x, In x (py_set rs) -> x = r) as Hall'.
  { intros x Hx. apply Hall. apply (proj1 (py_set_In _ _)). exact Hx. }
  pose proof (py_set_NoDup rs) as Hnd.
  destruct (py_set rs) as [| a [| b l]].
  - contradiction.
  - rewrite (Hall' a (or_introl eq_refl)). reflexivity.
  - exfalso. inversion Hnd as [| ? ? Hni _]; subst. apply Hni.
    rewrite (Hall' a (or_introl eq_refl)).
    rewrite <- (Hall' b (or_intror (or_introl eq_refl))).
    left. reflexivity.
Qed.

(** X1.  A batch all of whose rows are at one resource level with a trained
    posterior: [predict] is the prediction of that level's GP on the decoded
    configuration rows, without sorting or regrouping. *)
Theorem predict_single_resource_delegates (st : PState) X xs rs r gp :
  decode_extended_features as_integer X (_resource_attr_range st)
    = Ok (xs, rs) ->
  rs <> [] -> (forall r', In r' rs -> r' = r) ->
  dict_get (_states st) r = Ok gp ->
  predict as_integer py_set argsort st X = Ok (gp_predict gp xs).
Proof.
  intros Hdec Hne Hall Hgp. unfold predict. rewrite Hdec. cbn [bind].
  erewrite py_set_constant; [ | exact Hne | exact Hall ].
  change (length [r] =? 1) with true. cbv iota.
  destruct rs as [| r0 rs0]; [ congruence | ].
  unfold getitem. cbn [nth_error bind].
  rewrite (Hall r0 (or_introl eq_refl)), Hgp. reflexivity.
Qed.

(** X2.  On a batch without rows [predict] raises [IndexError]: no row
    decides between the two branches, so the grouping branch runs and reads
    the resource of the first row of its only, empty group. *)
Theorem predict_empty_batch_raises (st : PState) :
  predict as_integer py_set argsort st [] = Raise IndexError.
Proof.
  unfold predict, decode_extended_features. cbn [mapM bind split].
  rewrite py_set_nil. cbn [length Nat.eqb].
  assert (argsort [] = []) as ->.
  { apply Permutation_nil, Permutation_sym. exact (argsort_perm []). }
  reflexivity.
Qed.

(** X3.  On a batch without rows [sample_marginals] and [sample_joint]
    return the empty array, and the generator as it was given. *)
Theorem sampling_empty_batch (st : PState) num_samples random_state :
  sample_marginals zero as_integer py_set st [] num_samples random_state
    = Ok ([], random_state) /\
  sample_joint zero as_integer py_set st [] num_samples random_state
    = Ok ([], random_state).
Proof.
  unfold sample_marginals, sample_joint, _split_features,
    decode_extended_features.
  cbn [mapM bind split]. rewrite py_set_nil. split; reflexivity.
Qed.


(** X4.  [_split_features] without the check for a state never raises on a
    decodable batch: it returns one item per distinct resource level, in the
    iteration order of the set; the item of level [r] holds the rows at [r]
    in increasing order with their configuration features; and the row lists
    of the items together hold every row of the batch exactly once. *)
Theorem split_features_partitions_rows (st : PState) X xs rs :
  decode_extended_features as_integer X (_resource_attr_range st)
    = Ok (xs, rs) ->
  exists items,
    _split_features as_integer py_set st X false = Ok items /\
    dict_keys items = py_set rs /\
    Permutation (concat (map (fun it => snd (snd it)) items))
      (seq 0 (length X)) /\
    forall r fs rows, In (r, (fs, rows)) items ->
      rows = flatnonzero (eq_scalar rs r) /\
      take xs rows = Ok fs /\
      forall i, In i rows <-> nth_error rs i = Some r.
Proof.
  intros Hdec.
  edestruct decode_lengths as [Hlx Hlr]; [ exact Hdec | ].
  exists (map (item_of xs rs) (py_set rs)).
  split; [ apply split_features_Ok; [ exact Hdec | discriminate ] | ].
  split; [ unfold dict_keys; rewrite map_map; apply map_id | ].
  split.
  - apply NoDup_Permutation;
      [ apply items_rows_NoDup | apply seq_NoDup | ].
    intros i. rewrite in_seq, in_concat. split.
    + intros (l & Hl & Hi). apply in_map_iff in Hl.
      destruct Hl as (it & <- & Hit). apply in_map_iff in Hit.
      destruct Hit as (r & <- & _). cbn [item_of snd] in Hi.
      apply rows_lt in Hi. lia.
    + intros [_ Hi]. simpl in Hi. rewrite <- Hlr in Hi.
      destruct (nth_error rs i) as [r |] eqn:Er;
        [ | apply nth_error_None in Er; lia ].
      exists (flatnonzero (eq_scalar rs r)). split.
      * apply in_map_iff. exists (item_of xs rs r).
        split; [ reflexivity | ]. apply in_map.
        apply (proj2 (py_set_In _ _)). eapply nth_error_In. exact Er.
      * apply rows_In. exact Er.
  - intros r fs rows Hin. apply in_map_iff in Hin.
    destruct Hin as (r' & E & _). injection E as -> <- <-.
    split; [ reflexivity | ]. split.
    + apply take_nth. intros i Hi. rewrite Hlx, <- Hlr. eapply rows_lt.
      exact Hi.
    + intros i. apply rows_In.
Qed.

Lemma broadcast_column_length (col : list scalar) k cell b :
  broadcast_column col k cell = Ok b -> length col = k -> length b = k.
Proof.
  unfold broadcast_column. intros H Hk.
  destruct cell as [| n1 [| n2 [| n3 cell]]]; try discriminate.
  - rewrite Hk, Nat.eqb_refl in H. injection H as <-.
    rewrite length_map. exact Hk.
  - destruct (length col =? n1).
    + injection H as <-. apply repeat_length.
    + destruct col as [| m [| m' col]]; try discriminate.
      injection H as <-. apply repeat_length.
Qed.

Lemma broadcast_column_Raise (col : list scalar) k cell e :
  broadcast_column col k cell = Raise e -> e = ValueError.
Proof.
  unfold broadcast_column. intros H.
  destruct cell as [| n1 [| n2 [| n3 cell]]]; try congruence.
  - destruct (length col =? k); [ discriminate | ].
    destruct col as [| m [| m' col]]; congruence.
  - destruct (length col =? n1); [ discriminate | ].
    destruct col as [| m [| m' col]]; congruence.
Qed.

(** With a level that has neither a posterior nor a prior mean among the
    keys, the loop of [sample_joint] raises: at the lookup of such a level
    in [_mean], or before, where a column of prior means does not fit the
    rows it is assigned to, which takes more than one fantasy. *)
Lemma sample_joint_loop_raises (st : PState) xs rs ns nf :
  forall keys samples g,
    length samples = length rs ->
    (exists r, In r keys /\ dict_mem (_states st) r = false /\
               dict_mem (_mean st) r = false) ->
    exists e,
      sample_joint_loop st ns (cell_shape nf ns) (map (item_of xs rs) keys)
        samples g = Raise e /\
      ((exists r', In r' keys /\ dict_mem (_states st) r' = false /\
                   dict_mem (_mean st) r' = false /\ e = KeyError r')
       \/ (e = ValueError /\ nf <> 1)).
Proof.
  induction keys as [| r0 keys IH]; intros samples g Hlen (r & Hr & Hs & Hm).
  - contradiction.
  - cbn [map]. unfold item_of at 1. rewrite sample_joint_loop_cons.
    unfold produce_joint.
    set (rows := flatnonzero (eq_scalar rs r0)).
    set (fs := map (fun i => nth i xs []) rows).
    assert (forall s1 g1, length s1 = length samples -> r <> r0 ->
              exists e,
                sample_joint_loop st ns (cell_shape nf ns)
                  (map (item_of xs rs) keys) s1 g1 = Raise e /\
                ((exists r', In r' (r0 :: keys) /\
                    dict_mem (_states st) r' = false /\
                    dict_mem (_mean st) r' = false /\ e = KeyError r')
                 \/ (e = ValueError /\ nf <> 1))) as Hrest.
    { intros s1 g1 Hl1 Hne.
      destruct Hr as [<- | Hr]; [ congruence | ].
      destruct (IH s1 g1) as (e & E & He);
        [ congruence | exists r; auto | ].
      exists e. split; [ exact E | ].
      destruct He as [(r' & Hr' & Hs' & Hm' & ->) | He];
        [ left | right; exact He ].
      exists r'. repeat split; auto. right. exact Hr'. }
    destruct (dict_mem (_states st) r0) eqn:Es0.
    + destruct (dict_mem_true _ _ Es0) as [gp Hgp]. rewrite Hgp.
      cbn [bind fst snd].
      destruct (gp_sample_joint gp fs ns g) as [v g1] eqn:Ev.
      cbn [fst snd].
      pose proof (gp_sample_joint_rows gp fs ns g) as Hrows.
      rewrite Ev in Hrows. cbn [fst] in Hrows.
      destruct (@put_spec _ rows samples v) as (s1 & E1 & Hl1 & _ & _);
        [ apply flatnonzero_NoDup
        | intros i Hi; rewrite Hlen; eapply rows_lt; exact Hi
        | rewrite Hrows; unfold fs; apply length_map | ].
      rewrite E1. cbn [bind]. apply Hrest; [ exact Hl1 | congruence ].
    + destruct (dict_mem (_mean st) r0) eqn:Em0.
      * destruct (dict_mem_true _ _ Em0) as [mu Hmu]. rewrite Hmu.
        cbn [bind fst snd].
        assert (length (map mu fs) = length rows) as Hcol
          by (unfold fs; rewrite !length_map; reflexivity).
        destruct (broadcast_column (map mu fs) (length rows)
                    (cell_shape nf ns)) as [b | e] eqn:Eb.
        -- cbn [bind fst snd].
           destruct (@put_spec _ rows samples b) as (s1 & E1 & Hl1 & _ & _);
             [ apply flatnonzero_NoDup
             | intros i Hi; rewrite Hlen; eapply rows_lt; exact Hi
             | eapply broadcast_column_length; eassumption | ].
           rewrite E1. cbn [bind]. apply Hrest; [ exact Hl1 | congruence ].
        -- cbn [bind]. exists e. split; [ reflexivity | ]. right.
           split; [ eapply broadcast_column_Raise; exact Eb | ].
           intros ->. rewrite <- Hcol in Eb.
           rewrite broadcast_column_single_fantasy in Eb. discriminate.
      * rewrite (dict_mem_false _ _ Em0). cbn [bind].
        exists (KeyError r0). split; [ reflexivity | ]. left.
        exists r0. repeat split; auto. left. reflexivity.
Qed.


(** X5.  A batch with a row whose resource level has neither a trained
    posterior nor a prior mean: [sample_joint] raises and returns no
    samples.  It raises the [KeyError] of such a level (from the lookup in
    [_mean]) or, on a state with a number of fantasies other than one only,
    the [ValueError] of a column of prior means that does not fit the rows
    it is assigned to; with a single fantasy it is the [KeyError]. *)
Theorem sample_joint_unknown_resource_raises (st : PState) X xs rs
    num_samples random_state :
  decode_extended_features as_integer X (_resource_attr_range st)
    = Ok (xs, rs) ->
  (exists r, In r rs /\ dict_mem (_states st) r = false /\
             dict_mem (_mean st) r = false) ->
  exists e,
    sample_joint zero as_integer py_set st X num_samples random_state
      = Raise e /\
    ((exists r', In r' rs /\ dict_mem (_states st) r' = false /\
                 dict_mem (_mean st) r' = false /\ e = KeyError r')
     \/ (e = ValueError /\ num_fantasies st <> 1)).
Proof.
  intros Hdec (r & Hr & Hs & Hm). unfold sample_joint, num_fantasies.
  erewrite split_features_Ok; [ | exact Hdec | discriminate ].
  cbn [bind].
  edestruct decode_lengths as [Hlx Hlr]; [ exact Hdec | ].
  edestruct (@sample_joint_loop_raises st xs rs num_samples
               (_num_fantasies st) (py_set rs)
               (np_zeros zero (length X)
                  (cell_shape (_num_fantasies st) num_samples))
               random_state)
    as (e & E & He).
  - rewrite np_zeros_length. congruence.
  - exists r. split; [ apply (proj2 (py_set_In _ _)); exact Hr | auto ].
  - exists e. split; [ exact E | ].
    destruct He as [(r' & Hr' & Hs' & Hm' & ->) | He];
      [ left | right; exact He ].
    exists r'. split; [ apply (proj1 (py_set_In _ _)); exact Hr' | ].
    auto.
Qed.

Lemma rows_all (rs : list Z) r :
  (forall r', In r' rs -> r' = r) ->
  flatnonzero (eq_scalar rs r) = seq 0 (length rs).
Proof.
  intros Hall. unfold flatnonzero, eq_scalar. rewrite length_map.
  apply forallb_filter_id. apply forallb_forall.
  intros i Hi. apply in_seq in Hi.
  apply nth_error_nth. rewrite nth_error_map.
  rewrite (nth_error_nth' rs 0%Z) by lia. simpl. f_equal.
  apply Z.eqb_eq. apply Hall. apply nth_In. lia.
Qed.

Lemma map_nth_seq (A : Type) (d : A) (l : list A) :
  map (fun i => nth i l d) (seq 0 (length l)) = l.
Proof.
  apply nth_error_ext. intros i.
  rewrite nth_error_map, nth_error_seq.
  destruct (i <? length l) eqn:E.
  - apply Nat.ltb_lt in E. simpl. symmetry. apply nth_error_nth'. exact E.
  - apply Nat.ltb_ge in E. simpl. symmetry. apply nth_error_None. exact E.
Qed.

(** Assigning a full block to all rows, in order, gives the block. *)
Lemma put_all (A : Type) (a v : list A) :
  length v = length a -> put a (seq 0 (length a)) v = Ok v.
Proof.
  intros Hlen.
  destruct (@put_spec _ (seq 0 (length a)) a v) as (a' & E & Hl & Hk & _).
  - apply seq_NoDup.
  - intros i Hi. apply in_seq in Hi. lia.
  - rewrite length_seq. exact Hlen.
  - rewrite E. f_equal. apply nth_error_ext. intros i.
    destruct (Nat.lt_ge_cases i (length a)) as [Hi | Hi].
    + apply Hk. rewrite nth_error_seq.
      apply Nat.ltb_lt in Hi. rewrite Hi. reflexivity.
    + assert (nth_error a' i = None) as -> by (apply nth_error_None; lia).
      symmetry. apply nth_error_None. lia.
Qed.

(** X6.  A batch all of whose rows are at one resource level with a trained
    posterior: [sample_marginals] is the draw of that level's GP on the
    decoded configuration rows, samples and generator state alike. *)
Theorem sample_marginals_single_resource_delegates (st : PState) X xs rs r gp
    num_samples random_state :
  decode_extended_features as_integer X (_resource_attr_range st)
    = Ok (xs, rs) ->
  rs <> [] -> (forall r', In r' rs -> r' = r) ->
  dict_get (_states st) r = Ok gp ->
  sample_marginals zero as_integer py_set st X num_samples random_state
    = Ok (gp_sample_marginals gp xs num_samples random_state).
Proof.
  intros Hdec Hne Hall Hgp. unfold sample_marginals, num_fantasies.
  edestruct decode_lengths as [Hlx Hlr]; [ exact Hdec | ].
  erewrite split_features_Ok; [ | exact Hdec | ].
  - cbn [bind].
    erewrite py_set_constant; [ | exact Hne | exact Hall ].
    cbn [map]. unfold item_of. rewrite (rows_all rs Hall).
    assert (length rs = length xs) as Erx by congruence.
    rewrite Erx at 1. rewrite map_nth_seq.
    cbn [sample_marginals_loop]. rewrite Hgp. cbn [bind].
    pose proof (gp_sample_marginals_rows gp xs num_samples random_state)
      as Hrows.
    destruct (gp_sample_marginals gp xs num_samples random_state)
      as [v g1].
    cbn [fst] in Hrows.
    set (zs := np_zeros zero (length X)
                 (cell_shape (_num_fantasies st) num_samples)).
    assert (length zs = length X) as Hzs by apply np_zeros_length.
    replace (length rs) with (length zs) by congruence.
    rewrite put_all by congruence.
    reflexivity.
  - intros _ r' Hr'. rewrite (Hall r' Hr').
    eapply dict_get_Ok_mem. exact Hgp.
Qed.


(** ** Further properties of the construction *)

Lemma init_Ok_inv features targets kernel (mean : dict (MeanFunction scalar))
    cov noise range (st : PState) :
  __init__ as_integer GaussProcPosteriorState_init features targets kernel
    mean cov noise range = Ok st ->
  exists xs rs,
    decode_extended_features as_integer features range = Ok (xs, rs) /\
    compute_states_loop GaussProcPosteriorState_init xs targets rs kernel
      cov noise mean [] = Ok (_states st) /\
    _mean st = mean /\ _num_data st = length features /\
    _resource_attr_range st = range /\ same_keys mean cov = true.
Proof.
  intros H. unfold __init__ in H.
  destruct (same_keys mean cov) eqn:Ek; [ | discriminate H ].
  cbn [py_assert bind] in H. apply bind_Ok_inv in H.
  destruct H as (states & Hstates & H). injection H as <-.
  unfold _compute_states in Hstates. apply bind_Ok_inv in Hstates.
  destruct Hstates as ([xs rs] & Hdec & Hloop).
  exists xs, rs. cbn [_states _mean _num_data _resource_attr_range].
  repeat split; assumption.
Qed.

Lemma init_Ok_shape features targets kernel
    (mean : dict (MeanFunction scalar)) cov noise range (st : PState) :
  __init__ as_integer GaussProcPosteriorState_init features targets kernel
    mean cov noise range = Ok st ->
  num_features st = shape1 features /\ num_fantasies st = shape1 targets.
Proof.
  intros H. unfold __init__ in H.
  destruct (same_keys mean cov); [ | discriminate H ].
  cbn [py_assert bind] in H. apply bind_Ok_inv in H.
  destruct H as (states & _ & H). injection H as <-.
  split; reflexivity.
Qed.

Lemma has_rows_iff (rs : list Z) r :
  (0 <? length (flatnonzero (eq_scalar rs r))) = true <-> In r rs.
Proof.
  rewrite Nat.ltb_lt. split.
  - intros H. destruct (flatnonzero (eq_scalar rs r)) as [| i l] eqn:E;
      [ simpl in H; lia | ].
    assert (In i (flatnonzero (eq_scalar rs r))) as Hi
      by (rewrite E; left; reflexivity).
    apply rows_In in Hi. eapply nth_error_In. exact Hi.
  - intros H. apply In_nth_error in H. destruct H as [i Hi].
    apply rows_In in Hi.
    destruct (flatnonzero (eq_scalar rs r)); [ contradiction | simpl; lia ].
Qed.

Lemma fitted_on_keys xs targets rs kernel cov noise :
  forall items kvs,
    Forall2 (fitted_on GaussProcPosteriorState_init xs targets rs kernel cov
               noise) items kvs ->
    map fst kvs = map fst items.
Proof.
  induction 1 as [| item kv items kvs [Hk _] _ IH]; [ reflexivity | ].
  cbn [map]. f_equal; [ exact Hk | exact IH ].
Qed.

Lemma same_keys_true (A B : Type) (a : dict A) (b : dict B) :
  same_keys a b = true -> forall k, dict_mem a k = dict_mem b k.
Proof.
  unfold same_keys. intros H k. apply andb_true_iff in H.
  destruct H as [Hab Hba]. rewrite forallb_forall in Hab, Hba.
  destruct (dict_mem a k) eqn:Ea.
  - symmetry. apply Hab. apply dict_mem_keys. exact Ea.
  - destruct (dict_mem b k) eqn:Eb; [ | reflexivity ].
    rewrite <- Ea. apply Hba. apply dict_mem_keys. exact Eb.
Qed.

(** X7.  After [__init__] a resource level has a posterior exactly when it is
    a key of [mean] and at least one training row is at that level; the
    state keeps [mean], and [num_data] is the number of training rows.  (The
    keys of the dict [mean] are distinct.) *)
Theorem init_states_are_levels_with_data features targets kernel
    (mean : dict (MeanFunction scalar)) covariance_scale noise_variance
    resource_attr_range (st : PState) :
  NoDup (dict_keys mean) ->
  __init__ as_integer GaussProcPosteriorState_init features targets kernel
    mean covariance_scale noise_variance resource_attr_range = Ok st ->
  exists xs rs,
    decode_extended_features as_integer features resource_attr_range
      = Ok (xs, rs) /\
    (forall r, dict_mem (_states st) r = true <->
               In r (dict_keys mean) /\ In r rs) /\
    _mean st = mean /\ num_data st = length features.
Proof.
  intros Hnd H.
  destruct (init_Ok_inv _ _ _ _ _ _ _ H)
    as (xs & rs & Hdec & Hloop & Hmean & Hnum & _ & _).
  exists xs, rs. split; [ exact Hdec | ].
  split; [ | split; assumption ].
  edestruct compute_states_loop_spec as (new & E & HF);
    [ exact Hnd | | exact Hloop | ].
  { intros r _. reflexivity. }
  simpl in E. rewrite E. intros r.
  rewrite dict_mem_keys. unfold dict_keys. rewrite (fitted_on_keys HF).
  rewrite !in_map_iff. split.
  - intros (item & <- & Hin). apply filter_In in Hin.
    destruct Hin as [Hin Hrows]. split; [ eauto | ].
    apply has_rows_iff. exact Hrows.
  - intros [(item & <- & Hin) Hr]. exists item. split; [ reflexivity | ].
    apply filter_In. split; [ exact Hin | ].
    apply has_rows_iff. exact Hr.
Qed.

(** X8.  When [mean] and [covariance_scale] do not have the same keys,
    [__init__] fails on its assertion, whatever the training data. *)
Theorem init_key_mismatch_fails features targets kernel
    (mean : dict (MeanFunction scalar)) covariance_scale noise_variance
    resource_attr_range :
  (exists k, dict_mem mean k <> dict_mem covariance_scale k) ->
  __init__ as_integer GaussProcPosteriorState_init features targets kernel
    mean covariance_scale noise_variance resource_attr_range
  = Raise (AssertionError "mean, covariance_scale must have the same keys").
Proof.
  intros (k & Hk). unfold __init__.
  destruct (same_keys mean covariance_scale) eqn:E; [ | reflexivity ].
  exfalso. apply Hk. apply same_keys_true. exact E.
Qed.

(** X9.  On a posterior state built by [__init__] from targets with a
    single column (one fantasy), [sample_joint] returns, with one row of
    samples per row of the batch, for every decodable batch whose resource
    levels are keys of [mean], whether or not they have training data. *)
Theorem init_then_sample_joint_returns features targets kernel
    (mean : dict (MeanFunction scalar)) covariance_scale noise_variance
    resource_attr_range (st : PState) X xs rs num_samples random_state :
  __init__ as_integer GaussProcPosteriorState_init features targets kernel
    mean covariance_scale noise_variance resource_attr_range = Ok st ->
  shape1 targets = 1 ->
  decode_extended_features as_integer X resource_attr_range = Ok (xs, rs) ->
  (forall r, In r rs -> In r (dict_keys mean)) ->
  exists samples random_state',
    sample_joint zero as_integer py_set st X num_samples random_state
      = Ok (samples, random_state') /\
    length samples = length X.
Proof.
  intros H Hnf Hdec Hkeys.
  destruct (init_Ok_inv _ _ _ _ _ _ _ H)
    as (_ & _ & _ & _ & Hmean & _ & Hrange & _).
  destruct (init_Ok_shape _ _ _ _ _ _ _ H) as [_ Hnf'].
  rewrite Hnf in Hnf'. unfold num_fantasies in Hnf'.
  rewrite <- Hrange in Hdec.
  destruct (@sample_joint_rows st X xs rs num_samples random_state Hdec
              Hnf')
    as (samples & g' & E & Hl & _).
  - intros r Hr. right. rewrite Hmean. apply dict_mem_keys.
    apply Hkeys. exact Hr.
  - exists samples, g'. auto.
Qed.

(** X10.  On a posterior state built by [__init__], [predict] returns, with
    one mean and one variance per row, for every non-empty decodable batch
    whose resource levels are keys of [mean] with training data; the
    training inputs themselves are such a batch when their levels are keys
    of [mean]. *)
Theorem init_then_predict_returns features targets kernel
    (mean : dict (MeanFunction scalar)) covariance_scale noise_variance
    resource_attr_range (st : PState) xs rs X xs' rs' :
  NoDup (dict_keys mean) ->
  __init__ as_integer GaussProcPosteriorState_init features targets kernel
    mean covariance_scale noise_variance resource_attr_range = Ok st ->
  decode_extended_features as_integer features resource_attr_range
    = Ok (xs, rs) ->
  decode_extended_features as_integer X resource_attr_range
    = Ok (xs', rs') ->
  X <> [] ->
  (forall r, In r rs' -> In r (dict_keys mean) /\ In r rs) ->
  exists means vars,
    predict as_integer py_set argsort st X = Ok (means, vars) /\
    length means = length X /\ length vars = length X.
Proof.
  intros Hnd H Hdecf Hdec Hne Hlevels.
  destruct (init_Ok_inv _ _ _ _ _ _ _ H)
    as (xs0 & rs0 & Hdec0 & Hloop & _ & _ & Hrange & _).
  rewrite Hdecf in Hdec0. injection Hdec0 as <- <-.
  edestruct compute_states_loop_spec as (new & E & HF);
    [ exact Hnd | | exact Hloop | ].
  { intros r _. reflexivity. }
  simpl in E.
  assert (forall r, In r rs' -> dict_mem (_states st) r = true) as Hcov.
  { intros r Hr. destruct (Hlevels r Hr) as [Hk Hd].
    rewrite E. apply dict_mem_keys. unfold dict_keys in *.
    rewrite (fitted_on_keys HF).
    apply in_map_iff in Hk. destruct Hk as (item & <- & Hin).
    apply in_map. apply filter_In. split; [ exact Hin | ].
    apply has_rows_iff. exact Hd. }
  rewrite <- Hrange in Hdec.
  edestruct decode_lengths as [Hlx Hlr]; [ exact Hdec | ].
  destruct (@rows_exist st xs' rs') as (Zs & Ers & Exs & Hc);
    [ congruence | apply Forall_forall; exact Hcov | ].
  assert (length Zs = length X) as HlZ
    by (rewrite <- Hlr, <- Ers; symmetry; apply length_map).
  exists (map mean_of Zs), (map variance_of Zs).
  split; [ | rewrite !length_map; auto ].
  eapply predict_rows; try eassumption.
  intros ->. destruct X; [ congruence | discriminate ].
Qed.

Lemma compute_states_loop_no_rows targets kernel cov noise :
  forall (items : dict (MeanFunction scalar)) (states : dict GP),
    (forall r, In r (dict_keys items) -> dict_mem cov r = true) ->
    compute_states_loop GaussProcPosteriorState_init [] targets [] kernel
      cov noise items states = Ok states.
Proof.
  induction items as [| [r mu] items IH]; intros states Hcov;
    [ reflexivity | ].
  cbn [compute_states_loop compute_state_step].
  destruct (dict_mem_true _ _ (Hcov r (or_introl eq_refl))) as [c Hc].
  rewrite Hc. cbn [bind eq_scalar map flatnonzero length seq filter Nat.ltb
                   Nat.leb].
  apply IH. intros r' Hr'. apply Hcov. right. exact Hr'.
Qed.

(** X11.  Built from no training rows, whatever the number of columns of the
    arrays, a posterior state holds no GP and its [neg_log_likelihood] is
    the empty sum, zero (given that [mean] and [covariance_scale] have the
    same keys). *)
Theorem init_without_data_has_no_states (features : matrix scalar) targets
    kernel (mean : dict (MeanFunction scalar)) covariance_scale
    noise_variance resource_attr_range :
  matrix_rows features = [] ->
  same_keys mean covariance_scale = true ->
  exists st : PState,
    __init__ as_integer GaussProcPosteriorState_init features targets kernel
      mean covariance_scale noise_variance resource_attr_range = Ok st /\
    _states st = [] /\
    neg_log_likelihood zero add st = zero.
Proof.
  intros Hrows Hk.
  unfold __init__, _compute_states, decode_extended_features.
  rewrite Hk, Hrows. cbn [py_assert bind mapM split].
  rewrite compute_states_loop_no_rows.
  - cbn [bind]. eexists. split; [ reflexivity | ]. split; reflexivity.
  - intros r Hr. rewrite <- (same_keys_true _ _ Hk).
    apply dict_mem_keys. exact Hr.
Qed.

(** X12.  How [backward_gradient] fails: an input whose row does not decode
    (an empty input, a resource out of range) raises what the decoding
    raises, and an input at a resource level without a trained posterior
    raises the [KeyError] of that level. *)
Theorem backward_gradient_failures (st : PState) (input : ndarray scalar)
    head_gradients mean_data std_data :
  (forall e,
     decode_row as_integer (_resource_attr_range st) (data input) = Raise e ->
     backward_gradient zero as_integer st input head_gradients mean_data
       std_data = Raise e) /\
  (data input = [] ->
   backward_gradient zero as_integer st input head_gradients mean_data
     std_data = Raise IndexError) /\
  (forall x r,
     decode_row as_integer (_resource_attr_range st) (data input)
       = Ok (x, r) ->
     dict_mem (_states st) r = false ->
     backward_gradient zero as_integer st input head_gradients mean_data
       std_data = Raise (KeyError r)).
Proof.
  unfold backward_gradient, decode_extended_features. cbn [mapM].
  split; [ | split ].
  - intros e He. rewrite He. reflexivity.
  - intros ->. reflexivity.
  - intros x r Hdec Hmiss. rewrite Hdec.
    cbn [bind split length Nat.eqb py_assert]. unfold getitem.
    cbn [nth_error bind]. rewrite (dict_mem_false _ _ Hmiss). reflexivity.
Qed.


End PosteriorStateProperties.

(* ================================================================== *)
(** * Properties of the searcher *)

Section SearcherProperties.

Variable Configuration : Type.
Variable Metric : Type.
Variable ModelFactory : Type.
Variable ModelParams : Type.
Variable HyperparameterRanges : Type.
Variable ExtendedConfiguration : Type.
Variable ResourceForAcquisitionMap : Type.
Variable EncodedState : Type.
Variable SkipOptimization : Type.
Variable hp_ranges_ext : ExtendedConfiguration -> HyperparameterRanges.
Variable decode_state :
  EncodedState -> HyperparameterRanges ->
  TuningJobState Configuration Metric.

Let Ledger : Type := TuningJobState Configuration Metric.
Let Transformer : Type :=
  ModelStateTransformer Configuration Metric ModelFactory ModelParams
    SkipOptimization.
Let Searcher : Type :=
  GPMultiFidelitySearcher Configuration Metric ModelFactory ModelParams
    ExtendedConfiguration ResourceForAcquisitionMap SkipOptimization.

Lemma is_pending_append_trial (st : Transformer) t config r :
  is_pending (state (append_trial st t config r)) t r = true.
Proof.
  unfold is_pending, append_trial. cbn [state with_state pending_evaluations].
  rewrite existsb_app. simpl. rewrite String.eqb_refl, Z.eqb_refl.
  apply orb_true_r.
Qed.

(** C5.  [register_pending(t, config, r)] called twice leaves the searcher
    as one call leaves it, and the second call of a successful first one
    returns normally; on a ledger where no pair is both pending and
    observed, a call for a pair that has an Observation fails with the
    assertion the spec calls [StateConflictError] and leaves the searcher
    unchanged. *)
Theorem register_pending_idempotent_or_conflict (self : Searcher) t config r :
  (let once := register_pending self t config (Some r) in
   let twice := register_pending (snd once) t config (Some r) in
   snd twice = snd once /\
   (fst once = Ok tt -> fst twice = Ok tt)) /\
  (forall st,
     state_transformer self = Some st ->
     pending_not_observed (state st) ->
     is_labeled (state st) t r = true ->
     exists e,
       register_pending self t config (Some r) = (Raise e, self) /\
       StateConflictError e).
Proof.
  split.
  - unfold register_pending.
    destruct (state_transformer self) as [st |] eqn:Est.
    + destruct (is_pending (state st) t r) eqn:Ep; cbn [negb].
      * cbn [fst snd]. rewrite Est, Ep. cbn [negb fst snd]. auto.
      * destruct (is_labeled (state st) t r) eqn:El; cbn [negb fst snd].
        -- rewrite Est, Ep, El. cbn [negb fst snd].
           split; [ reflexivity | discriminate ].
        -- cbn [state_transformer set_state_transformer].
           rewrite is_pending_append_trial. cbn [negb fst snd]. auto.
    + cbn [fst snd]. rewrite Est. cbn [fst snd].
      split; [ reflexivity | discriminate ].
  - intros st Est Hinv Hl. exists (AssertionError already_observed_msg).
    split; [ | reflexivity ].
    unfold register_pending. rewrite Est.
    destruct (is_pending (state st) t r) eqn:Ep.
    + rewrite (Hinv t r Ep) in Hl. discriminate.
    + rewrite Hl. reflexivity.
Qed.

(** C10.  Without a resource level ([milestone] omitted or [None])
    [register_pending] fails on its first assertion, whatever the trial,
    the configuration and the searcher, and leaves the searcher as it
    was. *)
Theorem register_pending_requires_milestone (self : Searcher) t config :
  register_pending self t config None
    = (Raise (AssertionError multi_fidelity_only_msg), self).
Proof. reflexivity. Qed.

(** What [evaluation_failed] does to a valid searcher: of the pending
    evaluations it keeps those of the failed trial and drops those of all
    other trials; the trial joins the failed trials; configurations and
    observations are untouched. *)
Lemma evaluation_failed_effect (self : Searcher) (st : Transformer) t :
  state_transformer self = Some st ->
  exists st',
    evaluation_failed self t
      = (Ok tt, set_state_transformer self (Some st')) /\
    pending_evaluations (state st')
      = filter (fun x => String.eqb (trial_id x) t)
          (pending_evaluations (state st)) /\
    In t (failed_trials (state st')) /\
    trials_evaluations (state st') = trials_evaluations (state st) /\
    config_for_trial (state st') = config_for_trial (state st).
Proof.
  intros Est. unfold evaluation_failed, cleanup_pending. rewrite Est.
  cbn [state_transformer set_state_transformer].
  eexists. split; [ reflexivity | ].
  cbn [mark_trial_failed filter_pending_evaluations with_state state
       pending_evaluations failed_trials trials_evaluations
       config_for_trial].
  repeat split.
  destruct (existsb (String.eqb t) (failed_trials (state st))) eqn:E.
  - apply existsb_exists in E. destruct E as (t' & Hin & E).
    apply String.eqb_eq in E. subst t'. exact Hin.
  - apply in_or_app. right. left. reflexivity.
Qed.

(** C7.  [clone_from_state] on a valid searcher returns a new searcher
    whose ledger is the decoded snapshot and whose skip-optimization
    predicate and cached hyperparameters are the snapshot's, and leaves
    the original without its state transformer: every later call of a
    mutating method on the original raises and changes nothing. *)
Theorem clone_from_state_transfers_ownership (self : Searcher)
    (snapshot : SearcherSnapshot ModelParams EncodedState SkipOptimization)
    (st : Transformer) :
  state_transformer self = Some st ->
  exists new_searcher : Searcher,
    let old := set_state_transformer self None in
    clone_from_state hp_ranges_ext decode_state self snapshot
      = (Ok new_searcher, old) /\
    state_transformer new_searcher
      = Some {| state :=
                  decode_state (snapshot_state snapshot)
                    (hp_ranges_ext (config_space_ext self));
                model_factory := model_factory st;
                skip_optimization := snapshot_skip_optimization snapshot;
                model_params := Some (snapshot_model_params snapshot) |} /\
    config_space_ext new_searcher = config_space_ext self /\
    resource_for_acquisition new_searcher = resource_for_acquisition self /\
    state_transformer old = None /\
    (forall t config milestone,
       exists e, register_pending old t config milestone = (Raise e, old)) /\
    (forall t, exists e, evaluation_failed old t = (Raise e, old)) /\
    (forall t, exists e, cleanup_pending old t = (Raise e, old)) /\
    (forall t kwargs, exists e, remove_case old t kwargs = (Raise e, old)) /\
    (forall snapshot',
       exists e,
         clone_from_state hp_ranges_ext decode_state old snapshot'
           = (Raise e, old)).
Proof.
  intros Est. eexists. cbv zeta.
  split; [ unfold clone_from_state; rewrite Est; reflexivity | ].
  repeat split.
  - intros t config [m |]; eexists; reflexivity.
  - intros t. eexists. reflexivity.
  - intros t. eexists. reflexivity.
  - intros t kwargs. unfold remove_case.
    cbn [_resource_attr set_state_transformer state_transformer].
    destruct (_resource_attr self) as [attr |]; [ | eexists; reflexivity ].
    destruct (kwargs_get kwargs attr); eexists; reflexivity.
  - intros snapshot'. eexists. reflexivity.
Qed.

(** ** Further properties of the searcher *)

Lemma is_pending_append_trial_other (st : Transformer) t config r t' r' :
  is_pending (state (append_trial st t config r)) t' r'
  = (is_pending (state st) t' r'
     || (String.eqb t t' && (r =? r')%Z))%bool.
Proof.
  unfold is_pending, append_trial. cbn [state with_state pending_evaluations].
  rewrite existsb_app. cbn [existsb trial_id resource].
  rewrite orb_false_r. reflexivity.
Qed.

(** X13.  A call of [register_pending] on a valid searcher, whatever its
    arguments and its outcome, keeps the searcher valid, keeps the ledger
    free of pairs that are both pending and observed, removes no pending
    evaluation, and leaves observations and failed trials as they were; when
    it returns normally for a resource level, the pair is pending. *)
Theorem register_pending_keeps_ledger_consistent (self : Searcher)
    (st : Transformer) t config milestone :
  state_transformer self = Some st ->
  exists st',
    state_transformer (snd (register_pending self t config milestone))
      = Some st' /\
    (pending_not_observed (state st) -> pending_not_observed (state st')) /\
    (forall t' r', is_pending (state st) t' r' = true ->
                   is_pending (state st') t' r' = true) /\
    trials_evaluations (state st') = trials_evaluations (state st) /\
    failed_trials (state st') = failed_trials (state st) /\
    (forall r, milestone = Some r ->
               fst (register_pending self t config milestone) = Ok tt ->
               is_pending (state st') t r = true).
Proof.
  intros Est. unfold register_pending.
  destruct milestone as [r |]; [ rewrite Est | ].
  - destruct (is_pending (state st) t r) eqn:Ep; cbn [negb].
    + exists st. cbn [fst snd]. repeat split; auto.
      intros r0 E _. injection E as <-. exact Ep.
    + destruct (is_labeled (state st) t r) eqn:El; cbn [negb fst snd].
      * exists st. repeat split; auto. intros r0 _ H. discriminate H.
      * exists (append_trial st t config r).
        cbn [state_transformer set_state_transformer].
        split; [ reflexivity | ]. split; [ | split; [ | split; [ | split ] ] ].
        -- intros Hinv t' r' Hp. rewrite is_pending_append_trial_other in Hp.
           change (is_labeled (state (append_trial st t config r)) t' r')
             with (is_labeled (state st) t' r').
           apply orb_true_iff in Hp. destruct Hp as [Hp | Hp];
             [ apply Hinv; exact Hp | ].
           apply andb_true_iff in Hp. destruct Hp as [Ht Hr].
           apply String.eqb_eq in Ht. apply Z.eqb_eq in Hr. subst.
           exact El.
        -- intros t' r' Hp. rewrite is_pending_append_trial_other, Hp.
           reflexivity.
        -- reflexivity.
        -- reflexivity.
        -- intros r0 E _. injection E as <-.
           apply is_pending_append_trial.
  - exists st. cbn [fst snd]. repeat split; auto.
    intros r E. discriminate E.
Qed.

Lemma filter_idempotent (A : Type) (f : A -> bool) (l : list A) :
  filter f (filter f l) = filter f l.
Proof.
  apply forallb_filter_id. apply forallb_filter.
Qed.

Lemma mark_trial_failed_idempotent (st : Transformer) t :
  mark_trial_failed (mark_trial_failed st t) t = mark_trial_failed st t.
Proof.
  unfold mark_trial_failed.
  cbn [state with_state failed_trials config_for_trial trials_evaluations
       pending_evaluations model_factory skip_optimization model_params].
  destruct (existsb (String.eqb t) (failed_trials (state st))) eqn:E.
  - rewrite E. reflexivity.
  - rewrite existsb_app. cbn [existsb]. rewrite String.eqb_refl, E.
    reflexivity.
Qed.

(** X14.  [evaluation_failed] is idempotent: a second call for the same
    trial returns as the first did and leaves the searcher as the first call
    left it, on a valid and on an invalidated searcher alike. *)
Theorem evaluation_failed_idempotent (self : Searcher) t :
  evaluation_failed (snd (evaluation_failed self t)) t
  = evaluation_failed self t.
Proof.
  unfold evaluation_failed, cleanup_pending.
  destruct (state_transformer self) as [st |] eqn:Est.
  - set (p := fun x : PendingEvaluation => String.eqb (trial_id x) t).
    assert (mark_trial_failed
              (filter_pending_evaluations
                 (mark_trial_failed (filter_pending_evaluations st p) t) p)
              t
            = mark_trial_failed (filter_pending_evaluations st p) t) as Hst.
    { transitivity (mark_trial_failed
                      (mark_trial_failed (filter_pending_evaluations st p) t)
                      t);
        [ | apply mark_trial_failed_idempotent ].
      unfold mark_trial_failed, filter_pending_evaluations.
      cbn [state with_state failed_trials config_for_trial
           trials_evaluations pending_evaluations model_factory
           skip_optimization model_params].
      rewrite filter_idempotent. reflexivity. }
    unfold set_state_transformer.
    cbn [state_transformer snd config_space_ext resource_for_acquisition
         _resource_attr].
    rewrite Hst. reflexivity.
  - cbn [snd]. rewrite Est. reflexivity.
Qed.

Lemma is_pending_filter (s : Ledger) f t r :
  existsb (fun x => String.eqb (trial_id x) t && (resource x =? r)%Z)
    (filter f (pending_evaluations s)) = true ->
  is_pending s t r = true.
Proof.
  unfold is_pending. rewrite !existsb_exists.
  intros (x & Hin & Hx). apply filter_In in Hin. exists x. tauto.
Qed.

(** X15.  [evaluation_failed] on a valid searcher returns normally and keeps
    the ledger well-formed: no pair is both pending and observed if none
    was, no pending evaluation is added, the failed trials stay free of
    repeats and now hold the trial, and observations and configurations are
    as they were. *)
Theorem evaluation_failed_keeps_ledger_consistent (self : Searcher)
    (st : Transformer) t :
  state_transformer self = Some st ->
  exists st',
    evaluation_failed self t
      = (Ok tt, set_state_transformer self (Some st')) /\
    (pending_not_observed (state st) -> pending_not_observed (state st')) /\
    (forall t' r', is_pending (state st') t' r' = true ->
                   is_pending (state st) t' r' = true) /\
    (NoDup (failed_trials (state st)) -> NoDup (failed_trials (state st'))) /\
    In t (failed_trials (state st')) /\
    (forall t', In t' (failed_trials (state st)) ->
                In t' (failed_trials (state st'))) /\
    trials_evaluations (state st') = trials_evaluations (state st) /\
    config_for_trial (state st') = config_for_trial (state st).
Proof.
  intros Est. unfold evaluation_failed, cleanup_pending. rewrite Est.
  cbn [state_transformer set_state_transformer].
  eexists. split; [ reflexivity | ].
  cbn [mark_trial_failed filter_pending_evaluations with_state state
       pending_evaluations failed_trials trials_evaluations
       config_for_trial].
  split; [ | split; [ | split; [ | split; [ | split; [ | split ] ] ] ] ];
    try reflexivity.
  - intros Hinv t' r' Hp. apply is_pending_filter in Hp.
    apply Hinv in Hp. exact Hp.
  - intros t' r' Hp. apply is_pending_filter in Hp. exact Hp.
  - intros Hnd.
    destruct (existsb (String.eqb t) (failed_trials (state st))) eqn:E;
      [ exact Hnd | ].
    apply NoDup_app; [ exact Hnd | repeat constructor; intros [] | ].
    intros t' Hin [<- | []].
    assert (existsb (String.eqb t) (failed_trials (state st)) = true)
      as E'; [ | congruence ].
    apply existsb_exists. exists t. split; [ exact Hin | ].
    apply String.eqb_refl.
  - destruct (existsb (String.eqb t) (failed_trials (state st))) eqn:E.
    + apply existsb_exists in E. destruct E as (t' & Hin & E).
      apply String.eqb_eq in E. subst t'. exact Hin.
    + apply in_or_app. right. left. reflexivity.
  - intros t' Hin.
    destruct (existsb (String.eqb t) (failed_trials (state st)));
      [ exact Hin | apply in_or_app; left; exact Hin ].
Qed.

Lemma is_labeled_remove_observed_case (st : Transformer) t r t' r' :
  is_labeled (state (remove_observed_case st t r)) t' r'
  = (is_labeled (state st) t' r'
     && negb (String.eqb t t' && (r =? r')%Z))%bool.
Proof.
  unfold is_labeled, remove_observed_case.
  cbn [state with_state trials_evaluations].
  induction (trials_evaluations (state st)) as [| o l IH];
    [ reflexivity | ].
  cbn [filter existsb].
  destruct (String.eqb_spec (obs_trial_id o) t) as [Eot | Eot];
    destruct (Z.eqb_spec (obs_resource o) r) as [Eor | Eor];
    destruct (String.eqb_spec (obs_trial_id o) t') as [Eot' | Eot'];
    destruct (Z.eqb_spec (obs_resource o) r') as [Eor' | Eor'];
    destruct (String.eqb_spec t t') as [Ett | Ett];
    destruct (Z.eqb_spec r r') as [Err | Err];
    cbn [andb negb orb existsb] in *; rewrite ?IH;
    cbn [andb negb orb];
    try congruence;
    repeat match goal with
      | |- context [String.eqb ?a ?b] =>
          destruct (String.eqb_spec a b); try congruence
      | |- context [Z.eqb ?a ?b] =>
          destruct (Z.eqb_spec a b); try congruence
      end;
    cbn [andb negb orb];
    try reflexivity;
    try (rewrite andb_true_r; reflexivity);
    try (rewrite andb_false_r; reflexivity);
    try (destruct (existsb _ l); reflexivity).
Qed.

(** X16.  [remove_case] on a valid, configured searcher, with the resource
    level among the keyword arguments, for a pair that has an Observation:
    it returns normally; afterwards the pair has no Observation, every other
    pair is observed as before, the pending evaluations are as they were,
    and [register_pending] for the pair returns normally (a retracted result
    can be awaited again). *)
Theorem remove_case_then_register_pending (self : Searcher)
    (st : Transformer) t kwargs attr r config :
  state_transformer self = Some st ->
  _resource_attr self = Some attr ->
  kwargs_get kwargs attr = Ok r ->
  is_labeled (state st) t r = true ->
  exists st',
    remove_case self t kwargs
      = (Ok tt, set_state_transformer self (Some st')) /\
    is_labeled (state st') t r = false /\
    (forall t' r', (t', r') <> (t, r) ->
       is_labeled (state st') t' r' = is_labeled (state st) t' r') /\
    pending_evaluations (state st') = pending_evaluations (state st) /\
    fst (register_pending (set_state_transformer self (Some st')) t config
           (Some r)) = Ok tt.
Proof.
  intros Est Eattr Ekw _. unfold remove_case. rewrite Eattr, Ekw, Est.
  exists (remove_observed_case st t r). split; [ reflexivity | ].
  assert (is_labeled (state (remove_observed_case st t r)) t r = false)
    as Hnl.
  { rewrite is_labeled_remove_observed_case, String.eqb_refl, Z.eqb_refl.
    apply andb_false_r. }
  split; [ exact Hnl | ]. split; [ | split; [ reflexivity | ] ].
  - intros t' r' Hne. rewrite is_labeled_remove_observed_case.
    destruct (String.eqb_spec t t') as [<- | Ht];
      destruct (Z.eqb_spec r r') as [<- | Hr]; cbn [andb negb];
      try apply andb_true_r.
    congruence.
  - unfold register_pending.
    cbn [state_transformer set_state_transformer].
    destruct (is_pending (state (remove_observed_case st t r)) t r);
      cbn [negb]; [ reflexivity | ].
    rewrite Hnl. reflexivity.
Qed.

(** X17.  No method of the searcher changes the searcher when it raises:
    every failure is detected before anything is written. *)
Theorem searcher_unchanged_on_failure (self : Searcher) :
  (forall t config milestone e self',
     register_pending self t config milestone = (Raise e, self') ->
     self' = self) /\
  (forall t e self',
     cleanup_pending self t = (Raise e, self') -> self' = self) /\
  (forall t e self',
     evaluation_failed self t = (Raise e, self') -> self' = self) /\
  (forall t kwargs e self',
     remove_case self t kwargs = (Raise e, self') -> self' = self) /\
  (forall snapshot e self',
     clone_from_state hp_ranges_ext decode_state self snapshot
       = (Raise e, self') ->
     self' = self).
Proof.
  split; [ | split; [ | split; [ | split ] ] ].
  - intros t config [r |] e self' H; unfold register_pending in H.
    + destruct (state_transformer self) as [st |]; [ | congruence ].
      destruct (is_pending (state st) t r); cbn [negb] in H;
        [ congruence | ].
      destruct (is_labeled (state st) t r); cbn [negb] in H; congruence.
    + congruence.
  - intros t e self' H. unfold cleanup_pending in H.
    destruct (state_transformer self); congruence.
  - intros t e self' H. unfold evaluation_failed, cleanup_pending in H.
    destruct (state_transformer self); [ | congruence ].
    cbn [state_transformer set_state_transformer] in H. congruence.
  - intros t kwargs e self' H. unfold remove_case in H.
    destruct (_resource_attr self) as [attr |]; [ | congruence ].
    destruct (kwargs_get kwargs attr); [ | congruence ].
    destruct (state_transformer self); congruence.
  - intros snapshot e self' H. unfold clone_from_state in H.
    destruct (state_transformer self); [ | congruence ].
    cbn [_restore_from_state new_searcher_for_clone state_transformer] in H.
    congruence.
Qed.


End SearcherProperties.

(* ================================================================== *)
(** * The properties on the concrete model *)

Lemma example_py_set_NoDup (l : list Z) : NoDup (Example.py_set l).
Proof. apply NoDup_nodup. Qed.

Lemma example_py_set_In (l : list Z) (x : Z) :
  In x (Example.py_set l) <-> In x l.
Proof. apply nodup_In. Qed.

Lemma insert_index_perm (rs : list Z) (i : nat) : forall sorted,
  Permutation (Example.insert_index rs i sorted) (i :: sorted).
Proof.
  induction sorted as [| j sorted IH]; simpl; [ apply Permutation_refl | ].
  destruct (nth i rs 0 <=? nth j rs 0)%Z; [ apply Permutation_refl | ].
  apply perm_trans with (j :: i :: sorted);
    [ apply perm_skip; exact IH | apply perm_swap ].
Qed.

Lemma example_argsort_perm (l : list Z) :
  Permutation (Example.argsort l) (seq 0 (length l)).
Proof.
  unfold Example.argsort. induction (seq 0 (length l)) as [| i s IH]; simpl.
  - apply Permutation_refl.
  - eapply perm_trans; [ apply insert_index_perm | ].
    apply perm_skip. exact IH.
Qed.

(** The stable argsort does sort: on the resources 3, 1, 3 it puts row 1
    first and keeps rows 0 and 2 in their order. *)
Example example_argsort_sorts :
  Example.argsort [3; 1; 3]%Z = [1; 0; 2].
Proof. reflexivity. Qed.

(** [predict] on the batch at the resources 3, 1, 3: the results come in the
    order of the input rows. *)
Example example_predict :
  predict Example.as_integer Example.py_set Example.argsort
    Example.posterior Example.batch
  = Ok ([[35]; [28]; [36]], [900; 441; 900])%Z.
Proof. reflexivity. Qed.

(** The hypotheses of [predict_preserves_row_order] hold for the batch at the
    resources 3, 1, 3. *)
Lemma predict_preserves_row_order_witness :
  decode_extended_features Example.as_integer Example.batch
    (_resource_attr_range Example.posterior)
    = Ok ([[5]; [7]; [6]], [3; 1; 3])%Z /\
  (exists r r', In r [3; 1; 3]%Z /\ In r' [3; 1; 3]%Z /\ r <> r') /\
  (forall r, In r [3; 1; 3]%Z ->
             dict_mem (_states Example.posterior) r = true) /\
  exists means vars,
    predict Example.as_integer Example.py_set Example.argsort
      Example.posterior Example.batch = Ok (means, vars) /\
    length means = 3 /\ length vars = 3 /\
    forall p X',
      Permutation p (seq 0 3) -> take Example.batch p = Ok X' ->
      exists means' vars',
        predict Example.as_integer Example.py_set Example.argsort
          Example.posterior X' = Ok (means', vars') /\
        take means p = Ok means' /\ take vars p = Ok vars'.
Proof.
  assert (decode_extended_features Example.as_integer Example.batch
            (_resource_attr_range Example.posterior)
          = Ok ([[5]; [7]; [6]], [3; 1; 3])%Z) as H1 by reflexivity.
  assert (exists r r', In r [3; 1; 3]%Z /\ In r' [3; 1; 3]%Z /\ r <> r')
    as H2.
  { exists 3%Z, 1%Z. simpl. repeat split; auto. discriminate. }
  assert (forall r, In r [3; 1; 3]%Z ->
                    dict_mem (_states Example.posterior) r = true) as H3.
  { intros r [<- | [<- | [<- | []]]]; reflexivity. }
  split; [ exact H1 | ]. split; [ exact H2 | ]. split; [ exact H3 | ].
  destruct (predict_preserves_row_order Example.as_integer Example.py_set
              Example.argsort example_py_set_In example_argsort_perm
              Example.posterior Example.batch H1 H2 H3)
    as (means & vars & E & Hm & Hv & _ & Hperm).
  exists means, vars. auto.
Defined.

(** The hypotheses of [unsupported_resource_fails] hold for the batch with a
    row at resource 9, a level without training data. *)
Lemma unsupported_resource_fails_witness :
  decode_extended_features Example.as_integer Example.batch_unseen
    (_resource_attr_range Example.posterior)
    = Ok ([[5]; [7]], [9; 1])%Z /\
  (exists r, In r [9; 1]%Z /\ dict_mem (_states Example.posterior) r = false)
  /\
  (exists e,
     predict Example.as_integer Example.py_set Example.argsort
       Example.posterior Example.batch_unseen = Raise e /\
     UnsupportedResourceError Example.posterior e) /\
  (forall num_samples random_state,
     exists e,
       sample_marginals 0%Z Example.as_integer Example.py_set
         Example.posterior Example.batch_unseen num_samples random_state
         = Raise e /\
       UnsupportedResourceError Example.posterior e).
Proof.
  assert (decode_extended_features Example.as_integer Example.batch_unseen
            (_resource_attr_range Example.posterior)
          = Ok ([[5]; [7]], [9; 1])%Z) as H1 by reflexivity.
  assert (exists r, In r [9; 1]%Z /\
                    dict_mem (_states Example.posterior) r = false) as H2.
  { exists 9%Z. simpl. auto. }
  split; [ exact H1 | ]. split; [ exact H2 | ].
  exact (unsupported_resource_fails 0%Z Example.as_integer Example.py_set
           Example.argsort example_py_set_In example_argsort_perm
           Example.posterior Example.batch_unseen H1 H2).
Defined.

(** [sample_marginals] on the batch at the resources 3, 1, 3, with two
    samples per row and the generator at 5: the GP of level 1 draws first
    (for row 1, with the generator at 6 afterwards, at which the GP of level
    3 draws for rows 0 and 2), and each row of samples sits at its input
    row. *)
Example example_sample_marginals :
  sample_marginals 0%Z Example.as_integer Example.py_set Example.posterior
    Example.batch 2 5
  = Ok ([[41; 41]; [33; 33]; [42; 42]]%Z, 7).
Proof. reflexivity. Qed.

(** The hypotheses of [sample_marginals_row_positions] hold for the batch at
    the resources 3, 1, 3. *)
Lemma sample_marginals_row_positions_witness :
  decode_extended_features Example.as_integer Example.batch
    (_resource_attr_range Example.posterior)
    = Ok ([[5]; [7]; [6]], [3; 1; 3])%Z /\
  (forall r, In r [3; 1; 3]%Z ->
             dict_mem (_states Example.posterior) r = true) /\
  exists samples random_state',
    sample_marginals 0%Z Example.as_integer Example.py_set Example.posterior
      Example.batch 2 5 = Ok (samples, random_state') /\
    length samples = 3.
Proof.
  assert (decode_extended_features Example.as_integer Example.batch
            (_resource_attr_range Example.posterior)
          = Ok ([[5]; [7]; [6]], [3; 1; 3])%Z) as H1 by reflexivity.
  assert (forall r, In r [3; 1; 3]%Z ->
                    dict_mem (_states Example.posterior) r = true) as H2.
  { intros r [<- | [<- | [<- | []]]]; reflexivity. }
  split; [ exact H1 | ]. split; [ exact H2 | ].
  destruct (sample_marginals_row_positions 0%Z Example.as_integer
              Example.py_set example_py_set_NoDup example_py_set_In
              Example.posterior Example.batch 2 5 H1 H2)
    as (samples & g' & E & Hl & _).
  exists samples, g'. auto.
Defined.

(** [sample_joint] on the batch at the resources 9, 1: level 9 has no
    training data, so row 0 holds its prior mean 900 + 5; row 1 holds the
    draw of the GP of level 1, and the generator advanced once. *)
Example example_sample_joint :
  sample_joint 0%Z Example.as_integer Example.py_set Example.posterior
    Example.batch_unseen 2 5
  = Ok ([[905; 905]; [33; 33]]%Z, 6).
Proof. reflexivity. Qed.


(** C2.  [sample_joint] does not return the prior mean of each row when the
    posterior state has more than one fantasy.  On the state [__init__]
    builds from targets of two columns, with prior mean 900 + x at level 9,
    which has no training data: for three rows at level 9 the assignment of
    the column of their prior means raises [ValueError], also when a row at
    a level with training data comes with them; for the two rows 5 and 7
    at level 9 it returns, but each row holds the prior means of both rows
    (905 for its first fantasy, 907 for its second) where the prior mean
    of the row itself, 905 for the first and 907 for the second, belongs
    in every entry. *)
Theorem sample_joint_prior_mean_two_fantasies :
  __init__ Example.as_integer Example.gp_init2 Example.features
    Example.targets2 tt Example.mean Example.covariance_scale 0%Z (1, 9)%Z
    = Ok Example.posterior2 /\
  dict_mem (_states Example.posterior2) 9%Z = false /\
  sample_joint 0%Z Example.as_integer Example.py_set Example.posterior2
    [[5; 9]; [7; 9]; [6; 9]]%Z 2 5 = Raise ValueError /\
  sample_joint 0%Z Example.as_integer Example.py_set Example.posterior2
    [[5; 9]; [7; 9]; [6; 9]; [4; 1]]%Z 2 5 = Raise ValueError /\
  sample_joint 0%Z Example.as_integer Example.py_set Example.posterior2
    [[5; 9]; [7; 9]]%Z 2 5
  = Ok ([[905; 905; 907; 907]; [905; 905; 907; 907]]%Z, 5).
Proof. repeat split; reflexivity. Qed.

(** The hypotheses of [backward_gradient_zero_pads_resource] hold for the
    input (4, 5, 3) of shape (1, 3). *)
Lemma backward_gradient_zero_pads_resource_witness :
  let input := {| shape := [1; 3]; data := [4; 5; 3]%Z |} in
  length (data input) = size_of (shape input) /\
  decode_row Example.as_integer (_resource_attr_range Example.posterior)
    (data input) = Ok ([4; 5]%Z, 3%Z) /\
  dict_get (_states Example.posterior) 3%Z = Ok (Example.gp 30) /\
  backward_gradient 0%Z Example.as_integer Example.posterior input tt 0%Z 1%Z
    = Ok {| shape := [1; 3]; data := [30; 30; 0]%Z |}.
Proof.
  cbv zeta.
  split; [ reflexivity | ]. split; [ reflexivity | ].
  split; [ reflexivity | ].
  exact (proj1 (backward_gradient_zero_pads_resource 0%Z Example.as_integer
                  Example.posterior
                  {| shape := [1; 3]; data := [4; 5; 3]%Z |} tt 0%Z 1%Z
                  (x := [4; 5]%Z) (r := 3%Z) (gp := Example.gp 30)
                  eq_refl eq_refl eq_refl)).
Defined.

(** The hypotheses of [neg_log_likelihood_is_sum] hold for the training data
    of the concrete model: two GPs, with negative log-likelihoods 21 and
    30. *)
Lemma neg_log_likelihood_is_sum_witness :
  NoDup (dict_keys Example.mean) /\
  __init__ Example.as_integer Example.gp_init Example.features
    Example.targets tt Example.mean Example.covariance_scale 0%Z (1, 9)%Z
    = Ok Example.posterior /\
  neg_log_likelihood 0%Z Z.add Example.posterior
    = np_sum 0%Z Z.add
        (map (fun kv => gp_neg_log_likelihood (snd kv))
           (_states Example.posterior)) /\
  neg_log_likelihood 0%Z Z.add Example.posterior = 51%Z.
Proof.
  assert (NoDup (dict_keys Example.mean)) as H1.
  { simpl. repeat constructor; simpl; intuition discriminate. }
  assert (__init__ Example.as_integer Example.gp_init Example.features
            Example.targets tt Example.mean Example.covariance_scale 0%Z
            (1, 9)%Z = Ok Example.posterior) as H2 by reflexivity.
  split; [ exact H1 | ]. split; [ exact H2 | ].
  destruct (neg_log_likelihood_is_sum 0%Z Z.add Example.as_integer
              Example.gp_init Example.features Example.targets tt
              Example.mean Example.covariance_scale 0%Z (1, 9)%Z H1 H2)
    as (xs & rs & _ & _ & E).
  split; [ exact E | reflexivity ].
Defined.

Lemma example_ledger_invariant : pending_not_observed Example.ledger.
Proof.
  intros t r. unfold is_pending, is_labeled, Example.ledger.
  cbn [pending_evaluations trials_evaluations existsb trial_id resource
       obs_trial_id obs_resource].
  destruct (String.eqb_spec "t1" t) as [<- | Ht1];
    destruct (Z.eqb_spec 1 r) as [<- | Hr1]; cbn [andb orb];
    try reflexivity.
  cbn [Z.eqb Pos.eqb andb orb]. rewrite andb_true_r.
  change (String.eqb "t2" "t1") with false. discriminate.
Qed.

(** [register_pending_idempotent_or_conflict] on the concrete searcher: the
    pair (t1, 1) has an Observation, the pair (t2, 3) is new. *)
Lemma register_pending_idempotent_or_conflict_witness :
  state_transformer Example.searcher
    = Some {| state := Example.ledger; model_factory := tt;
              skip_optimization := false; model_params := None |} /\
  pending_not_observed Example.ledger /\
  is_labeled Example.ledger "t1" 1 = true /\
  (exists e,
     register_pending Example.searcher "t1" None (Some 1%Z)
       = (Raise e, Example.searcher) /\
     StateConflictError e) /\
  snd (register_pending
         (snd (register_pending Example.searcher "t2" None (Some 3%Z)))
         "t2" None (Some 3%Z))
  = snd (register_pending Example.searcher "t2" None (Some 3%Z)).
Proof.
  split; [ reflexivity | ]. split; [ exact example_ledger_invariant | ].
  split; [ reflexivity | ]. split.
  - exact (proj2 (register_pending_idempotent_or_conflict Example.searcher
                    "t1" None 1%Z)
             _ eq_refl example_ledger_invariant eq_refl).
  - exact (proj1 (proj1 (register_pending_idempotent_or_conflict
                           Example.searcher "t2" None 3%Z))).
Defined.

(** C6, on the code.  [evaluation_failed("t1")] on the ledger with the
    pending evaluations (t1, 3) and (t2, 1): afterwards t1 is failed, its
    pending evaluation (t1, 3) is still there and the pending evaluation of
    the other trial is gone: the filter predicate of [cleanup_pending]
    selects the failed trial's entries instead of the others. *)
Theorem evaluation_failed_keeps_pending_of_failed_trial :
  exists self',
    evaluation_failed Example.searcher "t1" = (Ok tt, self') /\
    option_map (fun st => pending_evaluations (state st))
      (state_transformer self')
    = Some [{| trial_id := "t1"; resource := 3 |}] /\
    option_map (fun st => failed_trials (state st)) (state_transformer self')
    = Some ["t1"%string].
Proof. eexists. repeat split. Qed.

(** The hypothesis of [clone_from_state_transfers_ownership] holds for the
    concrete searcher. *)
Lemma clone_from_state_transfers_ownership_witness :
  state_transformer Example.searcher
    = Some {| state := Example.ledger; model_factory := tt;
              skip_optimization := false; model_params := None |} /\
  exists new_searcher,
    clone_from_state Example.hp_ranges_ext Example.decode_state
      Example.searcher Example.snapshot
    = (Ok new_searcher, set_state_transformer Example.searcher None) /\
    state_transformer new_searcher
    = Some {| state := Example.ledger; model_factory := tt;
              skip_optimization := true; model_params := Some 7 |} /\
    forall t, exists e,
      evaluation_failed (set_state_transformer Example.searcher None) t
      = (Raise e, set_state_transformer Example.searcher None).
Proof.
  split; [ reflexivity | ].
  destruct (clone_from_state_transfers_ownership Example.hp_ranges_ext
              Example.decode_state Example.searcher Example.snapshot
              eq_refl)
    as (new_searcher & E & Hst & _ & _ & _ & _ & Hfail & _).
  exists new_searcher. split; [ exact E | ]. split; [ exact Hst | ].
  exact Hfail.
Defined.

(** ** The further properties on the concrete model *)

(** The hypotheses of [predict_single_resource_delegates] hold for a batch
    of two rows at resource 3. *)
Lemma predict_single_resource_delegates_witness :
  decode_extended_features Example.as_integer [[5; 3]; [6; 3]]%Z
    (_resource_attr_range Example.posterior)
    = Ok ([[5]; [6]], [3; 3])%Z /\
  [3; 3]%Z <> [] /\
  (forall r', In r' [3; 3]%Z -> r' = 3%Z) /\
  dict_get (_states Example.posterior) 3%Z = Ok (Example.gp 30) /\
  predict Example.as_integer Example.py_set Example.argsort
    Example.posterior [[5; 3]; [6; 3]]%Z
  = Ok (gp_predict (Example.gp 30) [[5]; [6]]%Z).
Proof.
  assert (decode_extended_features Example.as_integer [[5; 3]; [6; 3]]%Z
            (_resource_attr_range Example.posterior)
          = Ok ([[5]; [6]], [3; 3])%Z) as H1 by reflexivity.
  assert ([3; 3]%Z <> []) as H2 by discriminate.
  assert (forall r', In r' [3; 3]%Z -> r' = 3%Z) as H3.
  { intros r' [<- | [<- | []]]; reflexivity. }
  assert (dict_get (_states Example.posterior) 3%Z = Ok (Example.gp 30))
    as H4 by reflexivity.
  split; [ exact H1 | ]. split; [ exact H2 | ]. split; [ exact H3 | ].
  split; [ exact H4 | ].
  exact (@predict_single_resource_delegates _ Example.as_integer _ _
           Example.py_set Example.argsort example_py_set_NoDup
           example_py_set_In Example.posterior _ _ _ _ _ H1 H2 H3 H4).
Defined.

(** [predict_empty_batch_raises] for the set and the argsort of the concrete
    model. *)
Lemma predict_empty_batch_raises_witness :
  predict Example.as_integer Example.py_set Example.argsort
    Example.posterior [] = Raise IndexError.
Proof.
  exact (@predict_empty_batch_raises _ Example.as_integer _ _
           Example.py_set Example.argsort example_py_set_In
           example_argsort_perm Example.posterior).
Defined.

(** [sampling_empty_batch] for the set of the concrete model. *)
Lemma sampling_empty_batch_witness :
  sample_marginals 0%Z Example.as_integer Example.py_set Example.posterior
    [] 2 5 = Ok ([], 5) /\
  sample_joint 0%Z Example.as_integer Example.py_set Example.posterior
    [] 2 5 = Ok ([], 5).
Proof.
  exact (@sampling_empty_batch _ 0%Z Example.as_integer _ _ Example.py_set
           example_py_set_In Example.posterior 2 5).
Defined.

(** The hypothesis of [split_features_partitions_rows] holds for the batch
    at the resources 3, 1, 3. *)
Lemma split_features_partitions_rows_witness :
  decode_extended_features Example.as_integer Example.batch
    (_resource_attr_range Example.posterior)
    = Ok ([[5]; [7]; [6]], [3; 1; 3])%Z /\
  exists items,
    _split_features Example.as_integer Example.py_set Example.posterior
      Example.batch false = Ok items /\
    dict_keys items = Example.py_set [3; 1; 3]%Z /\
    Permutation (concat (map (fun it => snd (snd it)) items)) (seq 0 3).
Proof.
  assert (decode_extended_features Example.as_integer Example.batch
            (_resource_attr_range Example.posterior)
          = Ok ([[5]; [7]; [6]], [3; 1; 3])%Z) as H1 by reflexivity.
  split; [ exact H1 | ].
  destruct (@split_features_partitions_rows _ Example.as_integer _ _
              Example.py_set example_py_set_NoDup example_py_set_In
              Example.posterior _ _ _ H1)
    as (items & E & Hk & Hp & _).
  exists items. auto.
Defined.

(** The hypotheses of [sample_joint_unknown_resource_raises] hold for a
    batch with a row at resource 5, which is neither a level with training
    data nor a key of the prior means. *)
Lemma sample_joint_unknown_resource_raises_witness :
  decode_extended_features Example.as_integer [[5; 5]; [7; 1]]%Z
    (_resource_attr_range Example.posterior)
    = Ok ([[5]; [7]], [5; 1])%Z /\
  (exists r, In r [5; 1]%Z /\
             dict_mem (_states Example.posterior) r = false /\
             dict_mem (_mean Example.posterior) r = false) /\
  exists e,
    sample_joint 0%Z Example.as_integer Example.py_set Example.posterior
      [[5; 5]; [7; 1]]%Z 2 5 = Raise e /\
    ((exists r', In r' [5; 1]%Z /\
        dict_mem (_states Example.posterior) r' = false /\
        dict_mem (_mean Example.posterior) r' = false /\ e = KeyError r')
     \/ (e = ValueError /\ num_fantasies Example.posterior <> 1)).
Proof.
  assert (decode_extended_features Example.as_integer [[5; 5]; [7; 1]]%Z
            (_resource_attr_range Example.posterior)
          = Ok ([[5]; [7]], [5; 1])%Z) as H1 by reflexivity.
  assert (exists r, In r [5; 1]%Z /\
                    dict_mem (_states Example.posterior) r = false /\
                    dict_mem (_mean Example.posterior) r = false) as H2.
  { exists 5%Z. simpl. auto. }
  split; [ exact H1 | ]. split; [ exact H2 | ].
  exact (@sample_joint_unknown_resource_raises _ 0%Z Example.as_integer _ _
           Example.py_set example_py_set_NoDup example_py_set_In
           Example.posterior _ _ _ 2 5 H1 H2).
Defined.

(** The hypotheses of [sample_marginals_single_resource_delegates] hold for
    a batch of two rows at resource 3. *)
Lemma sample_marginals_single_resource_delegates_witness :
  decode_extended_features Example.as_integer [[5; 3]; [6; 3]]%Z
    (_resource_attr_range Example.posterior)
    = Ok ([[5]; [6]], [3; 3])%Z /\
  [3; 3]%Z <> [] /\
  (forall r', In r' [3; 3]%Z -> r' = 3%Z) /\
  dict_get (_states Example.posterior) 3%Z = Ok (Example.gp 30) /\
  sample_marginals 0%Z Example.as_integer Example.py_set Example.posterior
    [[5; 3]; [6; 3]]%Z 2 5
  = Ok (gp_sample_marginals (Example.gp 30) [[5]; [6]]%Z 2 5).
Proof.
  assert (decode_extended_features Example.as_integer [[5; 3]; [6; 3]]%Z
            (_resource_attr_range Example.posterior)
          = Ok ([[5]; [6]], [3; 3])%Z) as H1 by reflexivity.
  assert ([3; 3]%Z <> []) as H2 by discriminate.
  assert (forall r', In r' [3; 3]%Z -> r' = 3%Z) as H3.
  { intros r' [<- | [<- | []]]; reflexivity. }
  assert (dict_get (_states Example.posterior) 3%Z = Ok (Example.gp 30))
    as H4 by reflexivity.
  split; [ exact H1 | ]. split; [ exact H2 | ]. split; [ exact H3 | ].
  split; [ exact H4 | ].
  exact (@sample_marginals_single_resource_delegates _ 0%Z
           Example.as_integer _ _ Example.py_set example_py_set_NoDup
           example_py_set_In Example.posterior _ _ _ _ _ 2 5 H1 H2 H3 H4).
Defined.

Lemma example_mean_keys_NoDup : NoDup (dict_keys Example.mean).
Proof. simpl. repeat constructor; simpl; intuition discriminate. Qed.

(** The hypotheses of [init_states_are_levels_with_data] hold for the
    training data of the concrete model: the levels 1 and 3 get a posterior,
    the level 9, a key of [mean] without training row, gets none. *)
Lemma init_states_are_levels_with_data_witness :
  NoDup (dict_keys Example.mean) /\
  __init__ Example.as_integer Example.gp_init Example.features
    Example.targets tt Example.mean Example.covariance_scale 0%Z (1, 9)%Z
    = Ok Example.posterior /\
  exists xs rs,
    decode_extended_features Example.as_integer Example.features (1, 9)%Z
      = Ok (xs, rs) /\
    (forall r, dict_mem (_states Example.posterior) r = true <->
               In r (dict_keys Example.mean) /\ In r rs) /\
    _mean Example.posterior = Example.mean /\
    num_data Example.posterior = length Example.features.
Proof.
  assert (__init__ Example.as_integer Example.gp_init Example.features
            Example.targets tt Example.mean Example.covariance_scale 0%Z
            (1, 9)%Z = Ok Example.posterior) as H2 by reflexivity.
  split; [ exact example_mean_keys_NoDup | ]. split; [ exact H2 | ].
  exact (@init_states_are_levels_with_data _ Example.as_integer _ _ _
           Example.gp_init _ _ _ _ _ _ _ _ example_mean_keys_NoDup H2).
Defined.

(** The hypothesis of [init_key_mismatch_fails] holds for a covariance scale
    without the key 9 of [mean]. *)
Lemma init_key_mismatch_fails_witness :
  (exists k, dict_mem Example.mean k <> dict_mem [(1, 1); (3, 1)]%Z k) /\
  __init__ Example.as_integer Example.gp_init Example.features
    Example.targets tt Example.mean [(1, 1); (3, 1)]%Z 0%Z (1, 9)%Z
  = Raise (AssertionError "mean, covariance_scale must have the same keys").
Proof.
  assert (exists k, dict_mem Example.mean k
                    <> dict_mem [(1, 1); (3, 1)]%Z k) as H1.
  { exists 9%Z. simpl. discriminate. }
  split; [ exact H1 | ].
  exact (@init_key_mismatch_fails _ Example.as_integer _ _ _
           Example.gp_init Example.features Example.targets tt _ _ 0%Z
           (1, 9)%Z H1).
Defined.

(** The hypotheses of [init_then_sample_joint_returns] hold for the concrete
    posterior state and the batch at the resources 9, 1. *)
Lemma init_then_sample_joint_returns_witness :
  __init__ Example.as_integer Example.gp_init Example.features
    Example.targets tt Example.mean Example.covariance_scale 0%Z (1, 9)%Z
    = Ok Example.posterior /\
  shape1 Example.targets = 1 /\
  decode_extended_features Example.as_integer Example.batch_unseen (1, 9)%Z
    = Ok ([[5]; [7]], [9; 1])%Z /\
  (forall r, In r [9; 1]%Z -> In r (dict_keys Example.mean)) /\
  exists samples random_state',
    sample_joint 0%Z Example.as_integer Example.py_set Example.posterior
      Example.batch_unseen 2 5 = Ok (samples, random_state') /\
    length samples = 2.
Proof.
  assert (__init__ Example.as_integer Example.gp_init Example.features
            Example.targets tt Example.mean Example.covariance_scale 0%Z
            (1, 9)%Z = Ok Example.posterior) as H1 by reflexivity.
  assert (decode_extended_features Example.as_integer Example.batch_unseen
            (1, 9)%Z = Ok ([[5]; [7]], [9; 1])%Z) as H2 by reflexivity.
  assert (forall r, In r [9; 1]%Z -> In r (dict_keys Example.mean)) as H3.
  { intros r [<- | [<- | []]]; simpl; auto. }
  split; [ exact H1 | ]. split; [ reflexivity | ].
  split; [ exact H2 | ]. split; [ exact H3 | ].
  exact (@init_then_sample_joint_returns _ 0%Z Example.as_integer _ _ _
           Example.py_set Example.gp_init example_py_set_NoDup
           example_py_set_In _ _ _ _ _ _ _ _ _ _ _ 2 5 H1 eq_refl H2 H3).
Defined.

(** The hypotheses of [init_then_predict_returns] hold for the concrete
    posterior state and its own training inputs as the batch. *)
Lemma init_then_predict_returns_witness :
  NoDup (dict_keys Example.mean) /\
  __init__ Example.as_integer Example.gp_init Example.features
    Example.targets tt Example.mean Example.covariance_scale 0%Z (1, 9)%Z
    = Ok Example.posterior /\
  decode_extended_features Example.as_integer Example.features (1, 9)%Z
    = Ok ([[4]; [2]; [8]], [1; 3; 1])%Z /\
  matrix_rows Example.features <> [] /\
  (forall r, In r [1; 3; 1]%Z ->
             In r (dict_keys Example.mean) /\ In r [1; 3; 1]%Z) /\
  exists means vars,
    predict Example.as_integer Example.py_set Example.argsort
      Example.posterior Example.features = Ok (means, vars) /\
    length means = 3 /\ length vars = 3.
Proof.
  assert (__init__ Example.as_integer Example.gp_init Example.features
            Example.targets tt Example.mean Example.covariance_scale 0%Z
            (1, 9)%Z = Ok Example.posterior) as H1 by reflexivity.
  assert (decode_extended_features Example.as_integer Example.features
            (1, 9)%Z = Ok ([[4]; [2]; [8]], [1; 3; 1])%Z) as H2
    by reflexivity.
  assert (matrix_rows Example.features <> []) as H3 by discriminate.
  assert (forall r, In r [1; 3; 1]%Z ->
            In r (dict_keys Example.mean) /\ In r [1; 3; 1]%Z) as H4.
  { intros r [<- | [<- | [<- | []]]]; simpl; auto. }
  split; [ exact example_mean_keys_NoDup | ]. split; [ exact H1 | ].
  split; [ exact H2 | ]. split; [ exact H3 | ]. split; [ exact H4 | ].
  exact (@init_then_predict_returns _ Example.as_integer _ _ _
           Example.py_set Example.argsort Example.gp_init example_py_set_In
           example_argsort_perm _ _ _ _ _ _ _ _ _ _ _ _ _
           example_mean_keys_NoDup H1 H2 H2 H3 H4).
Defined.

(** The hypothesis of [init_without_data_has_no_states] holds for the prior
    means and covariance scales of the concrete model. *)
Lemma init_without_data_has_no_states_witness :
  matrix_rows Example.no_features = [] /\
  same_keys Example.mean Example.covariance_scale = true /\
  exists st,
    __init__ Example.as_integer Example.gp_init Example.no_features
      Example.no_targets tt Example.mean Example.covariance_scale 0%Z
      (1, 9)%Z = Ok st /\
    _states st = [] /\
    neg_log_likelihood 0%Z Z.add st = 0%Z.
Proof.
  split; [ reflexivity | ]. split; [ reflexivity | ].
  exact (@init_without_data_has_no_states _ 0%Z Z.add Example.as_integer
           _ _ _ Example.gp_init Example.no_features Example.no_targets tt
           Example.mean Example.covariance_scale 0%Z (1, 9)%Z eq_refl
           eq_refl).
Defined.

(** The hypothesis of [register_pending_keeps_ledger_consistent] holds for
    the concrete searcher; the pair (t2, 3) is new and becomes pending. *)
Lemma register_pending_keeps_ledger_consistent_witness :
  state_transformer Example.searcher
    = Some {| state := Example.ledger; model_factory := tt;
              skip_optimization := false; model_params := None |} /\
  exists st',
    state_transformer
      (snd (register_pending Example.searcher "t2" None (Some 3%Z)))
      = Some st' /\
    pending_not_observed (state st') /\
    is_pending (state st') "t2" 3 = true.
Proof.
  split; [ reflexivity | ].
  destruct (@register_pending_keeps_ledger_consistent _ _ _ _ _ _ _
              Example.searcher _ "t2"%string None (Some 3%Z) eq_refl)
    as (st' & E & Hinv & _ & _ & _ & Hp).
  exists st'. split; [ exact E | ].
  split; [ exact (Hinv example_ledger_invariant) | ].
  exact (Hp 3%Z eq_refl eq_refl).
Defined.

(** The hypothesis of [evaluation_failed_keeps_ledger_consistent] holds for
    the concrete searcher. *)
Lemma evaluation_failed_keeps_ledger_consistent_witness :
  state_transformer Example.searcher
    = Some {| state := Example.ledger; model_factory := tt;
              skip_optimization := false; model_params := None |} /\
  exists st',
    evaluation_failed Example.searcher "t1"
      = (Ok tt, set_state_transformer Example.searcher (Some st')) /\
    pending_not_observed (state st') /\
    NoDup (failed_trials (state st')) /\
    In "t1"%string (failed_trials (state st')) /\
    trials_evaluations (state st') = trials_evaluations Example.ledger.
Proof.
  split; [ reflexivity | ].
  destruct (@evaluation_failed_keeps_ledger_consistent _ _ _ _ _ _ _
              Example.searcher _ "t1"%string eq_refl)
    as (st' & E & Hinv & _ & Hnd & Hin & _ & Hobs & _).
  exists st'. split; [ exact E | ].
  split; [ exact (Hinv example_ledger_invariant) | ].
  split; [ apply Hnd; constructor | ].
  split; [ exact Hin | exact Hobs ].
Defined.

(** The hypotheses of [remove_case_then_register_pending] hold for the
    concrete searcher and the observed pair (t1, 1). *)
Lemma remove_case_then_register_pending_witness :
  state_transformer Example.searcher
    = Some {| state := Example.ledger; model_factory := tt;
              skip_optimization := false; model_params := None |} /\
  _resource_attr Example.searcher = Some "epoch"%string /\
  kwargs_get [("epoch"%string, 1%Z)] "epoch" = Ok 1%Z /\
  is_labeled Example.ledger "t1" 1 = true /\
  exists st',
    remove_case Example.searcher "t1" [("epoch"%string, 1%Z)]
      = (Ok tt, set_state_transformer Example.searcher (Some st')) /\
    is_labeled (state st') "t1" 1 = false /\
    fst (register_pending
           (set_state_transformer Example.searcher (Some st')) "t1" None
           (Some 1%Z)) = Ok tt.
Proof.
  split; [ reflexivity | ]. split; [ reflexivity | ].
  split; [ reflexivity | ]. split; [ reflexivity | ].
  destruct (@remove_case_then_register_pending _ _ _ _ _ _ _
              Example.searcher _ "t1"%string [("epoch"%string, 1%Z)]
              "epoch"%string 1%Z None eq_refl eq_refl eq_refl eq_refl)
    as (st' & E & Hnl & _ & _ & Hreg).
  exists st'. auto.
Defined.
